(* ===== verification/_CoqProject ===== *)
-Q . S2P
Prelude.v
JsValue.v
JsString.v
JsDate.v
Normalize.v
Hosts.v
Enrich.v
Filter.v
Facets.v
FilterPanel.v
FlowItem.v
Styles.v
Panel.v
ReactLoop.v
ReactPanel.v
Types.v
TemplateEditor.v
DetailItem.v
