(* ===== verification/Prelude.v ===== *)
(** * A verification development of the grafana-flow panel

    The repository is a Grafana panel plugin that draws a SIP-style
    sequence diagram.  Its algorithmic part is the data pipeline of
    [src/src/components/FlowVisualization/FlowVisualization.tsx]
    (component [FlowVisualization], lines 104-331).  Its [useMemo]
    hooks turn the host's columnar result set into flow messages, the
    header hosts, the method facets and the filtered list; a
    [useEffect] copies them into state; two handlers dispatch click and
    export events on [window].  The filter state is edited through
    [FilterPanel.tsx].  Each message is drawn by [FlowItem.tsx] (arrow
    direction, method colour).  [TemplateEditor.tsx] shows a preview of
    the panel on mock data, and [FlowModal/DetailItem.tsx] renders one
    attribute of a message.

    ** How the program's parts interact

    raw [data.series[0].fields]
      -> row normalisation: the [fields.forEach] loop, lines 127-142
      -> host positions: [uniqueHosts], [sort], [hostPositions], lines 144-155
      -> enrichment: positions, [hash], final [filter], lines 157-164
      -> { facets: [extractedHosts], [availableMethods], lines 167-182 ;
           filter evaluation: [filteredData], lines 184-222 }
      -> the [useEffect] that commits [flowData] and [hosts], lines 225-228
      -> the render: title counts, [FilterPanel], host header, one
         [FlowItem] per message of [flowData], lines 251-330
      -> click and export events on [window], lines 230-245.
    [FilterPanel] owns no state.  Its handlers call [onFiltersChange]
    (which is [setFilters]) with a new [FilterOptions] value, and the
    next render recomputes [filteredData].

    ** Files, Modules and the code they model

    - [Prelude] (this file): the scope [flow_scope], the JS exception
      effect as the error monad [res] ([Ok]/[Throw], bound by
      [x <- m ;; k]), [Array.prototype.filter] with a callback that may
      throw ([js_filter]), the hint databases [flow] and [flow_rw], the
      tactic [res_simpl], and the list and string lemmas shared by the
      components.
    - [JsValue]: the values a Grafana field holds ([jsval]: undefined,
      null, booleans, integers, strings), truthiness, [String(x)],
      [a || b], [===], objects as [gmap string jsval] read with [!!!],
      [Set.prototype.add] on an insertion-ordered list, the stable
      default [sort] by [String(x)], and React's rendering of a child.
    - [JsString]: [toLowerCase], [includes] and [parseInt(s, 10)].
    - [JsDate]: TimeClip and [Date.prototype.toISOString] through the
      proleptic Gregorian calendar, with MakeDay as the converse.
    - [Normalize] (Module [RowNormalizer]): the row normaliser on the JS
      array [messages] with holes ([list (option jsobj)]).
    - [Hosts] ([EndpointPositions]): [uniqueHosts], the sorted host
      array and [hostPositions].
    - [Enrich] ([MessageEnricher]): the whole [processedData] memo.
    - [Filter] ([FilterEvaluator]): [FilterOptions], the six guards of
      [filteredData], and the contract of section 4.4 of the design
      document ([spec_includes]).
    - [Facets] ([FacetExtractor]): [extractedHosts], [availableMethods].
    - [FilterPanel] ([FilterPanelModel]): the handlers, the
      [hasActiveFilters] chain, the collapsed and open render, and
      [ui_handler], which handler one user action on the panel calls;
      [FilterPanelProps] and the component [FilterPanel], which
      [render_panel] calls with the props of FlowVisualization.tsx.
    - [FlowItem] ([FlowItemModel]): [getArrowDirection],
      [getMethodColor] (with [toUpperCase] as UTF-16 code units) and the
      row render; the theme and [toLocaleTimeString] are variables;
      [FlowItemProps] and the component [FlowItem] with its default
      props, which the list of the panel renders.
    - [Styles] (Modules [FlowItemCss], [FilterPanelCss],
      [FlowVisualizationCss], [DetailItemCss], [TemplateEditorCss]):
      the five [getStyles] as records of their style texts with the
      theme colours interpolated; emotion's [css] is a variable and its
      [cx] is written out; [flow_item_classes] is the [className] of
      every element of a row.
    - [Panel] ([FlowPanel]): the component.  [panel_state] is its state
      hooks with the cached [processedData]; [render_panel] is one
      render, which may throw; [commit] is render, effect, render;
      [panel_step] is one event (new data, a filter input, the filter
      toggle, a row click, an export) on a [world] that also keeps the
      dispatched [window] events in order.  A render that throws
      unmounts the component ([Crashed]).
    - [ReactLoop] ([ReactLoop]): how React schedules the renders and the
      effect.  Memo and effect dependencies are compared by identity,
      kept as numbers in a [fiber]; [react_loop] renders, runs the
      effect when its dependencies changed, and renders again when the
      effect changed a state.
    - [ReactPanel] ([ReactPanel]): every event of the component run the
      way React runs it: a [setState] or a new [data] prop changes the
      identities and triggers the loop, bounded by React's nested update
      limit; [fiber_step] is related to [panel_step] step by step.
    - [Types] ([TsTypes]): [FlowOptions] of [types.ts], the item type of
      [FlowItemProps] and the [FilterOptions] interface as run-time
      conformance checks, and the typed frames they are checked against.
    - [TemplateEditor] ([TemplatePreview]): the [isOpen] state and the
      preview mounted on the mock data while open.
    - [DetailItem] ([DetailItemModel]): the date and JSON tests and the
      block or grid render with the truncated key label, and its props
      record; [Date.parse] of a string and [JSON.parse] are variables.

    ** What the theorems show

    - The pipeline: the normaliser equals a row-major reference; the
      positions are the inverse of the sorted host array (a bijection
      onto 0..k-1, bounded by the number of hosts), independent of the
      row order when hosts are strings and dependent on it otherwise;
      the header columns and the arrows agree; [filteredData] refines
      the section 4.4 contract on typed items, is the identity on the
      cleared filter, preserves order, is idempotent and
      case-insensitive in its search term; the errors-only guard reads
      numeric response codes back exactly ([parseInt(String(n)) = n]);
      synthesised hashes are distinct whatever [Date.now()] returns,
      and equal [hash] cells make two messages share a hash.
    - The filter panel: every reachable filter state has a
      duplicate-free method list; the indicator is off exactly on the
      cleared state; a method check box toggles its own method only,
      so a double click changes nothing; the clear button always gives
      the identity filter.
    - The component: every reachable mounted state is settled (the list
      is the filtered list and the header the facets), and what it
      shows is consistent; export and click events carry the filtered
      list and a kept message; dispatched events are never changed; a
      filter input never changes the facets; two clicks always show
      every message (liveness); the panel never crashes on well-typed
      data; the preview of the template editor always shows the empty
      state.
    - React: the render/effect loop stops after at most two renders
      (termination), and when the effect's dependencies changed it
      computes [commit], the sequence the component theorems use
      (refinement).  Whole runs of events under React are simulated by
      the runs of [panel_step]: same state or same exception, same
      dispatched events, and the update depth limit is never reached.
    - The declared types: on a typed frame a processed message has the
      type of [FlowItemProps] exactly when its source and destination
      are strings; the filter state of a panel fed typed frames always
      has the type of [FilterOptions].
    - The calendar (lemmas of [JsDate] used by [DetailItem]):
      [toISOString]'s split of a day number is inverted by MakeDay and
      always gives a real date.
    - The findings, proved as theorems: non-numeric response codes pass
      "errors only"; a numeric Call-ID makes [filteredData] throw, and the
      first render crashes exactly when a message has a truthy method
      that is not a string; the
      final [Object.keys] filter drops nothing; positions depend on row
      order for [1] and ["1"]; a [hash] column can collide; [DetailItem]
      throws on [false] and non-positive numbers and shows every
      positive number as a 1970 date; the nested rule of the
      [simplified] style selects a class no element has; a message
      without a source or destination reaches [FlowItem] although its
      props type declares both required.
    The manifest [PROJECT.json] lists each property with its claim id,
    which also opens the theorem's doc comment.

    ** Modelling choices and bounds

    - Strings are Stdlib [string]s of 8-bit characters standing for JS
      strings whose UTF-16 code units are below 256 (Latin-1).  On them
      code-unit order is [String.compare]; [toLowerCase] lowers A-Z and
      the Latin-1 capitals; [toUpperCase] is given as code units
      because three Latin-1 letters have capitals beyond Latin-1.
    - JS numbers are integers ([Z]).  [String(n)] is stdpp's [pretty],
      which matches JS below 10^21.  Fractions, NaN and -0 are not field
      values of the model.
    - [Date.now()] is a clock [now : nat -> nat] of the memo: line 161
      calls it once per row, and [now i] is what it returns while row
      [i] is enriched.  The theorems hold for every clock, the
      concrete instances use one that advances by one per row.  Time
      values are integers of milliseconds; the
      calendar is checked by evaluation over one 400-year cycle of
      146097 days, which covers every day number by periodicity.
    - Everything is a total function.  Every loop of the code is a
      [forEach], [filter], [map] or [sort] over a finite array, and the
      component's runs are finite lists of events.  The one fuel is that
      of [react_loop], which counts renders; two are enough for every
      state ([react_loop_terminates]), and [ReactPanel] runs it with
      React's limit of 50 nested updates.
    - Emotion's class name of a style text ([css]) is a variable; the
      theorem on the [simplified] rule assumes only that distinct texts
      get distinct names, which emotion's hash gives up to collisions.
    - React is modelled at the level the code relies on: a state update
      re-renders; an effect runs after the render when its dependencies
      changed; an exception during render unmounts the component.

    ** What is not modelled

    The class names of the elements of [FilterPanel], [FlowVisualization],
    [DetailItem] and [TemplateEditor], and the layout the browser
    computes from the styles.  [Date.parse] of arbitrary strings,
    [JSON.parse] and [toLocaleTimeString] are implementation- or
    locale-defined library calls, kept as variables.  Of the options of
    [types.ts] only [isSimplify] is read under [src/]; the others are
    declared and set by the template editor but drive no code. *)

From stdpp Require Export base list gmap strings sorting pretty.
From Stdlib Require Export Lia.

Declare Scope flow_scope.
Delimit Scope flow_scope with flow.
Open Scope flow_scope.

Create HintDb flow.
Create Rewrite HintDb flow_rw.

(** ** The JS exception effect *)

(** The only exception the modelled code can raise is a [TypeError]
    (calling a method that does not exist on a value). *)
Inductive js_error : Type :=
| TypeError (what : string).

Inductive res (A : Type) : Type :=
| Ok (a : A)
| Throw (e : js_error).
Arguments Ok {A} a.
Arguments Throw {A} e.

Definition res_bind {A B} (m : res A) (k : A -> res B) : res B :=
  match m with
  | Ok a => k a
  | Throw e => Throw e
  end.

Notation "x <- m ;; k" := (res_bind m (fun x => k))
  (at level 100, m at next level, right associativity) : flow_scope.

Definition is_ok {A} (m : res A) : bool :=
  match m with Ok _ => true | Throw _ => false end.

Lemma is_ok_Ok {A} (m : res A) : is_ok m = true -> exists a, m = Ok a.
Proof. destruct m; [by eexists|done]. Qed.

(** [arr.filter(cb)]: the callback runs on the elements from left to
    right, and the first exception escapes. *)
Fixpoint js_filter {A} (cb : A -> res bool) (l : list A) : res (list A) :=
  match l with
  | [] => Ok []
  | x :: l' =>
      b <- cb x ;;
      r <- js_filter cb l' ;;
      Ok (if b then x :: r else r)
  end.

Ltac res_simpl :=
  repeat first
    [ progress cbn [res_bind js_filter] in *
    | match goal with
      | H : Ok _ = Ok _ |- _ => injection H as H
      | H : Ok _ = Throw _ |- _ => discriminate H
      | H : Throw _ = Ok _ |- _ => discriminate H
      end ].

(** ** Lemmas on [js_filter] shared by the components *)

Section JsFilter.
Context {A : Type} (cb : A -> res bool).

(** When no callback throws, [js_filter] is stdpp's [filter] of the
    callback's answers. *)
Lemma js_filter_ok (P : A -> bool) (l : list A) :
  (forall x, x ∈ l -> cb x = Ok (P x)) ->
  js_filter cb l = Ok (filter (fun x => P x = true) l).
Proof.
  induction l as [|x l IH]; intros Hcb; [done|].
  cbn [js_filter res_bind]. rewrite Hcb by set_solver. cbn [res_bind].
  rewrite IH by set_solver. cbn [res_bind].
  rewrite filter_cons. by destruct (P x).
Qed.

Lemma js_filter_sublist (l r : list A) :
  js_filter cb l = Ok r -> r `sublist_of` l.
Proof.
  revert r. induction l as [|x l IH]; intros r H; res_simpl.
  - subst. done.
  - destruct (cb x) as [b|e]; res_simpl.
    destruct (js_filter cb l) as [r'|e] eqn:E; res_simpl.
    subst. specialize (IH r' eq_refl).
    destruct b; [by apply sublist_skip | by apply sublist_cons].
Qed.

(** An element is kept exactly when its callback said [true]. *)
Lemma js_filter_elem (l r : list A) (x : A) :
  js_filter cb l = Ok r -> x ∈ r -> cb x = Ok true.
Proof.
  revert r. induction l as [|y l IH]; intros r H Hx; res_simpl.
  - subst. set_solver.
  - destruct (cb y) as [b|e] eqn:Ey; res_simpl.
    destruct (js_filter cb l) as [r'|e] eqn:E; res_simpl.
    subst. destruct b; [|eauto].
    apply elem_of_cons in Hx as [->|Hx]; eauto.
Qed.

(** A run that returns has every callback answered without an
    exception. *)
Lemma js_filter_ok_inv (l r : list A) :
  js_filter cb l = Ok r ->
  forall x, x ∈ l -> exists b, cb x = Ok b.
Proof.
  revert r. induction l as [|y l IH]; intros r H x Hx; res_simpl.
  - set_solver.
  - destruct (cb y) as [b|e] eqn:Ey; res_simpl.
    destruct (js_filter cb l) as [r'|e] eqn:E; res_simpl.
    apply elem_of_cons in Hx as [->|Hx]; eauto.
Qed.

(** Filtering a second time with a callback that keeps what it kept
    the first time returns the same list. *)
Lemma js_filter_idem (l r : list A) :
  js_filter cb l = Ok r -> js_filter cb r = Ok r.
Proof.
  intros H.
  assert (Hr : forall x, x ∈ r -> cb x = Ok true)
    by (intros x; apply (js_filter_elem l r x H)).
  clear H. induction r as [|x r IH]; [done|].
  cbn [js_filter res_bind]. rewrite Hr by set_solver. cbn [res_bind].
  rewrite IH by set_solver. done.
Qed.
(** A callback that never throws gives a run that returns. *)
Lemma js_filter_total (l : list A) :
  (forall x, x ∈ l -> exists b, cb x = Ok b) -> exists r, js_filter cb l = Ok r.
Proof.
  induction l as [|x l IH]; intros Hcb; [by exists []|].
  destruct (Hcb x) as [b Hb]; [set_solver|]. destruct IH as [r Hr]; [set_solver|].
  cbn [js_filter]. rewrite Hb, Hr. by eexists.
Qed.
End JsFilter.

#[export] Hint Resolve js_filter_sublist js_filter_idem : flow.

(** ** Insertion-ordered sets: a JS [Set] as the list of its elements in
    insertion order, with [set.add(x)] a no-op on a member. *)
Definition set_add {A} `{EqDecision A} (x : A) (s : list A) : list A :=
  if decide (x ∈ s) then s else s ++ [x].

Lemma elem_of_set_add {A} `{EqDecision A} (x y : A) (s : list A) :
  y ∈ set_add x s <-> y = x \/ y ∈ s.
Proof. unfold set_add. case_decide; set_solver. Qed.

Lemma NoDup_set_add {A} `{EqDecision A} (x : A) (s : list A) :
  NoDup s -> NoDup (set_add x s).
Proof.
  unfold set_add. intros Hs. case_decide; [done|].
  apply NoDup_app. repeat split; [done| |by apply NoDup_singleton].
  set_solver.
Qed.

#[export] Hint Resolve NoDup_set_add : flow.
#[export] Hint Rewrite @elem_of_set_add : flow_rw.

(** ** Lemmas on stdpp's [filter] *)

Lemma filter_Forall_id {A} (P : A -> Prop) `{!forall x, Decision (P x)} (l : list A) :
  Forall P l -> filter P l = l.
Proof.
  induction 1 as [|x l Hx _ IH]; [done|].
  rewrite filter_cons, decide_True by done. by rewrite IH.
Qed.

Lemma forallb_false_elem_of {A} (f : A -> bool) (l : list A) :
  forallb f l = false -> exists x, x ∈ l /\ f x = false.
Proof.
  induction l as [|x l IH]; cbn; [done|]. destruct (f x) eqn:E; cbn.
  - intros (y & Hy & Hf)%IH. exists y. split; [by apply elem_of_cons; right|done].
  - intros _. exists x. split; [apply elem_of_cons; by left|done].
Qed.

(** A filter whose callback keeps everything returns the list. *)
Lemma js_filter_true {A} (cb : A -> res bool) (l : list A) :
  (forall x, x ∈ l -> cb x = Ok true) -> js_filter cb l = Ok l.
Proof.
  intros Hcb. rewrite (js_filter_ok cb (fun _ => true)) by done.
  f_equal. by apply filter_Forall_id, Forall_true.
Qed.

(** [imap] over the indices themselves. *)
Lemma imap_seq_0_diag {B} (h : nat -> nat -> B) (n : nat) :
  imap h (seq 0 n) = (fun i => h i i) <$> seq 0 n.
Proof.
  apply list_eq. intros i. rewrite list_lookup_imap, list_lookup_fmap.
  destruct (decide (i < n)); [by rewrite lookup_seq_lt|by rewrite lookup_seq_ge by lia].
Qed.

Lemma filter_Forall_nil {A} (P : A -> Prop) `{!forall x, Decision (P x)} (l : list A) :
  Forall (fun x => ~ P x) l -> filter P l = [].
Proof.
  induction 1 as [|x l Hx _ IH]; [done|].
  by rewrite filter_cons, decide_False.
Qed.

(** ** Lemmas on [String.append] (which stdpp keeps from [simpl]) *)

Lemma string_app_cons (x : Ascii.ascii) (a b : string) :
  String x a +:+ b = String x (a +:+ b).
Proof. done. Qed.

Lemma string_app_nil_l (b : string) : "" +:+ b = b.
Proof. done. Qed.

Lemma string_app_assoc (a b c : string) : a +:+ b +:+ c = (a +:+ b) +:+ c.
Proof. induction a as [|x a IH]; [done|]. by rewrite !string_app_cons, IH. Qed.

Lemma string_app_nil_r (a : string) : a +:+ "" = a.
Proof. induction a as [|x a IH]; [done|]. by rewrite string_app_cons, IH. Qed.

#[export] Hint Rewrite string_app_cons string_app_nil_l string_app_nil_r : flow_rw.

Lemma string_length_app (a b : string) :
  String.length (a +:+ b) = String.length a + String.length b.
Proof. induction a as [|x a IH]; [done|]. rewrite string_app_cons. cbn. by rewrite IH. Qed.

(** Cancelling a common suffix. *)
Lemma string_app_inv_r (a b s : string) : a +:+ s = b +:+ s -> a = b.
Proof.
  revert b. induction a as [|x a IH]; intros [|y b] H; [done| | |].
  - apply (f_equal String.length) in H. rewrite string_app_cons in H.
    cbn in H. rewrite !string_length_app in H. cbn in H. lia.
  - apply (f_equal String.length) in H. rewrite string_app_cons in H.
    cbn in H. rewrite !string_length_app in H. cbn in H. lia.
  - rewrite !string_app_cons in H. injection H as -> H. f_equal. by apply IH.
Qed.

(** ** Lemmas on [gmap] *)

(** A map with two distinct keys bound has at least two entries. *)
Lemma gmap_size_two_keys {K V} `{Countable K} (m : gmap K V) k1 k2 v1 v2 :
  k1 <> k2 -> m !! k1 = Some v1 -> m !! k2 = Some v2 -> 1 < size m.
Proof.
  intros Hne H1 H2.
  assert (<[k1 := v1]> {[k2 := v2]} ⊆ m) as Hsub.
  { apply map_subseteq_spec. intros k v. rewrite lookup_insert.
    case_decide; [naive_solver|]. rewrite lookup_singleton. case_decide; naive_solver. }
  apply map_subseteq_size in Hsub.
  rewrite map_size_insert_None, map_size_singleton in Hsub; [lia|].
  by rewrite lookup_singleton_ne.
Qed.

Lemma js_filter_ext {A} (cb1 cb2 : A -> res bool) (l : list A) :
  (forall x, x ∈ l -> cb1 x = cb2 x) -> js_filter cb1 l = js_filter cb2 l.
Proof.
  induction l as [|x l IH]; intros Hcb; [done|]. cbn.
  rewrite Hcb, IH by set_solver. done.
Qed.
