(* ===== verification/JsValue.v ===== *)
(** * JavaScript values, objects and the default array sort

    The cells of a Grafana data frame are untyped ([any]) in the panel's
    code.  This file models the values they hold, the coercions the
    pipeline applies to them ([if (x)], [x || y], template literals,
    [===]), plain objects used as records, and the
    [Array.prototype.sort()] call with no comparator that orders the
    hosts (FlowVisualization.tsx, lines 153 and 179-180). *)

From S2P Require Import Prelude.

(** ** Values *)

(** The values a field can hold.  Numbers are integers (see the header
    of [Prelude] for the bound). *)
Inductive jsval : Type :=
| JUndefined
| JNull
| JBool (b : bool)
| JNumber (n : Z)
| JString (s : string).

#[export] Instance jsval_eq_dec : EqDecision jsval.
Proof. solve_decision. Defined.

(** Reading a missing property gives [undefined]: [o !!! k] below. *)
#[export] Instance jsval_inhabited : Inhabited jsval := populate JUndefined.

Definition jsval_to_sum (v : jsval) : (unit + unit + bool + Z + string)%type :=
  match v with
  | JUndefined => inl (inl (inl (inl tt)))
  | JNull => inl (inl (inl (inr tt)))
  | JBool b => inl (inl (inr b))
  | JNumber n => inl (inr n)
  | JString s => inr s
  end.

Definition jsval_of_sum (x : (unit + unit + bool + Z + string)%type) : jsval :=
  match x with
  | inl (inl (inl (inl _))) => JUndefined
  | inl (inl (inl (inr _))) => JNull
  | inl (inl (inr b)) => JBool b
  | inl (inr n) => JNumber n
  | inr s => JString s
  end.

(** [Map] and [Set] keys: the hosts are keys of a [Map<any, number>]. *)
#[export] Instance jsval_countable : Countable jsval.
Proof. apply (inj_countable' jsval_to_sum jsval_of_sum). by intros []. Defined.

(** [if (v)]: ToBoolean. *)
Definition truthy (v : jsval) : bool :=
  match v with
  | JUndefined | JNull => false
  | JBool b => b
  | JNumber n => negb (Z.eqb n 0)
  | JString s => negb (String.eqb s "")
  end.

(** [a || b] returns its left operand when it is truthy. *)
Definition js_or (a b : jsval) : jsval := if truthy a then a else b.

Infix "||?" := js_or (at level 50, left associativity) : flow_scope.

(** [String(v)] and [`${v}`]: ToString. *)
Definition js_to_string (v : jsval) : string :=
  match v with
  | JUndefined => "undefined"
  | JNull => "null"
  | JBool true => "true"
  | JBool false => "false"
  | JNumber n => pretty n
  | JString s => s
  end.

(** [a === b].  On this value domain (no NaN) it coincides with
    SameValueZero, the equality of [Set], [Map] and [includes]. *)
Definition js_strict_eq (a b : jsval) : bool := bool_decide (a = b).

(** What React renders for a child expression: a string or a number
    is shown as text ([String(v)]); [undefined], [null] and booleans
    render nothing. *)
Definition react_text (v : jsval) : string :=
  match v with
  | JString s => s
  | JNumber _ => js_to_string v
  | _ => ""
  end.

(** ** Objects *)

(** A plain object with string keys.  [Object.keys(o).length] is
    [size o]; [o.k] is [o !!! k]; [o.k = v] is [<[k := v]> o]. *)
Abbreviation jsobj := (gmap string jsval).

(** ** The default sort *)

(** [a.sort()] with no comparator.  Undefined elements go last.  The
    others are compared by [String(x) < String(y)] on code units, and
    the sort is stable (ECMAScript 2019).  A stable sort's result is
    unique, so any stable algorithm gives the same array as this
    insertion sort, which inserts each element after the elements that
    are not greater than it. *)
Definition key_lt (x y : jsval) : bool :=
  String.ltb (js_to_string x) (js_to_string y).

Fixpoint sort_insert (x : jsval) (l : list jsval) : list jsval :=
  match l with
  | [] => [x]
  | y :: l' => if key_lt x y then x :: l else y :: sort_insert x l'
  end.

Definition js_sort_default (l : list jsval) : list jsval :=
  foldl (fun acc x => sort_insert x acc) []
        (filter (fun v => v <> JUndefined) l)
  ++ filter (fun v => v = JUndefined) l.

(** The order the sort establishes: [String(x) <= String(y)]. *)
Definition key_le (x y : jsval) : Prop :=
  String.le (js_to_string x) (js_to_string y).

#[export] Instance key_le_dec : RelDecision key_le.
Proof. intros x y. unfold key_le. apply _. Defined.

(** ** Lemmas *)

Lemma truthy_js_or_l (a b : jsval) : truthy a = true -> (a ||? b) = a.
Proof. unfold js_or. by intros ->. Qed.

Lemma falsy_js_or (a b : jsval) : truthy a = false -> (a ||? b) = b.
Proof. unfold js_or. by intros ->. Qed.

Lemma truthy_js_or (a b : jsval) : truthy (a ||? b) = truthy a || truthy b.
Proof. unfold js_or. destruct (truthy a) eqn:E; [exact E|reflexivity]. Qed.

#[export] Hint Rewrite truthy_js_or_l falsy_js_or using done : flow_rw.

Lemma truthy_not_undefined (v : jsval) : truthy v = true -> v <> JUndefined.
Proof. by destruct v. Qed.

#[export] Hint Resolve truthy_not_undefined : flow.

Lemma key_lt_false (x y : jsval) : key_lt x y = false -> key_le y x.
Proof.
  unfold key_lt, key_le, String.le, String.ltb, String.leb.
  rewrite (String.compare_antisym (js_to_string y)).
  by destruct (String.compare (js_to_string x) (js_to_string y)).
Qed.

Lemma key_lt_true (x y : jsval) : key_lt x y = true -> key_le x y.
Proof.
  unfold key_lt, key_le, String.le, String.ltb, String.leb.
  by destruct (String.compare (js_to_string x) (js_to_string y)).
Qed.

#[export] Instance key_le_trans : Transitive key_le.
Proof. intros x y z. unfold key_le. apply (transitivity (R:=String.le)). Qed.

#[export] Instance key_le_total : Total key_le.
Proof. intros x y. unfold key_le. apply String.le_total. Qed.

Lemma sort_insert_perm (x : jsval) (l : list jsval) :
  sort_insert x l ≡ₚ x :: l.
Proof.
  induction l as [|y l IH]; [done|]. cbn.
  destruct (key_lt x y); [done|].
  rewrite IH. by constructor.
Qed.

Lemma sort_insert_sorted (x : jsval) (l : list jsval) :
  StronglySorted key_le l -> StronglySorted key_le (sort_insert x l).
Proof.
  induction l as [|y l IH]; intros Hs; cbn.
  - repeat constructor.
  - apply StronglySorted_inv in Hs as [Hl Hy].
    destruct (key_lt x y) eqn:E.
    + constructor; [by constructor|].
      constructor; [by apply key_lt_true|].
      eapply Forall_impl; [exact Hy|]. intros z Hz.
      etrans; [by apply key_lt_true|exact Hz].
    + constructor; [by apply IH|].
      apply Forall_forall. intros z Hz.
      rewrite sort_insert_perm in Hz.
      apply elem_of_cons in Hz as [->|Hz]; [by apply key_lt_false|].
      by eapply Forall_forall in Hy.
Qed.

Lemma foldl_sort_insert_perm (acc l : list jsval) :
  foldl (fun acc x => sort_insert x acc) acc l ≡ₚ acc ++ l.
Proof.
  revert acc. induction l as [|x l IH]; intros acc; cbn.
  - by rewrite app_nil_r.
  - rewrite IH, sort_insert_perm. cbn. by rewrite <-Permutation_middle.
Qed.

Lemma foldl_sort_insert_sorted (acc l : list jsval) :
  StronglySorted key_le acc ->
  StronglySorted key_le (foldl (fun acc x => sort_insert x acc) acc l).
Proof.
  revert acc. induction l as [|x l IH]; intros acc Hs; cbn; [done|].
  by apply IH, sort_insert_sorted.
Qed.

(** On a list without [undefined] the sort is the insertion sort. *)
Lemma js_sort_default_defined (l : list jsval) :
  Forall (fun v => v <> JUndefined) l ->
  js_sort_default l = foldl (fun acc x => sort_insert x acc) [] l.
Proof.
  intros Hl. unfold js_sort_default.
  rewrite (filter_Forall_id _ l Hl), (filter_Forall_nil _ l Hl).
  by rewrite app_nil_r.
Qed.

Lemma js_sort_default_perm (l : list jsval) : js_sort_default l ≡ₚ l.
Proof.
  unfold js_sort_default. rewrite foldl_sort_insert_perm. cbn.
  rewrite Permutation_app_comm. apply filter_app_complement.
Qed.

Lemma js_sort_default_sorted (l : list jsval) :
  Forall (fun v => v <> JUndefined) l ->
  StronglySorted key_le (js_sort_default l).
Proof.
  intros Hl. rewrite js_sort_default_defined by done.
  apply foldl_sort_insert_sorted. constructor.
Qed.

Lemma elem_of_js_sort_default (l : list jsval) (x : jsval) :
  x ∈ js_sort_default l <-> x ∈ l.
Proof. by rewrite js_sort_default_perm. Qed.

#[export] Hint Rewrite elem_of_js_sort_default : flow_rw.

(** A stable sort orders elements with equal [String(x)] by their input
    order, so the result depends on that order only through such ties.
    When [String] is injective on the elements, two permutations of
    the same elements sort to the same array. *)
Lemma js_sort_default_perm_eq (l1 l2 : list jsval) :
  l1 ≡ₚ l2 ->
  Forall (fun v => v <> JUndefined) l1 ->
  (forall x y, x ∈ l1 -> y ∈ l1 -> js_to_string x = js_to_string y -> x = y) ->
  js_sort_default l1 = js_sort_default l2.
Proof.
  intros Hp Hdef Hinj.
  apply (StronglySorted_unique_strong key_le).
  - intros x y Hx Hy Hxy Hyx. rewrite elem_of_js_sort_default in Hx.
    rewrite elem_of_js_sort_default, <-Hp in Hy.
    apply Hinj; [done|done|]. by apply (anti_symm String.le).
  - by apply js_sort_default_sorted.
  - apply js_sort_default_sorted. by rewrite <-Hp.
  - by rewrite !js_sort_default_perm.
Qed.
