(* ===== verification/JsString.v ===== *)
(** * The string operations of the filter

    [filteredData] (FlowVisualization.tsx, lines 188-218) calls three
    string methods: [toLowerCase] (line 189-190), [includes] (lines 191
    and 210) and the global [parseInt(_, 10)] (line 216).  Strings are
    Latin-1 code-unit sequences (see the header of [Prelude]).  The
    lemmas show that [parseInt] reads back the integer [String] printed
    at the head of a string, up to the first character that is not a
    digit. *)

From S2P Require Import Prelude.
From Stdlib Require Import Ascii.

(** ** [String.prototype.toLowerCase] on Latin-1 *)

(** Capitals are A-Z (65-90) and the Latin-1 capitals 192-222 except
    the multiplication sign 215.  Each lowers to its code plus 32. *)
Definition is_upper_code (n : N) : bool :=
  (((65 <=? n) && (n <=? 90)) || ((192 <=? n) && (n <=? 222) && negb (n =? 215)))%N.

Definition char_to_lower (c : ascii) : ascii :=
  let n := N_of_ascii c in
  if is_upper_code n then ascii_of_N (n + 32) else c.

Fixpoint js_to_lower (s : string) : string :=
  match s with
  | EmptyString => EmptyString
  | String c s' => String (char_to_lower c) (js_to_lower s')
  end.

(** ** [String.prototype.includes] *)

Fixpoint starts_with (p s : string) : bool :=
  match p, s with
  | EmptyString, _ => true
  | String c p', String d s' => Ascii.eqb c d && starts_with p' s'
  | String _ _, EmptyString => false
  end.

(** [s.includes(t)]: [t] occurs in [s] at some position. *)
Fixpoint js_includes (s t : string) : bool :=
  starts_with t s ||
  match s with
  | EmptyString => false
  | String _ s' => js_includes s' t
  end.

(** ** [parseInt(s, 10)] *)

(** StrWhiteSpaceChar within Latin-1: tab, LF, VT, FF, CR, space and
    no-break space. *)
Definition is_js_space (c : ascii) : bool :=
  match N_of_ascii c with
  | 9 | 10 | 11 | 12 | 13 | 32 | 160 => true
  | _ => false
  end%N.

Fixpoint trim_start (s : string) : string :=
  match s with
  | EmptyString => EmptyString
  | String c s' => if is_js_space c then trim_start s' else s
  end.

Definition digit_value (c : ascii) : option N :=
  let n := N_of_ascii c in
  if (48 <=? n)%N && (n <=? 57)%N then Some (n - 48)%N else None.

(** The longest prefix of decimal digits, read into [acc]; [None]
    (NaN) when there is no digit at all. *)
Fixpoint digits_acc (s : string) (acc : N) (seen : bool) : option N :=
  match s with
  | EmptyString => if seen then Some acc else None
  | String c s' =>
      match digit_value c with
      | Some d => digits_acc s' (acc * 10 + d) true
      | None => if seen then Some acc else None
      end
  end.

(** [parseInt(s, 10)], [None] standing for [NaN]: leading white space
    is skipped, one sign is read, then the longest digit prefix. *)
Definition js_parse_int (s : string) : option Z :=
  match trim_start s with
  | String c s' =>
      if Ascii.eqb c "-" then Z.opp ∘ Z.of_N <$> digits_acc s' 0 false
      else if Ascii.eqb c "+" then Z.of_N <$> digits_acc s' 0 false
      else Z.of_N <$> digits_acc (String c s') 0 false
  | EmptyString => None
  end.

(** ** Lemmas *)

Lemma js_to_lower_app (s t : string) :
  js_to_lower (s +:+ t) = js_to_lower s +:+ js_to_lower t.
Proof. induction s as [|c s IH]; [done|]. rewrite string_app_cons. cbn. by rewrite IH. Qed.

#[export] Hint Rewrite js_to_lower_app : flow_rw.

Lemma starts_with_spec (p s : string) :
  starts_with p s = true <-> exists v, s = p +:+ v.
Proof.
  revert s. induction p as [|c p IH]; intros s; cbn.
  - split; [by exists s|done].
  - destruct s as [|d s].
    + split; [done|]. by intros [v ?].
    + rewrite andb_true_iff, Ascii.eqb_eq, IH. split.
      * intros [-> [v ->]]. by exists v.
      * intros [v Hv]. injection Hv as -> ->. eauto.
Qed.

(** [includes] is substring occurrence. *)
Lemma js_includes_spec (s t : string) :
  js_includes s t = true <-> exists u v, s = u +:+ t +:+ v.
Proof.
  induction s as [|c s IH]; cbn; rewrite orb_true_iff, starts_with_spec.
  - split.
    + intros [[v Hv]|Hf]; [by exists "", v|done].
    + intros [[|d u] [v Hv]]; [left; by exists v|].
      by rewrite string_app_cons in Hv.
  - rewrite IH. split.
    + intros [[v Hv]|[u [v ->]]]; [by exists "", v|].
      by exists (String c u), v.
    + intros [[|d u] [v Hv]]; [left; by exists v|].
      rewrite string_app_cons in Hv. injection Hv as -> ->. right. eauto.
Qed.

Lemma js_includes_app (a b c t : string) :
  js_includes b t = true -> js_includes (a +:+ b +:+ c) t = true.
Proof.
  rewrite !js_includes_spec. intros [u [v ->]].
  exists (a +:+ u), (v +:+ c). by rewrite <-!string_app_assoc.
Qed.

#[export] Hint Resolve js_includes_app : flow.

(** *** [parseInt] reads back what [String] prints *)

Lemma pretty_N_char_props (d : N) :
  (d < 10)%N ->
  is_js_space (pretty_N_char d) = false /\
  Ascii.eqb (pretty_N_char d) "-" = false /\
  Ascii.eqb (pretty_N_char d) "+" = false /\
  digit_value (pretty_N_char d) = Some d.
Proof.
  intros Hd.
  assert (d = 0 \/ d = 1 \/ d = 2 \/ d = 3 \/ d = 4 \/ d = 5 \/ d = 6 \/
          d = 7 \/ d = 8 \/ d = 9)%N as Hcases by lia.
  by destruct_or! Hcases; subst.
Qed.

(** The decimal digits [pretty_N_go x] prepends are read back as [x]. *)
Lemma digits_acc_pretty_N_go (x : N) (s : string) :
  exists k, forall acc seen,
    digits_acc (pretty_N_go x s) acc seen
    = digits_acc s (acc * 10 ^ k + x)%N (seen || bool_decide (0 < x)%N).
Proof.
  revert s. induction (N.lt_wf_0 x) as [x _ IH]; intros s.
  destruct (decide (x = 0)%N) as [->|Hx].
  - exists 0%N. intros acc seen. rewrite pretty_N_go_0.
    rewrite bool_decide_false by lia. rewrite orb_false_r. f_equal. lia.
  - rewrite pretty_N_go_step by lia.
    destruct (IH (x `div` 10)%N ltac:(apply N.div_lt; lia)
                (String (pretty_N_char (x `mod` 10)) s)) as [k Hk].
    exists (k + 1)%N. intros acc seen. rewrite Hk. cbn [digits_acc].
    destruct (pretty_N_char_props (x `mod` 10)%N) as (_ & _ & _ & ->);
      [by apply N.mod_lt|].
    rewrite (bool_decide_true (0 < x)%N), orb_true_r by lia. f_equal.
    rewrite N.pow_add_r.
    pose proof (N.div_mod x 10 ltac:(lia)). nia.
Qed.

(** A positive number prints with a digit first. *)
Lemma pretty_N_go_head (x : N) (s : string) :
  (0 < x)%N -> exists d s', (d < 10)%N /\ pretty_N_go x s = String (pretty_N_char d) s'.
Proof.
  revert s. induction (N.lt_wf_0 x) as [x _ IH]; intros s Hx.
  rewrite pretty_N_go_step by done.
  destruct (decide (x `div` 10 = 0)%N) as [Hq|Hq].
  - rewrite Hq, pretty_N_go_0. exists (x `mod` 10)%N, s.
    split; [by apply N.mod_lt|done].
  - apply IH; [apply N.div_lt; lia|]. revert Hq. generalize (x `div` 10)%N. lia.
Qed.

(** A suffix that does not continue a run of digits. *)
Definition digit_stop (s : string) : Prop :=
  match s with
  | EmptyString => True
  | String c _ => digit_value c = None
  end.

Lemma digits_acc_stop (s : string) (acc : N) (seen : bool) :
  digit_stop s -> digits_acc s acc seen = if seen then Some acc else None.
Proof. destruct s as [|c s]; cbn; [done|]. by intros ->. Qed.

Lemma pretty_N_go_app (x : N) (s t : string) :
  pretty_N_go x (s +:+ t) = pretty_N_go x s +:+ t.
Proof.
  revert s. induction (N.lt_wf_0 x) as [x _ IH]; intros s.
  destruct (decide (x = 0)%N) as [->|Hx]; [by rewrite !pretty_N_go_0|].
  rewrite (pretty_N_go_step x (s +:+ t)), (pretty_N_go_step x s) by lia.
  assert (x `div` 10 < x)%N as Hlt by (apply N.div_lt; lia).
  exact (IH _ Hlt (String _ s)).
Qed.

Lemma js_parse_int_pretty_N_go (x : N) (neg : bool) (s : string) :
  (0 < x)%N -> digit_stop s ->
  js_parse_int ((if neg then "-" else "") +:+ pretty_N_go x s)
  = Some (if neg then Z.opp (Z.of_N x) else Z.of_N x).
Proof.
  intros Hx Hstop. destruct (pretty_N_go_head x s Hx) as (d & s' & Hd & Hs).
  destruct (pretty_N_char_props d Hd) as (Hsp & Hm & Hp & _).
  destruct (digits_acc_pretty_N_go x s) as [k Hk].
  unfold js_parse_int. destruct neg.
  - rewrite string_app_cons, string_app_nil_l. cbn [trim_start].
    rewrite (eq_refl : is_js_space "-" = false). cbn -[pretty_N_go].
    rewrite Hk, digits_acc_stop by done. cbn. by rewrite bool_decide_true by lia.
  - rewrite string_app_nil_l, Hs. cbn [trim_start].
    rewrite Hsp, Hm, Hp, <-Hs, Hk, digits_acc_stop by done. cbn.
    by rewrite bool_decide_true by lia.
Qed.

(** [parseInt] reads back the integer [String] printed at the head of a
    string, up to the first character that is not a digit. *)
Lemma js_parse_int_to_string_app (n : Z) (s : string) :
  digit_stop s -> js_parse_int (pretty n +:+ s) = Some n.
Proof.
  intros Hs. destruct n as [|p|p].
  - change (pretty 0%Z) with (String "0" "").
    rewrite string_app_cons, string_app_nil_l. unfold js_parse_int. cbn [trim_start].
    rewrite (eq_refl : is_js_space "0" = false).
    destruct s as [|c s]; [done|]. cbn -[digit_value] in Hs |- *. by rewrite Hs.
  - change (pretty (Z.pos p)) with (pretty_N_go (Npos p) "").
    rewrite <-pretty_N_go_app, string_app_nil_l.
    apply (js_parse_int_pretty_N_go (Npos p) false); [lia|done].
  - change (pretty (Z.neg p)) with ("-" +:+ pretty_N_go (Npos p) "").
    rewrite <-string_app_assoc, <-pretty_N_go_app, string_app_nil_l.
    apply (js_parse_int_pretty_N_go (Npos p) true); [lia|done].
Qed.

(** Round trip: [parseInt(String(n), 10) === n] for every integer. *)
Lemma js_parse_int_to_string (n : Z) :
  js_parse_int (pretty n) = Some n.
Proof.
  rewrite <-(string_app_nil_r (pretty n)). by apply js_parse_int_to_string_app.
Qed.
