(* ===== verification/JsDate.v ===== *)
(** * The JS [Date] operations of [DetailItem]

    DetailItem.tsx (lines 27-29) calls [new Date(value).getTime()] and
    [new Date(value).toISOString()].  A time value is an integer number
    of milliseconds since 1970-01-01T00:00:00Z, at most 8.64e15 in
    absolute value (TimeClip).  [toISOString] splits it into the day
    number and the time within the day.  The day number is split into
    year, month and day of the proleptic Gregorian calendar
    ([civil_from_days], the ECMAScript operations YearFromTime,
    MonthFromTime and DateFromTime, computed by 400-year cycles of
    146097 days).  [days_from_civil] is the converse (ECMAScript's
    MakeDay).

    The theorems show that [civil_from_days] is the exact inverse of
    [days_from_civil] on every day number.  They also show that every
    date it produces is a real date: the month is in 1..12 and the day
    lies within the month's length, leap years included. *)

From S2P Require Import Prelude JsValue.

Module JsDate.

Local Open Scope Z_scope.

(** ** Time values *)

Definition msPerDay : Z := 86400000.

(** TimeClip: a time value beyond 8.64e15 ms is NaN ([None]). *)
Definition time_clip (n : Z) : option Z :=
  if (Z.abs n <=? 8640000000000000)%Z then Some n else None.

(** ** The calendar, one 400-year cycle at a time

    A cycle starts on March 1st of a year divisible by 400.  [doe] is
    the day of the cycle (0..146096), [yoe] the year of the cycle
    (0..399, counted from March), [mp] the month counted from March
    (0..11). *)

Definition civil_of_doe (doe : Z) : Z * Z * Z :=
  let yoe := (doe - doe / 1460 + doe / 36524 - doe / 146096) / 365 in
  let doy := doe - (365 * yoe + yoe / 4 - yoe / 100) in
  let mp := (5 * doy + 2) / 153 in
  let d := doy - (153 * mp + 2) / 5 + 1 in
  let m := if mp <? 10 then mp + 3 else mp - 9 in
  (yoe, m, d)%Z.

Definition doe_of_civil (yoe m d : Z) : Z :=
  let doy := (153 * (if 2 <? m then m - 3 else m + 9) + 2) / 5 + d - 1 in
  (yoe * 365 + yoe / 4 - yoe / 100 + doy)%Z.

(** YearFromTime, MonthFromTime and DateFromTime of a day number
    ([Day(t)]); day 0 is 1970-01-01, day 719468 after 0000-03-01. *)
Definition civil_from_days (z : Z) : Z * Z * Z :=
  let z' := (z + 719468)%Z in
  let era := (z' / 146097)%Z in
  let doe := (z' - era * 146097)%Z in
  let '(yoe, m, d) := civil_of_doe doe in
  ((yoe + era * 400 + (if m <=? 2 then 1 else 0))%Z, m, d).

(** MakeDay(year, month, date) with [month] counted from 1. *)
Definition days_from_civil (y m d : Z) : Z :=
  let y' := (if m <=? 2 then y - 1 else y)%Z in
  let era := (y' / 400)%Z in
  let yoe := (y' - era * 400)%Z in
  (era * 146097 + doe_of_civil yoe m d - 719468)%Z.

Definition is_leap (y : Z) : bool :=
  ((y mod 4 =? 0) && (negb (y mod 100 =? 0) || (y mod 400 =? 0)))%Z.

Definition days_in_month (y m : Z) : Z :=
  match m with
  | 2 => if is_leap y then 29 else 28
  | 4 | 6 | 9 | 11 => 30
  | _ => 31
  end%Z.

(** ** [Date.prototype.toISOString] *)

(** A number written with at least [width] digits, padded with zeros. *)
Definition pad (width : nat) (n : Z) : string :=
  let s := pretty (Z.to_N n) in
  String.concat "" (repeat "0" (width - String.length s)%nat) +:+ s.

(** Years 0..9999 have four digits, the others a sign and six. *)
Definition iso_year (y : Z) : string :=
  if ((0 <=? y) && (y <=? 9999))%Z then pad 4 y
  else (if (y <? 0)%Z then "-" else "+") +:+ pad 6 (Z.abs y).

Definition toISOString (t : Z) : string :=
  let '(y, m, d) := civil_from_days (t / msPerDay) in
  let ms := (t mod msPerDay)%Z in
  iso_year y +:+ "-" +:+ pad 2 m +:+ "-" +:+ pad 2 d +:+ "T" +:+
  pad 2 (ms / 3600000) +:+ ":" +:+ pad 2 (ms / 60000 mod 60) +:+ ":" +:+
  pad 2 (ms / 1000 mod 60) +:+ "." +:+ pad 3 (ms mod 1000) +:+ "Z".

(** ** A finite check over one 400-year cycle *)

(** [f] holds on the [n] integers from [start]. *)
Fixpoint all_from (f : Z -> bool) (n : nat) (start : Z) : bool :=
  match n with
  | O => true
  | S n' => f start && all_from f n' (start + 1)
  end.

(** What the calendar promises on one day of the cycle. *)
Definition cycle_ok (doe : Z) : bool :=
  let '(yoe, m, d) := civil_of_doe doe in
  (0 <=? yoe) && (yoe <? 400) && (1 <=? m) && (m <=? 12) && (1 <=? d) &&
  (d <=? days_in_month (yoe + (if m <=? 2 then 1 else 0)) m) &&
  (doe_of_civil yoe m d =? doe).

(** ** Lemmas *)

Lemma all_from_spec (f : Z -> bool) (n : nat) (start : Z) :
  all_from f n start = true -> forall k, start <= k < start + Z.of_nat n -> f k = true.
Proof.
  revert start. induction n as [|n IH]; intros start H k Hk; cbn in H; [lia|].
  apply andb_prop in H as [H1 H2].
  destruct (decide (k = start)) as [->|Hne]; [done|]. apply (IH (start + 1)); [done|lia].
Qed.

(** Every day of the 400-year cycle, checked by evaluation. *)
Lemma cycle_ok_all : all_from cycle_ok (Z.to_nat 146097) 0 = true.
Proof. vm_compute. reflexivity. Qed.

Lemma civil_of_doe_spec (doe : Z) :
  0 <= doe < 146097 ->
  let '(yoe, m, d) := civil_of_doe doe in
  0 <= yoe < 400 /\ 1 <= m <= 12 /\
  1 <= d <= days_in_month (yoe + (if m <=? 2 then 1 else 0)) m /\
  doe_of_civil yoe m d = doe.
Proof.
  intros Hdoe. pose proof (all_from_spec _ _ _ cycle_ok_all doe ltac:(lia)) as H.
  unfold cycle_ok in H. destruct (civil_of_doe doe) as [[yoe m] d].
  rewrite !andb_true_iff, !Z.leb_le, !Z.ltb_lt, Z.eqb_eq in H. lia.
Qed.

(** The day of the cycle and the cycle of a day number. *)
Lemma cycle_split (z : Z) :
  let z' := z + 719468 in
  0 <= z' - z' / 146097 * 146097 < 146097.
Proof. cbv zeta. pose proof (Z.mod_pos_bound (z + 719468) 146097 ltac:(lia)). rewrite Z.mod_eq in H; lia. Qed.

Lemma is_leap_add_400 (y k : Z) : is_leap (y + k * 400) = is_leap y.
Proof.
  unfold is_leap.
  replace (k * 400) with (k * 100 * 4) by lia. rewrite Z.mod_add by lia.
  replace (k * 100 * 4) with (k * 4 * 100) by lia. rewrite Z.mod_add by lia.
  replace (k * 4 * 100) with (k * 400) by lia. rewrite Z.mod_add by lia. done.
Qed.

Lemma days_in_month_add_400 (y k m : Z) : days_in_month (y + k * 400) m = days_in_month y m.
Proof. unfold days_in_month. by rewrite is_leap_add_400. Qed.

(** ** Theorems *)

(** MakeDay undoes the split of a day number: for every day number
    [z], the year, month and day that [toISOString] prints give back
    [z]. *)
Theorem days_from_civil_of_days (z : Z) :
  let '(y, m, d) := civil_from_days z in days_from_civil y m d = z.
Proof.
  unfold civil_from_days. pose proof (cycle_split z) as Hdoe. cbv zeta in Hdoe.
  pose proof (civil_of_doe_spec _ Hdoe) as Hc.
  destruct (civil_of_doe _) as [[yoe m] d]. destruct Hc as (Hy & _ & _ & Hinv).
  unfold days_from_civil.
  assert ((if m <=? 2 then yoe + (z + 719468) / 146097 * 400 + (if m <=? 2 then 1 else 0) - 1
           else yoe + (z + 719468) / 146097 * 400 + (if m <=? 2 then 1 else 0))
          = yoe + (z + 719468) / 146097 * 400) as -> by (destruct (m <=? 2); lia).
  rewrite Z.div_add, (Z.div_small yoe 400), Z.add_0_l by lia.
  replace (yoe + (z + 719468) / 146097 * 400 - (z + 719468) / 146097 * 400) with yoe by lia.
  rewrite Hinv. lia.
Qed.

(** Every date [toISOString] prints is a real date: the month is in
    1..12 and the day within the length of that month in that year. *)
Theorem civil_from_days_valid (z : Z) :
  let '(y, m, d) := civil_from_days z in 1 <= m <= 12 /\ 1 <= d <= days_in_month y m.
Proof.
  unfold civil_from_days. pose proof (cycle_split z) as Hdoe. cbv zeta in Hdoe.
  pose proof (civil_of_doe_spec _ Hdoe) as Hc.
  destruct (civil_of_doe _) as [[yoe m] d]. destruct Hc as (_ & Hm & Hd & _).
  replace (yoe + (z + 719468) / 146097 * 400 + (if m <=? 2 then 1 else 0))
    with ((yoe + (if m <=? 2 then 1 else 0)) + (z + 719468) / 146097 * 400) by lia.
  by rewrite days_in_month_add_400.
Qed.

End JsDate.
