(* ===== verification/Normalize.v ===== *)
(** * The row normaliser

    FlowVisualization.tsx, lines 127-142: the first part of the
    [processedData] memo.  It turns the columnar [series[0].fields]
    into an array [messages] of row objects.  Field by field and row by
    row, it creates [messages[rowIndex] = { messageID: rowIndex }] on
    first use and assigns [messages[rowIndex][field.name ||
    `field_${index}`] = value].

    The JS array is modelled as a list of optional objects, because an
    assignment past the end of an array leaves holes.  The theorems show
    that no hole is ever created.  The array has one row per index below
    the longest field, and row [i] equals [row_ref fields i], a
    row-major reference that reads cell [i] of each field in field
    order. *)

From S2P Require Import Prelude JsValue.

Module RowNormalizer.

(** ** Data: the host's data frame (the [PanelData] of [@grafana/data]) *)

Record field : Type := mkField {
  name : string;
  values : list jsval
}.

Record series : Type := mkSeries {
  fields : list field
}.

Record panel_data : Type := mkPanelData {
  series_list : list series
}.

(** ** JS arrays with holes *)

(** [a[i]]: [undefined] on a hole or past the end. *)
Definition array_get {A} (a : list (option A)) (i : nat) : option A :=
  mjoin (a !! i).

(** [a[i] = x]: past the end, the array grows and the gap becomes
    holes. *)
Definition array_set {A} (a : list (option A)) (i : nat) (x : A) : list (option A) :=
  if decide (i < length a) then <[i := Some x]> a
  else a ++ replicate (i - length a) None ++ [Some x].

(** ** The loop *)

(** [field.name || `field_${index}`]. *)
Definition field_key (f : field) (index : nat) : string :=
  js_to_string (JString (name f) ||? JString ("field_" +:+ pretty index)).

Definition new_row (rowIndex : nat) : jsobj :=
  {[ "messageID" := JNumber (Z.of_nat rowIndex) ]}.

(** The body of the inner [forEach]. *)
Definition assign_cell (messages : list (option jsobj)) (rowIndex : nat)
    (key : string) (value : jsval) : list (option jsobj) :=
  let row := match array_get messages rowIndex with
             | Some o => o
             | None => new_row rowIndex
             end in
  array_set messages rowIndex (<[key := value]> row).

(** [field.values.forEach((value, rowIndex) => ...)]. *)
Fixpoint fill_values (key : string) (vals : list jsval) (rowIndex : nat)
    (messages : list (option jsobj)) : list (option jsobj) :=
  match vals with
  | [] => messages
  | v :: vs => fill_values key vs (S rowIndex) (assign_cell messages rowIndex key v)
  end.

(** [series.fields.forEach((field, index) => { if (field.values?.length) ... })]. *)
Fixpoint fill_fields (fs : list field) (index : nat)
    (messages : list (option jsobj)) : list (option jsobj) :=
  match fs with
  | [] => messages
  | f :: fs' =>
      let messages' :=
        if decide (length (values f) <> 0)
        then fill_values (field_key f index) (values f) 0 messages
        else messages in
      fill_fields fs' (S index) messages'
  end.

Definition normalize_rows (s : series) : list (option jsobj) :=
  fill_fields (fields s) 0 [].

(** ** The reference: rows read one at a time *)

Fixpoint max_len (fs : list field) : nat :=
  match fs with
  | [] => 0
  | f :: fs' => Nat.max (length (values f)) (max_len fs')
  end.

Fixpoint row_ref_go (fs : list field) (index i : nat) (o : jsobj) : jsobj :=
  match fs with
  | [] => o
  | f :: fs' =>
      row_ref_go fs' (S index) i
        (match values f !! i with
         | Some v => <[field_key f index := v]> o
         | None => o
         end)
  end.

(** Row [i] as the code means it: the row index, then cell [i] of each
    field that has one, later fields overwriting earlier ones. *)
Definition row_ref (fs : list field) (i : nat) : jsobj :=
  row_ref_go fs 0 i (new_row i).

(** ** Lemmas *)

Lemma length_array_set {A} (a : list (option A)) (i : nat) (x : A) :
  length (array_set a i x) = Nat.max (length a) (S i).
Proof.
  unfold array_set. case_decide.
  - rewrite length_insert. lia.
  - rewrite !length_app, length_replicate. cbn. lia.
Qed.

Lemma array_get_array_set {A} (a : list (option A)) (i j : nat) (x : A) :
  array_get (array_set a i x) j = if decide (j = i) then Some x else array_get a j.
Proof.
  unfold array_get, array_set. case_decide as Hi; case_decide as Hj; subst.
  - by rewrite list_lookup_insert_eq.
  - by rewrite list_lookup_insert_ne.
  - rewrite lookup_app_r by lia. rewrite lookup_app_r; rewrite length_replicate; [|lia].
    by replace (i - length a - (i - length a)) with 0 by lia.
  - destruct (decide (j < length a)).
    + by rewrite lookup_app_l.
    + rewrite lookup_app_r by lia. rewrite (lookup_ge_None_2 a j) by lia.
      destruct (decide (j - length a < i - length a)).
      * by rewrite lookup_app_l, lookup_replicate_2 by (rewrite ?length_replicate; lia).
      * rewrite lookup_app_r by (rewrite length_replicate; lia).
        rewrite lookup_cons_ne_0 by (rewrite length_replicate; lia).
        cbn. rewrite lookup_nil. done.
Qed.

Lemma length_fill_values key vals r messages :
  length (fill_values key vals r messages)
  = Nat.max (length messages) (if decide (length vals = 0) then 0 else r + length vals).
Proof.
  revert r messages. induction vals as [|v vs IH]; intros r messages.
  - cbn. rewrite decide_True by done. lia.
  - cbn [fill_values length]. rewrite IH. unfold assign_cell.
    rewrite length_array_set, (decide_False (P := S (length vs) = 0)) by lia.
    case_decide; lia.
Qed.

Lemma array_get_fill_values key vals r messages j :
  array_get (fill_values key vals r messages) j
  = if decide (r <= j < r + length vals)
    then Some (<[key := vals !!! (j - r)]>
                 (default (new_row j) (array_get messages j)))
    else array_get messages j.
Proof.
  revert r messages. induction vals as [|v vs IH]; intros r messages; cbn.
  { case_decide; [lia|done]. }
  rewrite IH. clear IH. unfold assign_cell. rewrite !array_get_array_set.
  repeat case_decide; subst; try lia; try done.
  - destruct (j - r) as [|n] eqn:E; [lia|]. cbn.
    by replace (j - S r) with n by lia.
  - rewrite Nat.sub_diag. by destruct (array_get messages r).
Qed.

Lemma row_ref_go_beyond fs index i o :
  max_len fs <= i -> row_ref_go fs index i o = o.
Proof.
  revert index o. induction fs as [|f fs IH]; intros index o Hi; cbn in *; [done|].
  rewrite lookup_ge_None_2 by lia. apply IH. lia.
Qed.

Lemma length_fill_fields fs index messages :
  length (fill_fields fs index messages) = Nat.max (length messages) (max_len fs).
Proof.
  revert index messages. induction fs as [|f fs IH]; intros index messages; cbn; [lia|].
  rewrite IH. case_decide as Hne.
  - rewrite length_fill_values, decide_False by done. lia.
  - lia.
Qed.

Lemma array_get_fill_fields fs index messages j :
  array_get (fill_fields fs index messages) j
  = if decide (j < max_len fs)
    then Some (row_ref_go fs index j (default (new_row j) (array_get messages j)))
    else array_get messages j.
Proof.
  revert index messages. induction fs as [|f fs IH]; intros index messages;
    cbn [fill_fields max_len row_ref_go].
  { case_decide; [lia|done]. }
  rewrite IH. clear IH.
  destruct (decide (j < length (values f))) as [Hj|Hj].
  - rewrite (list_lookup_lookup_total_lt (values f) j Hj).
    rewrite (decide_True (P := length (values f) <> 0)) by lia.
    rewrite array_get_fill_values.
    rewrite (decide_True (P := 0 <= j < 0 + length (values f))) by lia.
    rewrite (decide_True (P := j < Nat.max (length (values f)) (max_len fs))) by lia.
    cbn. rewrite Nat.sub_0_r. case_decide; [done|].
    by rewrite row_ref_go_beyond by lia.
  - rewrite lookup_ge_None_2 by lia.
    assert (array_get (if decide (length (values f) <> 0)
                       then fill_values (field_key f index) (values f) 0 messages
                       else messages) j = array_get messages j) as ->.
    { case_decide; [|done]. rewrite array_get_fill_values.
      rewrite decide_False by lia. done. }
    repeat case_decide; try lia; done.
Qed.

(** C3. The loop equals the row-major reference.  Row [i] exists exactly
    when [i] is below the longest field, and no hole is ever created:
    every index below the array's length holds a row object. *)
Theorem normalize_rows_spec (s : series) (i : nat) :
  normalize_rows s !! i
  = if decide (i < max_len (fields s)) then Some (Some (row_ref (fields s) i)) else None.
Proof.
  unfold normalize_rows, row_ref.
  pose proof (length_fill_fields (fields s) 0 []) as Hlen.
  pose proof (array_get_fill_fields (fields s) 0 [] i) as Hget.
  cbn in Hlen, Hget. unfold array_get in Hget at 2. rewrite lookup_nil in Hget.
  case_decide as Hi.
  - unfold array_get in Hget.
    destruct (fill_fields (fields s) 0 [] !! i) as [x|] eqn:E.
    + cbn in Hget. by subst.
    + apply lookup_ge_None in E. lia.
  - apply lookup_ge_None. lia.
Qed.

End RowNormalizer.
