(* ===== verification/Hosts.v ===== *)
(** * The endpoint position resolver

    FlowVisualization.tsx, lines 144-155.  Every truthy [source] and
    [destination] of the row array is added to the [Set] [uniqueHosts].
    The set is copied to an array, sorted with the default comparator,
    and each host is mapped to its index in the [Map] [hostPositions].

    The theorems show that the set holds each host once.  The positions
    are the inverse of the sorted array's indexing, a bijection onto
    [0 .. k-1].  The sorted array is ordered by [String(host)].  The
    positions do not depend on the order of the rows when [String] is
    injective on the hosts, and they do depend on it otherwise. *)

From S2P Require Import Prelude JsValue.

Module EndpointPositions.

(** [v] is a host of row [msg]: a truthy [source] or [destination]. *)
Definition host_of (msg : jsobj) (v : jsval) : Prop :=
  (truthy (msg !!! "source") = true /\ v = msg !!! "source") \/
  (truthy (msg !!! "destination") = true /\ v = msg !!! "destination").

(** The body of [messages.forEach(msg => ...)], lines 148-151. *)
Definition add_hosts (uniqueHosts : list jsval) (msg : jsobj) : list jsval :=
  let s1 := if truthy (msg !!! "source")
            then set_add (msg !!! "source") uniqueHosts else uniqueHosts in
  if truthy (msg !!! "destination")
  then set_add (msg !!! "destination") s1 else s1.

(** [forEach] skips the holes of the array. *)
Definition uniqueHosts (messages : list (option jsobj)) : list jsval :=
  foldl (fun s m => match m with Some msg => add_hosts s msg | None => s end)
        [] messages.

(** [Array.from(uniqueHosts).sort()], line 153. *)
Definition sortedHosts (messages : list (option jsobj)) : list jsval :=
  js_sort_default (uniqueHosts messages).

(** [.forEach((host, index) => hostPositions.set(host, index))]. *)
Fixpoint set_positions (hosts : list jsval) (index : nat)
    (m : gmap jsval nat) : gmap jsval nat :=
  match hosts with
  | [] => m
  | h :: hs => set_positions hs (S index) (<[h := index]> m)
  end.

Definition hostPositions (messages : list (option jsobj)) : gmap jsval nat :=
  set_positions (sortedHosts messages) 0 ∅.

(** ** Lemmas *)

Lemma elem_of_add_hosts (s : list jsval) (msg : jsobj) (v : jsval) :
  v ∈ add_hosts s msg <-> v ∈ s \/ host_of msg v.
Proof.
  unfold add_hosts, host_of.
  destruct (truthy (msg !!! "source")) eqn:Hs,
           (truthy (msg !!! "destination")) eqn:Hd;
    rewrite ?elem_of_set_add; naive_solver.
Qed.

Lemma NoDup_add_hosts (s : list jsval) (msg : jsobj) :
  NoDup s -> NoDup (add_hosts s msg).
Proof. intros Hs. unfold add_hosts. repeat case_match; auto with flow. Qed.

Lemma elem_of_uniqueHosts_go (messages : list (option jsobj)) (s : list jsval) v :
  v ∈ foldl (fun s m => match m with Some msg => add_hosts s msg | None => s end) s messages
  <-> v ∈ s \/ exists msg, Some msg ∈ messages /\ host_of msg v.
Proof.
  revert s. induction messages as [|[msg|] ms IH]; intros s; cbn.
  - set_solver.
  - rewrite IH, elem_of_add_hosts. set_solver.
  - rewrite IH. set_solver.
Qed.

(** The set holds exactly the hosts of the rows. *)
Lemma elem_of_uniqueHosts (messages : list (option jsobj)) (v : jsval) :
  v ∈ uniqueHosts messages <-> exists msg, Some msg ∈ messages /\ host_of msg v.
Proof. unfold uniqueHosts. rewrite elem_of_uniqueHosts_go. set_solver. Qed.

Lemma NoDup_uniqueHosts (messages : list (option jsobj)) :
  NoDup (uniqueHosts messages).
Proof.
  unfold uniqueHosts. generalize (@NoDup_nil_2 jsval).
  generalize (@nil jsval). induction messages as [|[msg|] ms IH]; intros s Hs; cbn;
    auto using NoDup_add_hosts.
Qed.

Lemma host_of_defined (msg : jsobj) (v : jsval) : host_of msg v -> v <> JUndefined.
Proof. intros [[H ->]|[H ->]]; by apply truthy_not_undefined. Qed.

Lemma uniqueHosts_defined (messages : list (option jsobj)) :
  Forall (fun v => v <> JUndefined) (uniqueHosts messages).
Proof.
  apply Forall_forall. intros v Hv. apply elem_of_uniqueHosts in Hv as (msg & _ & Hv).
  by eapply host_of_defined.
Qed.

Lemma sortedHosts_perm (messages : list (option jsobj)) :
  sortedHosts messages ≡ₚ uniqueHosts messages.
Proof. apply js_sort_default_perm. Qed.

Lemma NoDup_sortedHosts (messages : list (option jsobj)) :
  NoDup (sortedHosts messages).
Proof. rewrite sortedHosts_perm. apply NoDup_uniqueHosts. Qed.

#[export] Hint Resolve NoDup_uniqueHosts NoDup_sortedHosts uniqueHosts_defined : flow.

Lemma set_positions_lookup (l : list jsval) (index : nat) (m : gmap jsval nat) v i :
  NoDup l ->
  set_positions l index m !! v = Some i <->
  (exists k, i = index + k /\ l !! k = Some v) \/ (v ∉ l /\ m !! v = Some i).
Proof.
  revert index m. induction l as [|h hs IH]; intros index m Hnd; cbn.
  - split; [set_solver|]. intros [(k & _ & Hk)|[_ H]]; [done|done].
  - apply NoDup_cons in Hnd as [Hh Hnd]. rewrite IH by done.
    destruct (decide (v = h)) as [->|Hne].
    + rewrite lookup_insert_eq. split.
      * intros [(k & _ & Hk)|[_ [= <-]]].
        -- exfalso. apply Hh. by eapply list_elem_of_lookup_2.
        -- left. exists 0. split; [lia|done].
      * intros [([|k] & -> & Hk)|[Hv _]].
        -- right. split; [done|]. f_equal. lia.
        -- exfalso. apply Hh. by eapply list_elem_of_lookup_2.
        -- set_solver.
    + rewrite lookup_insert_ne by congruence. split.
      * intros [(k & -> & Hk)|[Hv Hm]].
        -- left. exists (S k). split; [lia|done].
        -- right. split; [set_solver|done].
      * intros [([|k] & -> & Hk)|[Hv Hm]].
        -- by injection Hk.
        -- left. exists k. split; [lia|done].
        -- right. split; [set_solver|done].
Qed.

Lemma uniqueHosts_perm (m1 m2 : list (option jsobj)) :
  m1 ≡ₚ m2 -> uniqueHosts m1 ≡ₚ uniqueHosts m2.
Proof.
  intros Hp. apply NoDup_Permutation; [auto with flow..|].
  intros v. rewrite !elem_of_uniqueHosts. by setoid_rewrite Hp.
Qed.

(** [String(x)] is injective on strings. *)
Definition is_jstring (v : jsval) : bool :=
  match v with JString _ => true | _ => false end.

Lemma js_to_string_inj_strings (l : list jsval) :
  Forall (fun v => is_jstring v = true) l ->
  forall x y, x ∈ l -> y ∈ l -> js_to_string x = js_to_string y -> x = y.
Proof.
  intros Hl x y Hx Hy.
  eapply Forall_forall in Hx; [|exact Hl]. eapply Forall_forall in Hy; [|exact Hl].
  destruct x, y; cbn in *; congruence.
Qed.

(** ** Theorems *)

(** C4. The position map is the inverse of the sorted host array: host [v]
    has position [i] exactly when [v] is the [i]-th sorted host.  So the
    positions are a bijection from the hosts onto [0 .. k-1]. *)
Theorem hostPositions_spec (messages : list (option jsobj)) (v : jsval) (i : nat) :
  hostPositions messages !! v = Some i <-> sortedHosts messages !! i = Some v.
Proof.
  unfold hostPositions. rewrite set_positions_lookup by auto with flow.
  rewrite lookup_empty. split.
  - by intros [(k & -> & Hk)|[_ ?]].
  - intros Hi. left. by exists i.
Qed.

(** A value has no position exactly when it is not a host. *)
Lemma hostPositions_None (messages : list (option jsobj)) (v : jsval) :
  hostPositions messages !! v = None <-> v ∉ uniqueHosts messages.
Proof.
  rewrite <-sortedHosts_perm. split.
  - intros Hn Hv. apply list_elem_of_lookup_1 in Hv as [i Hi].
    apply hostPositions_spec in Hi. congruence.
  - intros Hv. destruct (hostPositions messages !! v) as [i|] eqn:E; [|done].
    apply hostPositions_spec in E. exfalso. apply Hv. by eapply list_elem_of_lookup_2.
Qed.

(** The header order is sorted by [String(host)]. *)
Lemma sortedHosts_sorted (messages : list (option jsobj)) :
  StronglySorted key_le (sortedHosts messages).
Proof. apply js_sort_default_sorted. auto with flow. Qed.

(** C33. When [String] is injective on the hosts (for instance when every
    host is a string), the positions do not depend on the order of the
    rows. *)
Theorem hostPositions_perm_invariant (m1 m2 : list (option jsobj)) :
  m1 ≡ₚ m2 ->
  Forall (fun v => is_jstring v = true) (uniqueHosts m1) ->
  hostPositions m1 = hostPositions m2.
Proof.
  intros Hp Hstr. unfold hostPositions, sortedHosts. f_equal.
  apply js_sort_default_perm_eq; [by apply uniqueHosts_perm|auto with flow|].
  by apply js_to_string_inj_strings.
Qed.

(** The design document promises positions that do not depend on the
    row order.  A numeric host [1] and a string host ["1"] print alike
    and stay distinct in the [Set].  The stable sort then keeps them in
    insertion order, so swapping the two rows swaps their positions. *)
Theorem hostPositions_row_order_dependent :
  hostPositions [Some {[ "source" := JNumber 1 ]}; Some {[ "source" := JString "1" ]}]
    !! JNumber 1 = Some 0 /\
  hostPositions [Some {[ "source" := JString "1" ]}; Some {[ "source" := JNumber 1 ]}]
    !! JNumber 1 = Some 1.
Proof. split; vm_compute; reflexivity. Qed.

(** ** Concrete instances *)

Definition sample_rows : list (option jsobj) :=
  [Some {[ "source" := JString "A"; "destination" := JString "B" ]};
   Some {[ "source" := JString "C"; "destination" := JString "A" ]}].

Lemma hostPositions_perm_invariant_witness :
  Forall (fun v => is_jstring v = true) (uniqueHosts sample_rows) /\
  hostPositions sample_rows = hostPositions (reverse sample_rows).
Proof.
  assert (Forall (fun v => is_jstring v = true) (uniqueHosts sample_rows)) as H
    by (vm_compute; repeat constructor).
  split; [exact H|].
  exact (hostPositions_perm_invariant sample_rows (reverse sample_rows)
           (symmetry (reverse_Permutation sample_rows)) H).
Defined.

End EndpointPositions.
