(* ===== verification/Enrich.v ===== *)
(** * The message enricher and the [processedData] memo

    FlowVisualization.tsx, lines 126-165.  With no series the memo
    returns [[]].  Otherwise it normalises [series[0]] ([Normalize]) and
    computes the host positions ([Hosts]).  Then, in place on every row,
    it sets [sourcePosition] and [destinationPosition] to
    [hostPositions.get(...) || 0].  It keeps a truthy [hash] or
    synthesises [`msg_${msg.messageID}_${Date.now()}`], reading the
    clock once per row.  Finally it keeps the rows with more than one
    key.

    The theorems show five things.  The final filter drops no row: the
    memo returns one message per row, including rows that carry no data
    field.  Every position indexes the sorted header, and is a number
    below the number of hosts.  Synthesised hashes are pairwise
    distinct whatever the clock reads, because the digits of the row
    index end at the first [_].  Two rows with the same truthy [hash]
    cell give two messages the same hash. *)

From S2P Require Import Prelude JsValue JsString Normalize Hosts.
Import RowNormalizer EndpointPositions.

Module MessageEnricher.

(** [hostPositions.get(v) || 0]. *)
Definition position_or_0 (positions : gmap jsval nat) (v : jsval) : jsval :=
  (match positions !! v with
   | Some n => JNumber (Z.of_nat n)
   | None => JUndefined
   end) ||? JNumber 0.

(** [`msg_${msg.messageID}_${Date.now()}`]. *)
Definition synth_hash (messageID : jsval) (now : nat) : jsval :=
  JString ("msg_" +:+ js_to_string messageID +:+ "_" +:+ js_to_string (JNumber (Z.of_nat now))).

(** The body of the second [messages.forEach], lines 158-162: three
    assignments to the same object, in order. *)
Definition enrich_row (positions : gmap jsval nat) (now : nat) (msg : jsobj) : jsobj :=
  let msg1 := <["sourcePosition" := position_or_0 positions (msg !!! "source")]> msg in
  let msg2 := <["destinationPosition" :=
                  position_or_0 positions (msg1 !!! "destination")]> msg1 in
  <["hash" := (msg2 !!! "hash") ||? synth_hash (msg2 !!! "messageID") now]> msg2.

(** [messages.filter(msg => msg && Object.keys(msg).length > 1)]: holes
    are skipped and an object is truthy. *)
Definition keep_row (m : option jsobj) : option jsobj :=
  match m with
  | Some msg => if decide (1 < size msg) then Some msg else None
  | None => None
  end.

(** The clock as the memo reads it: line 161 calls [Date.now()] once
    per row, and [now i] is the value it returns while row [i] is
    enriched.  The theorems hold for every clock. *)
Definition clock : Type := nat -> nat.

(** The [processedData] memo.  The second [forEach] visits the rows in
    index order, row [i] reading the clock at [now i]. *)
Definition processedData (data : panel_data) (now : clock) : list jsobj :=
  match series_list data with
  | [] => []
  | s :: _ =>
      let messages := normalize_rows s in
      let positions := hostPositions messages in
      omap keep_row (imap (fun i m => enrich_row positions (now i) <$> m) messages)
  end.

(** ** Lemmas *)

Lemma position_or_0_spec (positions : gmap jsval nat) (v : jsval) :
  position_or_0 positions v = JNumber (Z.of_nat (default 0 (positions !! v))).
Proof.
  unfold position_or_0, js_or. destruct (positions !! v) as [n|]; cbn; [|done].
  destruct n; done.
Qed.

Lemma lookup_enrich_row_other positions now msg k :
  k <> "sourcePosition" -> k <> "destinationPosition" -> k <> "hash" ->
  enrich_row positions now msg !! k = msg !! k.
Proof. intros. unfold enrich_row. by rewrite !lookup_insert_ne by congruence. Qed.

Lemma enrich_row_size positions now msg : 1 < size (enrich_row positions now msg).
Proof.
  eapply (gmap_size_two_keys _ "hash" "sourcePosition"); [done| |].
  - unfold enrich_row. apply lookup_insert_eq.
  - unfold enrich_row. rewrite !lookup_insert_ne by done. apply lookup_insert_eq.
Qed.

Lemma enrich_row_positions positions now msg :
  enrich_row positions now msg !!! "sourcePosition"
    = position_or_0 positions (msg !!! "source") /\
  enrich_row positions now msg !!! "destinationPosition"
    = position_or_0 positions (msg !!! "destination").
Proof. unfold enrich_row. rewrite !lookup_total_alt. by simplify_map_eq. Qed.

Lemma enrich_row_hash positions now msg :
  enrich_row positions now msg !!! "hash"
  = (msg !!! "hash") ||? synth_hash (msg !!! "messageID") now.
Proof. unfold enrich_row. rewrite !lookup_total_alt. by simplify_map_eq. Qed.

(** The normalised array is the list of reference rows. *)
Lemma normalize_rows_eq (s : series) :
  normalize_rows s = (fun i => Some (row_ref (fields s) i)) <$> seq 0 (max_len (fields s)).
Proof.
  apply list_eq. intros i. rewrite normalize_rows_spec, list_lookup_fmap.
  case_decide.
  - by rewrite lookup_seq_lt.
  - by rewrite lookup_seq_ge by lia.
Qed.

Lemma processedData_cons (s : series) ss now :
  processedData (mkPanelData (s :: ss)) now
  = (fun i => enrich_row (hostPositions (normalize_rows s)) (now i) (row_ref (fields s) i))
      <$> seq 0 (max_len (fields s)).
Proof.
  unfold processedData. cbn [series_list]. generalize (hostPositions (normalize_rows s)).
  intros positions. rewrite normalize_rows_eq, imap_fmap, imap_seq_0_diag.
  generalize (seq 0 (max_len (fields s))). intros l.
  induction l as [|i l IH]; [done|]. cbn. unfold keep_row.
  rewrite decide_True by apply enrich_row_size. by f_equal.
Qed.

Lemma field_key_ne (f : field) (index : nat) (k : string) :
  name f <> k -> (forall x, "field_" +:+ x <> k) -> field_key f index <> k.
Proof.
  intros Hn Hf. unfold field_key, js_or. cbn [truthy].
  destruct (String.eqb (name f) "") eqn:E; cbn; [apply Hf|done].
Qed.

(** A key no field writes keeps its value from the new row. *)
Lemma row_ref_go_lookup_fresh (fs : list field) index i o k :
  Forall (fun f => name f <> k) fs -> (forall x, "field_" +:+ x <> k) ->
  row_ref_go fs index i o !! k = o !! k.
Proof.
  revert index o. induction fs as [|f fs IH]; intros index o Hfs Hk; [done|].
  apply Forall_cons in Hfs as [Hf Hfs]. cbn. rewrite IH by done.
  destruct (values f !! i); [|done].
  apply lookup_insert_ne. by apply field_key_ne.
Qed.

Lemma row_ref_messageID (fs : list field) i :
  Forall (fun f => name f <> "messageID") fs ->
  row_ref fs i !!! "messageID" = JNumber (Z.of_nat i).
Proof.
  intros Hfs. unfold row_ref. rewrite lookup_total_alt, row_ref_go_lookup_fresh; done.
Qed.

Lemma row_ref_hash (fs : list field) i :
  Forall (fun f => name f <> "hash") fs -> row_ref fs i !!! "hash" = JUndefined.
Proof.
  intros Hfs. unfold row_ref. rewrite lookup_total_alt, row_ref_go_lookup_fresh; done.
Qed.

(** Hashes synthesised for different message IDs differ, whatever the
    clock reads: the digits of the ID end at the [_] that follows them. *)
Lemma synth_hash_messageID (i j : Z) (t u : nat) :
  synth_hash (JNumber i) t = synth_hash (JNumber j) u -> i = j.
Proof.
  unfold synth_hash. cbn [js_to_string]. intros [= H].
  apply (f_equal js_parse_int) in H.
  rewrite !string_app_nil_l, !js_parse_int_to_string_app in H by done. congruence.
Qed.

#[export] Instance synth_hash_inj (now : clock) :
  Inj (=) (=) (fun i : nat => synth_hash (JNumber (Z.of_nat i)) (now i)).
Proof. intros i j H%synth_hash_messageID. lia. Qed.

Lemma elem_of_processedData (s : series) ss now (o : jsobj) :
  o ∈ processedData (mkPanelData (s :: ss)) now ->
  exists i, i < max_len (fields s) /\
    o = enrich_row (hostPositions (normalize_rows s)) (now i) (row_ref (fields s) i).
Proof.
  rewrite processedData_cons. intros (i & -> & Hi)%list_elem_of_fmap.
  apply elem_of_seq in Hi. exists i. split; [lia|done].
Qed.

Lemma row_ref_elem_of (s : series) i :
  i < max_len (fields s) -> Some (row_ref (fields s) i) ∈ normalize_rows s.
Proof.
  intros Hi. apply (list_elem_of_lookup_2 _ i). rewrite normalize_rows_spec.
  by rewrite decide_True.
Qed.

(** A truthy endpoint of a row has the position of its header index. *)
Lemma position_of_host (s : series) i (v : jsval) :
  i < max_len (fields s) ->
  host_of (row_ref (fields s) i) v ->
  exists p, position_or_0 (hostPositions (normalize_rows s)) v = JNumber (Z.of_nat p) /\
            sortedHosts (normalize_rows s) !! p = Some v.
Proof.
  intros Hi Hv.
  destruct (hostPositions (normalize_rows s) !! v) as [p|] eqn:E.
  - exists p. rewrite position_or_0_spec, E. split; [done|].
    by apply hostPositions_spec.
  - exfalso. apply hostPositions_None in E. apply E, elem_of_uniqueHosts.
    exists (row_ref (fields s) i). split; [by apply row_ref_elem_of|done].
Qed.

(** The endpoint [k] of a message, when truthy, is the host at the
    index its position key [pk] holds. *)
Lemma processedData_endpoint (s : series) ss now (o : jsobj) k pk :
  o ∈ processedData (mkPanelData (s :: ss)) now ->
  (k, pk) ∈ [("source", "sourcePosition"); ("destination", "destinationPosition")] ->
  truthy (o !!! k) = true ->
  exists p, o !!! pk = JNumber (Z.of_nat p) /\ sortedHosts (normalize_rows s) !! p = Some (o !!! k).
Proof.
  intros (i & Hi & ->)%elem_of_processedData Hk Ht.
  destruct (enrich_row_positions (hostPositions (normalize_rows s)) (now i)
              (row_ref (fields s) i)) as [Hsp Hdp].
  apply elem_of_cons in Hk as [[= -> ->]|[[= -> ->]|[]%elem_of_nil]%elem_of_cons];
    rewrite (lookup_total_alt _ _), lookup_enrich_row_other, <-lookup_total_alt in Ht
      by done;
    rewrite ?(lookup_total_alt (enrich_row _ _ _) "source"),
      ?(lookup_total_alt (enrich_row _ _ _) "destination"),
      !lookup_enrich_row_other, <-!lookup_total_alt by done;
    [rewrite Hsp|rewrite Hdp]; apply (position_of_host s i); unfold host_of; auto.
Qed.

(** A position is an index of the header, or the default 0. *)
Lemma position_or_0_bound (messages : list (option jsobj)) (v : jsval) :
  exists p, position_or_0 (hostPositions messages) v = JNumber (Z.of_nat p) /\
            p < Nat.max 1 (length (sortedHosts messages)).
Proof.
  rewrite position_or_0_spec. destruct (hostPositions messages !! v) as [p|] eqn:E; cbn.
  - exists p. split; [done|]. apply hostPositions_spec, lookup_lt_Some in E. lia.
  - exists 0. split; [done|lia].
Qed.

(** ** Theorems *)

(** C12. The final [filter] of the memo drops nothing: every row, including
    one that carries no data field, becomes a message, because the
    enrichment has already added three keys.  There is one message per
    index below the longest field. *)
Theorem processedData_length (s : series) ss now :
  length (processedData (mkPanelData (s :: ss)) now) = max_len (fields s).
Proof. by rewrite processedData_cons, length_fmap, length_seq. Qed.

(** C31. Positions index the header: a message's truthy [source] is the
    host at index [sourcePosition] of the sorted host array, and its
    truthy [destination] is the host at index [destinationPosition]. *)
Theorem processedData_positions (s : series) ss now (o : jsobj) :
  o ∈ processedData (mkPanelData (s :: ss)) now ->
  (truthy (o !!! "source") = true ->
   exists p, o !!! "sourcePosition" = JNumber (Z.of_nat p) /\
             sortedHosts (normalize_rows s) !! p = Some (o !!! "source")) /\
  (truthy (o !!! "destination") = true ->
   exists p, o !!! "destinationPosition" = JNumber (Z.of_nat p) /\
             sortedHosts (normalize_rows s) !! p = Some (o !!! "destination")).
Proof. intros Ho. split; intros Ht; eapply processedData_endpoint; eauto; set_solver. Qed.

(** C25. Bounds of the positions: every message has numeric positions, each
    below the number of hosts (or 0 when there is no host), so the
    arrows of a row never point past the last header column. *)
Theorem processedData_position_bounds (s : series) ss now (o : jsobj) :
  o ∈ processedData (mkPanelData (s :: ss)) now ->
  exists sp dp, o !!! "sourcePosition" = JNumber (Z.of_nat sp) /\
    o !!! "destinationPosition" = JNumber (Z.of_nat dp) /\
    sp < Nat.max 1 (length (sortedHosts (normalize_rows s))) /\
    dp < Nat.max 1 (length (sortedHosts (normalize_rows s))).
Proof.
  intros (i & Hi & ->)%elem_of_processedData.
  destruct (enrich_row_positions (hostPositions (normalize_rows s)) (now i)
              (row_ref (fields s) i)) as [-> ->].
  destruct (position_or_0_bound (normalize_rows s) (row_ref (fields s) i !!! "source"))
    as (sp & -> & Hsp).
  destruct (position_or_0_bound (normalize_rows s) (row_ref (fields s) i !!! "destination"))
    as (dp & -> & Hdp).
  by exists sp, dp.
Qed.

(** C32. Without a data field named [hash] or [messageID], the synthesised
    hashes of the messages are pairwise distinct. *)
Theorem processedData_hash_NoDup (s : series) ss now :
  Forall (fun f => name f <> "hash" /\ name f <> "messageID") (fields s) ->
  NoDup ((fun o => o !!! "hash") <$> processedData (mkPanelData (s :: ss)) now).
Proof.
  intros Hfs.
  assert (Forall (fun f => name f <> "hash") (fields s)) as Hh
    by (eapply Forall_impl; [exact Hfs|naive_solver]).
  assert (Forall (fun f => name f <> "messageID") (fields s)) as Hm
    by (eapply Forall_impl; [exact Hfs|naive_solver]).
  rewrite processedData_cons, <-list_fmap_compose.
  erewrite list_fmap_ext; cycle 1.
  { intros k i _. cbn. by rewrite enrich_row_hash, row_ref_hash, row_ref_messageID. }
  apply NoDup_fmap_2; [apply _|apply NoDup_seq].
Qed.

(** ** Concrete instances *)

(** Scenario 1 of the design document: [source = [A, B]],
    [destination = [B, A]], [method = [INVITE, 200]]. *)
Definition scenario1_series : series :=
  mkSeries [mkField "source" [JString "A"; JString "B"];
            mkField "destination" [JString "B"; JString "A"];
            mkField "method" [JString "INVITE"; JString "200"]].

Definition scenario1 : panel_data := mkPanelData [scenario1_series].

(** A clock that reads 1700 at the first row and advances by one per
    row. *)
Definition sample_clock : clock := fun i => 1700 + i.

Definition scenario1_message0 (now : clock) : jsobj :=
  default ∅ (head (processedData scenario1 now)).

Lemma processedData_positions_witness :
  scenario1_message0 sample_clock ∈ processedData scenario1 sample_clock /\
  (truthy (scenario1_message0 sample_clock !!! "source") = true ->
   exists p, scenario1_message0 sample_clock !!! "sourcePosition" = JNumber (Z.of_nat p) /\
             sortedHosts (normalize_rows scenario1_series) !! p
             = Some (scenario1_message0 sample_clock !!! "source")) /\
  (truthy (scenario1_message0 sample_clock !!! "destination") = true ->
   exists p, scenario1_message0 sample_clock !!! "destinationPosition" = JNumber (Z.of_nat p) /\
             sortedHosts (normalize_rows scenario1_series) !! p
             = Some (scenario1_message0 sample_clock !!! "destination")).
Proof.
  assert (scenario1_message0 sample_clock ∈ processedData scenario1 sample_clock) as H
    by (vm_compute; constructor).
  split; [exact H|]. exact (processedData_positions scenario1_series [] sample_clock _ H).
Defined.

Lemma processedData_position_bounds_witness :
  scenario1_message0 sample_clock ∈ processedData scenario1 sample_clock /\
  exists sp dp, scenario1_message0 sample_clock !!! "sourcePosition" = JNumber (Z.of_nat sp) /\
    scenario1_message0 sample_clock !!! "destinationPosition" = JNumber (Z.of_nat dp) /\
    sp < Nat.max 1 (length (sortedHosts (normalize_rows scenario1_series))) /\
    dp < Nat.max 1 (length (sortedHosts (normalize_rows scenario1_series))).
Proof.
  assert (scenario1_message0 sample_clock ∈ processedData scenario1 sample_clock) as H
    by (vm_compute; constructor).
  split; [exact H|]. exact (processedData_position_bounds scenario1_series [] sample_clock _ H).
Defined.

(** In scenario 1, message 0 goes from position 0 to position 1. *)
Example scenario1_message0_positions :
  scenario1_message0 sample_clock !!! "sourcePosition" = JNumber 0 /\
  scenario1_message0 sample_clock !!! "destinationPosition" = JNumber 1.
Proof. split; vm_compute; reflexivity. Qed.

Lemma processedData_hash_NoDup_witness :
  Forall (fun f => name f <> "hash" /\ name f <> "messageID") (fields scenario1_series) /\
  NoDup ((fun o => o !!! "hash") <$> processedData scenario1 sample_clock).
Proof.
  assert (Forall (fun f => name f <> "hash" /\ name f <> "messageID") (fields scenario1_series)) as H
    by (repeat constructor; discriminate).
  split; [exact H|]. exact (processedData_hash_NoDup scenario1_series [] sample_clock H).
Defined.

(** C37. A data column named [hash] is kept as the message's hash, the
    rendering key: when two rows of the normalised array carry the same
    truthy [hash], the hashes of the messages are not pairwise
    distinct, whatever the clock reads. *)
Theorem processedData_hash_collision (s : series) ss now (i j : nat) (mi mj : jsobj) :
  i <> j -> normalize_rows s !! i = Some (Some mi) -> normalize_rows s !! j = Some (Some mj) ->
  truthy (mi !!! "hash") = true -> mi !!! "hash" = mj !!! "hash" ->
  ~ NoDup ((fun o => o !!! "hash") <$> processedData (mkPanelData (s :: ss)) now).
Proof.
  rewrite !normalize_rows_eq, !list_lookup_fmap.
  intros Hij (? & [-> Hi]%lookup_seq & [= ->])%fmap_Some
    (? & [-> Hj]%lookup_seq & [= ->])%fmap_Some Ht He.
  rewrite processedData_cons, <-list_fmap_compose, NoDup_alt. intros Hnd.
  apply Hij, (Hnd i j (row_ref (fields s) i !!! "hash"));
    rewrite list_lookup_fmap, lookup_seq_lt by lia; cbn; f_equal;
    rewrite enrich_row_hash, truthy_js_or_l; congruence.
Qed.

(** Two rows of a column [hash] with the cell ["h"]. *)
Definition hash_column_series : series := mkSeries [mkField "hash" [JString "h"; JString "h"]].

Lemma processedData_hash_collision_witness :
  0 <> 1 /\
  normalize_rows hash_column_series !! 0 = Some (Some (row_ref (fields hash_column_series) 0)) /\
  normalize_rows hash_column_series !! 1 = Some (Some (row_ref (fields hash_column_series) 1)) /\
  truthy (row_ref (fields hash_column_series) 0 !!! "hash") = true /\
  row_ref (fields hash_column_series) 0 !!! "hash" = row_ref (fields hash_column_series) 1 !!! "hash" /\
  ~ NoDup ((fun o => o !!! "hash") <$> processedData (mkPanelData [hash_column_series]) sample_clock).
Proof.
  assert (0 <> 1) as H0 by lia.
  assert (normalize_rows hash_column_series !! 0 = Some (Some (row_ref (fields hash_column_series) 0)))
    as H1 by (vm_compute; reflexivity).
  assert (normalize_rows hash_column_series !! 1 = Some (Some (row_ref (fields hash_column_series) 1)))
    as H2 by (vm_compute; reflexivity).
  assert (truthy (row_ref (fields hash_column_series) 0 !!! "hash") = true) as H3
    by (vm_compute; reflexivity).
  assert (row_ref (fields hash_column_series) 0 !!! "hash" = row_ref (fields hash_column_series) 1 !!! "hash")
    as H4 by (vm_compute; reflexivity).
  split_and!; [exact H0|exact H1|exact H2|exact H3|exact H4|].
  exact (processedData_hash_collision hash_column_series [] _ 0 1 _ _ H0 H1 H2 H3 H4).
Defined.

End MessageEnricher.
