(* ===== verification/Filter.v ===== *)
(** * The filter evaluator

    FlowVisualization.tsx, lines 184-222: the [filteredData] memo.  It
    is [processedData.filter(item => ...)] with a callback of six
    guards.  Each guard returns [false] early, in the order of the code:
    search term, methods, source, destination, Call-ID, error
    responses.

    The callback can throw.  [item.callid?.includes(...)] calls a method
    that numbers and booleans do not have.  So the memo is modelled in
    the exception monad [res] of [Prelude].

    The theorems show the following.  The cleared filter is the identity.
    The memo preserves order and is idempotent.  When no item triggers
    the Call-ID [TypeError] and every response code parses, it refines
    the declarative conjunction of section 4.4 of the design document
    ([spec_includes]).  The search is case-insensitive in its term.  The
    errors-only guard reads a response code given as a number or as its
    decimal string back exactly.  Two divergences are proved: a non-numeric response code passes
    "errors only", and a numeric Call-ID makes the memo throw. *)

From S2P Require Import Prelude JsValue JsString.

Module FilterEvaluator.

(** ** The filter state, [interface FilterOptions] (lines 13-20)

    The source and destination filters hold the [value] of the chosen
    [Select] option, which is a host of the data: typed [string], they
    hold whatever the data column holds. *)

Record FilterOptions : Type := mkFilterOptions {
  searchTerm : string;
  methodFilter : list jsval;
  sourceFilter : jsval;
  destinationFilter : jsval;
  callidFilter : string;
  showOnlyErrors : bool
}.

(** The initial state of [useState<FilterOptions>] (lines 116-123). *)
Definition initial_filters : FilterOptions :=
  mkFilterOptions "" [] (JString "") (JString "") "" false.

(** ** The guards *)

(** [`${item.method || ''} ${item.source || ''} ${item.destination || ''} ${item.callid || ''}`]. *)
Definition searchable_text (item : jsobj) : string :=
  js_to_string (item !!! "method" ||? JString "") +:+ " " +:+
  js_to_string (item !!! "source" ||? JString "") +:+ " " +:+
  js_to_string (item !!! "destination" ||? JString "") +:+ " " +:+
  js_to_string (item !!! "callid" ||? JString "").

(** Search term filter (lines 188-192): [true] when the item is
    rejected. *)
Definition search_rejects (filters : FilterOptions) (item : jsobj) : bool :=
  truthy (JString (searchTerm filters)) &&
  negb (js_includes (js_to_lower (searchable_text item))
                    (js_to_lower (searchTerm filters))).

(** Method filter (lines 195-197); [includes] is SameValueZero.  The
    entries are the values of the method check boxes, which come from
    [availableMethods]: typed [string[]], they hold whatever the data
    column holds. *)
Definition method_rejects (filters : FilterOptions) (item : jsobj) : bool :=
  (0 <? length (methodFilter filters)) &&
  negb (bool_decide (item !!! "method" ∈ methodFilter filters)).

(** Source filter (lines 200-202). *)
Definition source_rejects (filters : FilterOptions) (item : jsobj) : bool :=
  truthy (sourceFilter filters) &&
  negb (js_strict_eq (item !!! "source") (sourceFilter filters)).

(** Destination filter (lines 205-207). *)
Definition destination_rejects (filters : FilterOptions) (item : jsobj) : bool :=
  truthy (destinationFilter filters) &&
  negb (js_strict_eq (item !!! "destination") (destinationFilter filters)).

(** [v?.includes(t)]: [undefined] on a nullish [v]; numbers and
    booleans have no [includes] method. *)
Definition optional_includes (v : jsval) (t : string) : res jsval :=
  match v with
  | JUndefined | JNull => Ok JUndefined
  | JString s => Ok (JBool (js_includes s t))
  | JBool _ | JNumber _ => Throw (TypeError "item.callid?.includes is not a function")
  end.

(** Call-ID filter (lines 210-212). *)
Definition callid_rejects (filters : FilterOptions) (item : jsobj) : res bool :=
  if truthy (JString (callidFilter filters)) then
    r <- optional_includes (item !!! "callid") (callidFilter filters) ;;
    Ok (negb (truthy r))
  else Ok false.

(** [parseInt(item.response_code || '0', 10)], [None] for [NaN]. *)
Definition response_code (item : jsobj) : option Z :=
  js_parse_int (js_to_string (item !!! "response_code" ||? JString "0")).

(** Error responses filter (lines 215-218): [NaN < 400] is false. *)
Definition errors_reject (filters : FilterOptions) (item : jsobj) : bool :=
  showOnlyErrors filters &&
  match response_code item with
  | Some n => (n <? 400)%Z
  | None => false
  end.

(** The callback of [processedData.filter]. *)
Definition keep_item (filters : FilterOptions) (item : jsobj) : res bool :=
  if search_rejects filters item then Ok false
  else if method_rejects filters item then Ok false
  else if source_rejects filters item then Ok false
  else if destination_rejects filters item then Ok false
  else
    c <- callid_rejects filters item ;;
    if c then Ok false
    else if errors_reject filters item then Ok false
    else Ok true.

(** The [filteredData] memo. *)
Definition filteredData (filters : FilterOptions) (processedData : list jsobj) : res (list jsobj) :=
  js_filter (keep_item filters) processedData.

(** ** The contract of section 4.4 of the design document *)

(** The response code the design document means: the parsed integer,
    [0] when absent or unparsable. *)
Definition spec_response_code (item : jsobj) : Z := default 0%Z (response_code item).

Definition spec_includes (filters : FilterOptions) (item : jsobj) : Prop :=
  (searchTerm filters = "" \/
   exists u v, js_to_lower (searchable_text item) = u +:+ js_to_lower (searchTerm filters) +:+ v) /\
  (methodFilter filters = [] \/ item !!! "method" ∈ methodFilter filters) /\
  (truthy (sourceFilter filters) = false \/ item !!! "source" = sourceFilter filters) /\
  (truthy (destinationFilter filters) = false \/
   item !!! "destination" = destinationFilter filters) /\
  (callidFilter filters = "" \/
   exists s u v, item !!! "callid" = JString s /\ s = u +:+ callidFilter filters +:+ v) /\
  (showOnlyErrors filters = false \/ (400 <= spec_response_code item)%Z).

#[export] Instance substring_dec (s t : string) : Decision (exists u v, s = u +:+ t +:+ v).
Proof.
  destruct (js_includes s t) eqn:E; [left|right]; rewrite <-js_includes_spec; congruence.
Defined.

#[export] Instance callid_match_dec (v : jsval) (t : string) :
  Decision (exists s u w, v = JString s /\ s = u +:+ t +:+ w).
Proof.
  destruct v as [| | | |s]; try (right; intros (? & ? & ? & ? & _); discriminate).
  destruct (decide (exists u w, s = u +:+ t +:+ w)) as [Hs|Hs]; [left|right]; naive_solver.
Defined.

#[export] Instance spec_includes_dec filters item : Decision (spec_includes filters item).
Proof. unfold spec_includes. apply _. Defined.

(** The items the theorems about the contract are stated for: a
    Call-ID that is a string, null or absent when the Call-ID filter is
    set, and a response code that parses when only errors are shown. *)
Definition item_typed (filters : FilterOptions) (item : jsobj) : Prop :=
  (callidFilter filters <> "" ->
   match item !!! "callid" with JBool _ | JNumber _ => False | _ => True end) /\
  (showOnlyErrors filters = true -> is_Some (response_code item)).

(** ** Lemmas: each guard against its clause of the contract *)

Lemma bool_decide_guard (g : bool) (P : Prop) `{Decision P} :
  (g = false <-> P) -> bool_decide P = negb g.
Proof. intros HP. destruct g; apply bool_decide_eq_false || apply bool_decide_eq_true; naive_solver. Qed.

Lemma truthy_JString (s : string) : truthy (JString s) = false <-> s = "".
Proof. cbn. rewrite negb_false_iff. apply String.eqb_eq. Qed.

Lemma js_strict_eq_true (a b : jsval) : js_strict_eq a b = true <-> a = b.
Proof. unfold js_strict_eq. apply bool_decide_eq_true. Qed.

Ltac guard_cases :=
  rewrite andb_false_iff, ?truthy_JString, ?negb_false_iff, ?js_strict_eq_true,
          ?bool_decide_eq_true.

Lemma search_rejects_spec f item :
  search_rejects f item = false <->
  searchTerm f = "" \/
  exists u v, js_to_lower (searchable_text item) = u +:+ js_to_lower (searchTerm f) +:+ v.
Proof. unfold search_rejects. guard_cases. by rewrite js_includes_spec. Qed.

Lemma method_rejects_spec f item :
  method_rejects f item = false <->
  methodFilter f = [] \/ item !!! "method" ∈ methodFilter f.
Proof.
  unfold method_rejects. guard_cases. rewrite Nat.ltb_ge.
  destruct (methodFilter f) as [|m ms]; cbn; [naive_solver|].
  split; [intros [H|H]; [lia|naive_solver]|naive_solver].
Qed.

Lemma source_rejects_spec f item :
  source_rejects f item = false <->
  truthy (sourceFilter f) = false \/ item !!! "source" = sourceFilter f.
Proof. unfold source_rejects. by guard_cases. Qed.

Lemma destination_rejects_spec f item :
  destination_rejects f item = false <->
  truthy (destinationFilter f) = false \/ item !!! "destination" = destinationFilter f.
Proof. unfold destination_rejects. by guard_cases. Qed.

Lemma callid_rejects_spec f item :
  (callidFilter f <> "" ->
   match item !!! "callid" with JBool _ | JNumber _ => False | _ => True end) ->
  exists c, callid_rejects f item = Ok c /\
    (c = false <-> callidFilter f = "" \/
       exists s u v, item !!! "callid" = JString s /\ s = u +:+ callidFilter f +:+ v).
Proof.
  intros Htyped. unfold callid_rejects.
  destruct (truthy (JString (callidFilter f))) eqn:Ht.
  - assert (callidFilter f <> "") as Hne by (rewrite <-truthy_JString; congruence).
    specialize (Htyped Hne).
    destruct (item !!! "callid") as [| | | |s] eqn:Ec; try done; cbn; eexists; split; try done.
    + split; [done|]. intros [?|(? & ? & ? & ? & _)]; done.
    + split; [done|]. intros [?|(? & ? & ? & ? & _)]; done.
    + rewrite negb_false_iff, js_includes_spec. naive_solver.
  - exists false. split; [done|]. rewrite truthy_JString in Ht. naive_solver.
Qed.

Lemma errors_reject_spec f item :
  (showOnlyErrors f = true -> is_Some (response_code item)) ->
  errors_reject f item = false <->
  showOnlyErrors f = false \/ (400 <= spec_response_code item)%Z.
Proof.
  intros Hs. unfold errors_reject, spec_response_code.
  destruct (showOnlyErrors f); cbn; [|naive_solver].
  destruct (Hs eq_refl) as [n ->]. cbn. rewrite Z.ltb_ge. naive_solver.
Qed.

(** On a typed item the callback answers the contract. *)
Lemma keep_item_spec f item :
  item_typed f item -> keep_item f item = Ok (bool_decide (spec_includes f item)).
Proof.
  intros [Hc He]. destruct (callid_rejects_spec f item Hc) as (c & Hcr & H5).
  pose proof (search_rejects_spec f item) as H1.
  pose proof (method_rejects_spec f item) as H2.
  pose proof (source_rejects_spec f item) as H3.
  pose proof (destination_rejects_spec f item) as H4.
  pose proof (errors_reject_spec f item He) as H6.
  unfold keep_item. rewrite Hcr. cbn [res_bind].
  unfold spec_includes.
  destruct (search_rejects f item); [f_equal; symmetry; apply bool_decide_eq_false_2; naive_solver|].
  destruct (method_rejects f item); [f_equal; symmetry; apply bool_decide_eq_false_2; naive_solver|].
  destruct (source_rejects f item); [f_equal; symmetry; apply bool_decide_eq_false_2; naive_solver|].
  destruct (destination_rejects f item); [f_equal; symmetry; apply bool_decide_eq_false_2; naive_solver|].
  destruct c; [f_equal; symmetry; apply bool_decide_eq_false_2; naive_solver|].
  destruct (errors_reject f item); f_equal; symmetry;
    [apply bool_decide_eq_false_2 | apply bool_decide_eq_true_2]; naive_solver.
Qed.

Lemma js_to_lower_empty (s : string) : js_to_lower s = "" <-> s = "".
Proof. destruct s; cbn; done. Qed.

Lemma keep_item_initial item : keep_item initial_filters item = Ok true.
Proof. done. Qed.

(** The filter state with only "errors only" set. *)
Definition errors_only : FilterOptions := mkFilterOptions "" [] (JString "") (JString "") "" true.

(** ** Theorems *)

(** C1. Refinement: on items whose Call-ID and response code have the
    types the contract assumes, the memo returns exactly the items that
    satisfy every clause of section 4.4, in their order. *)
Theorem filteredData_refines (f : FilterOptions) (items : list jsobj) :
  Forall (item_typed f) items ->
  filteredData f items = Ok (filter (spec_includes f) items).
Proof.
  intros Hty. unfold filteredData.
  rewrite (js_filter_ok _ (fun x => bool_decide (spec_includes f x))).
  - f_equal. apply list_filter_iff. intros x. apply bool_decide_eq_true.
  - intros x Hx. apply keep_item_spec. by eapply Forall_forall.
Qed.

(** C11. The cleared filter state is the identity: every item, in order. *)
Theorem filteredData_initial (items : list jsobj) :
  filteredData initial_filters items = Ok items.
Proof.
  apply js_filter_true. intros item _. apply keep_item_initial.
Qed.

(** The memo keeps the relative order of the items it keeps. *)
Theorem filteredData_sublist (f : FilterOptions) (items r : list jsobj) :
  filteredData f items = Ok r -> r `sublist_of` items.
Proof. apply js_filter_sublist. Qed.

(** Filtering the filtered list again with the same state changes
    nothing. *)
Theorem filteredData_idempotent (f : FilterOptions) (items r : list jsobj) :
  filteredData f items = Ok r -> filteredData f r = Ok r.
Proof. apply js_filter_idem. Qed.

(** The search is case-insensitive in its term: two terms with the same
    lower-case form filter alike. *)
Theorem filteredData_search_case_insensitive (f : FilterOptions) (t : string) items :
  js_to_lower t = js_to_lower (searchTerm f) ->
  filteredData {| searchTerm := t; methodFilter := methodFilter f;
                  sourceFilter := sourceFilter f; destinationFilter := destinationFilter f;
                  callidFilter := callidFilter f; showOnlyErrors := showOnlyErrors f |} items
  = filteredData f items.
Proof.
  intros Ht. apply js_filter_ext. intros item _. unfold keep_item, search_rejects. cbn.
  assert (String.eqb t "" = String.eqb (searchTerm f) "") as ->.
  { destruct (String.eqb_spec t "") as [E1|E1], (String.eqb_spec (searchTerm f) "") as [E2|E2];
      try done; exfalso.
    - rewrite E1 in Ht. apply E2, js_to_lower_empty. by symmetry.
    - rewrite E2 in Ht. by apply E1, js_to_lower_empty. }
  by rewrite Ht.
Qed.

(** C19. Divergence from the contract: with "errors only" set, an item whose
    response code is not a number is kept.  [parseInt] yields [NaN],
    and [NaN < 400] is false.  The design document counts such a code
    as 0, which is not an error. *)
Theorem errors_only_keeps_unparsable (item : jsobj) :
  response_code item = None ->
  filteredData errors_only [item] = Ok [item] /\ ~ spec_includes errors_only item.
Proof.
  intros Hnan. split.
  - unfold filteredData, js_filter, keep_item, errors_reject. cbn. by rewrite Hnan.
  - unfold spec_includes, spec_response_code. rewrite Hnan. cbn. intros (_ & _ & _ & _ & _ & H).
    destruct H as [H|H]; [done|lia].
Qed.

(** C35. The errors-only guard of line 216 reads a response code given as
    a number, or as the decimal string of a number, back exactly
    ([parseInt(String(n), 10) === n], also for [0], which [|| '0']
    replaces): with "errors only" set it rejects the item exactly when
    the code is below 400. *)
Theorem errors_reject_numeric_code (f : FilterOptions) (item : jsobj) (n : Z) :
  item !!! "response_code" = JNumber n \/ item !!! "response_code" = JString (pretty n) ->
  response_code item = Some n /\ errors_reject f item = showOnlyErrors f && (n <? 400)%Z.
Proof.
  intros Hc. assert (response_code item = Some n) as Hr.
  { unfold response_code. pose proof (js_parse_int_to_string n) as Hp.
    destruct Hc as [-> | ->]; unfold js_or; destruct (truthy _) eqn:Et; cbn [js_to_string]; try done.
    - cbn in Et. apply negb_false_iff, Z.eqb_eq in Et as ->. done.
    - apply truthy_JString in Et. rewrite Et in Hp. discriminate Hp. }
  split; [done|]. unfold errors_reject. by rewrite Hr.
Qed.

(** C20. A Call-ID that is a number or a boolean makes the callback throw
    once an item with it reaches the Call-ID guard with the Call-ID
    filter set.  Then the whole memo throws, where the design document
    promises that the filter never raises. *)
Theorem filteredData_callid_TypeError (f : FilterOptions) (items : list jsobj) (item : jsobj) :
  item ∈ items ->
  callidFilter f <> "" ->
  search_rejects f item = false -> method_rejects f item = false ->
  source_rejects f item = false -> destination_rejects f item = false ->
  match item !!! "callid" with JBool _ | JNumber _ => True | _ => False end ->
  is_ok (filteredData f items) = false.
Proof.
  intros Hin Hne Hs Hm Hsrc Hd Hc.
  assert (exists e, keep_item f item = Throw e) as [e He].
  { unfold keep_item. rewrite Hs, Hm, Hsrc, Hd. unfold callid_rejects.
    assert (truthy (JString (callidFilter f)) = true) as ->.
    { destruct (truthy (JString (callidFilter f))) eqn:E; [done|].
      by apply truthy_JString in E. }
    destruct (item !!! "callid"); try done; cbn; eauto. }
  destruct (filteredData f items) as [r|] eqn:E; [|done].
  destruct (js_filter_ok_inv _ items r E item Hin) as [b Hb]. congruence.
Qed.

(** ** Concrete instances *)

Definition invite_item : jsobj :=
  {[ "method" := JString "INVITE"; "source" := JString "A"; "destination" := JString "B";
     "callid" := JString "xyz-1"; "response_code" := JString "200" ]}.

Definition bye_item : jsobj :=
  {[ "method" := JString "BYE"; "source" := JString "B"; "destination" := JString "A";
     "response_code" := JNumber 404 ]}.

Definition sample_items : list jsobj := [invite_item; bye_item].

(** Search "Inv" among INVITE messages. *)
Definition invite_filter : FilterOptions := mkFilterOptions "Inv" [JString "INVITE"] (JString "") (JString "") "" false.

Lemma filteredData_refines_witness :
  Forall (item_typed invite_filter) sample_items /\
  filteredData invite_filter sample_items = Ok (filter (spec_includes invite_filter) sample_items).
Proof.
  assert (Forall (item_typed invite_filter) sample_items) as H
    by (repeat constructor; cbn; try discriminate; by intros []).
  split; [exact H|]. exact (filteredData_refines invite_filter sample_items H).
Defined.

Lemma filteredData_sublist_witness :
  filteredData invite_filter sample_items = Ok [invite_item] /\ [invite_item] `sublist_of` sample_items.
Proof.
  assert (filteredData invite_filter sample_items = Ok [invite_item]) as H by (vm_compute; reflexivity).
  split; [exact H|]. exact (filteredData_sublist invite_filter sample_items [invite_item] H).
Defined.

Lemma filteredData_idempotent_witness :
  filteredData errors_only sample_items = Ok [bye_item] /\
  filteredData errors_only [bye_item] = Ok [bye_item].
Proof.
  assert (filteredData errors_only sample_items = Ok [bye_item]) as H by (vm_compute; reflexivity).
  split; [exact H|]. exact (filteredData_idempotent errors_only sample_items [bye_item] H).
Defined.

(** A response code of "N/A" is shown under "errors only". *)
Lemma errors_only_keeps_unparsable_witness :
  response_code (<["response_code" := JString "N/A"]> bye_item) = None /\
  filteredData errors_only [<["response_code" := JString "N/A"]> bye_item]
    = Ok [<["response_code" := JString "N/A"]> bye_item].
Proof.
  assert (response_code (<["response_code" := JString "N/A"]> bye_item) = None) as H
    by (vm_compute; reflexivity).
  split; [exact H|]. exact (proj1 (errors_only_keeps_unparsable _ H)).
Defined.

(** A numeric Call-ID with the Call-ID filter "xyz". *)
Definition callid_filter : FilterOptions := mkFilterOptions "" [] (JString "") (JString "") "xyz" false.

Lemma filteredData_callid_TypeError_witness :
  callidFilter callid_filter <> "" /\
  is_ok (filteredData callid_filter [invite_item; <["callid" := JNumber 5]> bye_item]) = false.
Proof.
  split; [discriminate|].
  apply (filteredData_callid_TypeError _ _ (<["callid" := JNumber 5]> bye_item));
    [by right; left|discriminate|vm_compute; reflexivity..|vm_compute; exact I].
Defined.

Lemma filteredData_search_case_insensitive_witness :
  js_to_lower "INV" = js_to_lower (searchTerm invite_filter) /\
  filteredData (mkFilterOptions "INV" [JString "INVITE"] (JString "") (JString "") "" false) sample_items
  = filteredData invite_filter sample_items.
Proof.
  assert (js_to_lower "INV" = js_to_lower (searchTerm invite_filter)) as H by reflexivity.
  split; [exact H|]. exact (filteredData_search_case_insensitive invite_filter "INV" sample_items H).
Defined.

(** A 404 response given as a number. *)
Definition not_found_item : jsobj :=
  <["response_code" := JNumber 404]> (<["method" := JString "INVITE"]> ∅).

Lemma errors_reject_numeric_code_witness :
  (not_found_item !!! "response_code" = JNumber 404 \/
   not_found_item !!! "response_code" = JString (pretty 404%Z)) /\
  response_code not_found_item = Some 404%Z /\
  errors_reject errors_only not_found_item = showOnlyErrors errors_only && (404 <? 400)%Z.
Proof.
  assert (not_found_item !!! "response_code" = JNumber 404 \/
          not_found_item !!! "response_code" = JString (pretty 404%Z)) as H
    by (left; vm_compute; reflexivity).
  split; [exact H|]. exact (errors_reject_numeric_code errors_only not_found_item 404 H).
Defined.

End FilterEvaluator.
