(* ===== verification/Facets.v ===== *)
(** * The facet extractor

    FlowVisualization.tsx, lines 167-182: the memo that collects
    [extractedHosts] (the header and the source and destination
    options) and [availableMethods] (the method check boxes) from
    [processedData].  It reads only the unfiltered messages.

    The theorems show that the header is the sorted host array the
    positions were computed from.  So the [i]-th header column is
    exactly the host whose messages carry position [i].  The methods
    are the distinct truthy methods, sorted. *)

From S2P Require Import Prelude JsValue Normalize Hosts Enrich.
Import RowNormalizer EndpointPositions MessageEnricher.

Module FacetExtractor.

(** The body of [processedData.forEach(item => ...)], lines 172-176.
    The two host lines are the same statements as lines 149-150, so
    they are [add_hosts]. *)
Definition add_facets (acc : list jsval * list jsval) (item : jsobj) : list jsval * list jsval :=
  (add_hosts acc.1 item,
   if truthy (item !!! "method") then set_add (item !!! "method") acc.2 else acc.2).

Definition facet_sets (processedData : list jsobj) : list jsval * list jsval :=
  foldl add_facets ([], []) processedData.

(** [Array.from(hostSet).sort()]. *)
Definition extractedHosts (processedData : list jsobj) : list jsval :=
  js_sort_default (facet_sets processedData).1.

(** [Array.from(methodSet).sort()]. *)
Definition availableMethods (processedData : list jsobj) : list jsval :=
  js_sort_default (facet_sets processedData).2.

(** ** Lemmas *)

Lemma facet_sets_go_fst (l : list jsobj) acc :
  (foldl add_facets acc l).1 = foldl add_hosts acc.1 l.
Proof. revert acc. induction l as [|x l IH]; intros acc; [done|]. cbn. by rewrite IH. Qed.

Lemma elem_of_methods_go (l : list jsobj) acc v :
  v ∈ (foldl add_facets acc l).2 <->
  v ∈ acc.2 \/ exists item, item ∈ l /\ truthy (item !!! "method") = true /\ v = item !!! "method".
Proof.
  revert acc. induction l as [|x l IH]; intros acc; cbn; [set_solver|].
  rewrite IH. cbn. setoid_rewrite elem_of_cons.
  destruct (truthy (x !!! "method")) eqn:E; rewrite ?elem_of_set_add; split.
  - intros [[->|H]|(i & Hi & Ht & ->)].
    + right. exists x. split_and!; [by left|done|done].
    + by left.
    + right. exists i. split_and!; [by right|done|done].
  - intros [H|(i & [->|Hi] & Ht & ->)]; [by left; right|by left; left|].
    right. exists i. split_and!; done.
  - intros [H|(i & Hi & Ht & ->)]; [by left|].
    right. exists i. split_and!; [by right|done|done].
  - intros [H|(i & [->|Hi] & Ht & ->)]; [by left|congruence|].
    right. exists i. split_and!; done.
Qed.

Lemma NoDup_methods_go (l : list jsobj) acc :
  NoDup acc.2 -> NoDup (foldl add_facets acc l).2.
Proof.
  revert acc. induction l as [|x l IH]; intros acc Hacc; cbn; [done|].
  apply IH. cbn. destruct (truthy (x !!! "method")); auto with flow.
Qed.

(** Enrichment leaves [source] and [destination] alone, so it does not
    change the hosts a row contributes. *)
Lemma add_hosts_enrich_row s positions now msg :
  add_hosts s (enrich_row positions now msg) = add_hosts s msg.
Proof.
  unfold add_hosts. rewrite !(lookup_total_alt (enrich_row _ _ _)).
  rewrite !lookup_enrich_row_other by done. by rewrite <-!lookup_total_alt.
Qed.

Lemma foldl_add_hosts_enrich {A} (f : A -> jsobj) (l : list A) s positions (now : A -> nat) :
  foldl add_hosts s ((fun i => enrich_row positions (now i) (f i)) <$> l)
  = foldl (fun s m => match m with Some msg => add_hosts s msg | None => s end)
          s ((fun i => Some (f i)) <$> l).
Proof.
  revert s. induction l as [|i l IH]; intros s; [done|]. cbn.
  by rewrite add_hosts_enrich_row, IH.
Qed.

(** ** Theorems *)

(** The header is the sorted host array of the position resolver: it
    is computed again from the messages, and it comes out the same. *)
Theorem extractedHosts_eq_sortedHosts (s : series) ss now :
  extractedHosts (processedData (mkPanelData (s :: ss)) now) = sortedHosts (normalize_rows s).
Proof.
  unfold extractedHosts, facet_sets, sortedHosts, uniqueHosts. f_equal.
  rewrite facet_sets_go_fst, processedData_cons, normalize_rows_eq. cbn.
  apply foldl_add_hosts_enrich.
Qed.

(** C30. Header and arrows agree: the [i]-th header column shows host [h]
    exactly when [h] has position [i]. *)
Corollary header_column_position (s : series) ss now (h : jsval) (i : nat) :
  extractedHosts (processedData (mkPanelData (s :: ss)) now) !! i = Some h <->
  hostPositions (normalize_rows s) !! h = Some i.
Proof. rewrite extractedHosts_eq_sortedHosts. symmetry. apply hostPositions_spec. Qed.

(** C36. The method facets are the distinct truthy methods of the unfiltered
    messages, sorted by [String(method)]. *)
Theorem availableMethods_spec (processedData : list jsobj) :
  NoDup (availableMethods processedData) /\
  StronglySorted key_le (availableMethods processedData) /\
  (forall v, v ∈ availableMethods processedData <->
     exists item, item ∈ processedData /\ truthy (item !!! "method") = true /\
                  v = item !!! "method").
Proof.
  unfold availableMethods, facet_sets. split_and!.
  - rewrite js_sort_default_perm. apply NoDup_methods_go, NoDup_nil_2.
  - apply js_sort_default_sorted. apply Forall_forall. intros v Hv.
    apply elem_of_methods_go in Hv as [Hv|(item & _ & Ht & ->)]; [set_solver|].
    by apply truthy_not_undefined.
  - intros v. rewrite elem_of_js_sort_default, elem_of_methods_go. set_solver.
Qed.

End FacetExtractor.
