(* ===== verification/FilterPanel.v ===== *)
(** * The filter panel

    FilterPanel.tsx holds no state.  Every handler builds a new
    [FilterOptions] from the current one ([{...filters, field: value}])
    and passes it to [onFiltersChange], which is [setFilters] of the
    parent.  The panel also computes [hasActiveFilters] (lines 173-180).
    It renders a check box per available method whose [checked] value
    is [methodFilter.includes(method)] (lines 244-252).  The "Clear All
    Filters" button is disabled when no filter is active (line 265).

    [ui_step] is what one user action on the rendered panel does to the
    filter state.  The theorems show four things.  The indicator is off
    exactly on the cleared state.  Every state reachable through the
    panel has a duplicate-free method list.  Clicking a method box twice
    leaves the filtered messages unchanged.  The clear button always
    leads to the identity filter. *)

From S2P Require Import Prelude JsValue JsString Filter.
Import FilterEvaluator.

Module FilterPanelModel.

(** ** The handlers (lines 116-171) *)

Definition handleSearchChange (filters : FilterOptions) (value : string) : FilterOptions :=
  {| searchTerm := value; methodFilter := methodFilter filters;
     sourceFilter := sourceFilter filters; destinationFilter := destinationFilter filters;
     callidFilter := callidFilter filters; showOnlyErrors := showOnlyErrors filters |}.

Definition handleSourceChange (filters : FilterOptions) (value : jsval) : FilterOptions :=
  {| searchTerm := searchTerm filters; methodFilter := methodFilter filters;
     sourceFilter := value; destinationFilter := destinationFilter filters;
     callidFilter := callidFilter filters; showOnlyErrors := showOnlyErrors filters |}.

Definition handleDestinationChange (filters : FilterOptions) (value : jsval) : FilterOptions :=
  {| searchTerm := searchTerm filters; methodFilter := methodFilter filters;
     sourceFilter := sourceFilter filters; destinationFilter := value;
     callidFilter := callidFilter filters; showOnlyErrors := showOnlyErrors filters |}.

Definition handleCallidChange (filters : FilterOptions) (value : string) : FilterOptions :=
  {| searchTerm := searchTerm filters; methodFilter := methodFilter filters;
     sourceFilter := sourceFilter filters; destinationFilter := destinationFilter filters;
     callidFilter := value; showOnlyErrors := showOnlyErrors filters |}.

(** [checked ? [...filters.methodFilter, method]
              : filters.methodFilter.filter(m => m !== method)]. *)
Definition toggled_methods (methods : list jsval) (method : jsval) (checked : bool) : list jsval :=
  if checked then methods ++ [method]
  else filter (fun m => negb (js_strict_eq m method) = true) methods.

Definition handleMethodToggle (filters : FilterOptions) (method : jsval) (checked : bool)
    : FilterOptions :=
  {| searchTerm := searchTerm filters;
     methodFilter := toggled_methods (methodFilter filters) method checked;
     sourceFilter := sourceFilter filters; destinationFilter := destinationFilter filters;
     callidFilter := callidFilter filters; showOnlyErrors := showOnlyErrors filters |}.

Definition handleErrorsOnlyToggle (filters : FilterOptions) (checked : bool) : FilterOptions :=
  {| searchTerm := searchTerm filters; methodFilter := methodFilter filters;
     sourceFilter := sourceFilter filters; destinationFilter := destinationFilter filters;
     callidFilter := callidFilter filters; showOnlyErrors := checked |}.

Definition handleClearFilters : FilterOptions :=
  {| searchTerm := ""; methodFilter := []; sourceFilter := JString "";
     destinationFilter := JString ""; callidFilter := ""; showOnlyErrors := false |}.

(** The value of the [||] chain of lines 174-179; the panel reads its
    truthiness. *)
Definition hasActiveFilters (filters : FilterOptions) : jsval :=
  JString (searchTerm filters) ||? JBool (0 <? length (methodFilter filters))
  ||? sourceFilter filters ||? destinationFilter filters
  ||? JString (callidFilter filters) ||? JBool (showOnlyErrors filters).

(** [(value) => handle...(value?.value || '')] of the two [Select]s: the
    value of the chosen option, or nothing when the select is cleared. *)
Definition select_value (option_value : option jsval) : jsval :=
  match option_value with
  | Some v => v ||? JString ""
  | None => JString ""
  end.

(** ** The rendered panel (lines 182-273) *)

Inductive filter_panel_view : Type :=
| Collapsed (title : string)
| Expanded (search : string)
    (source : jsval) (source_options : list (string * jsval))
    (destination : jsval) (destination_options : list (string * jsval))
    (callid : string) (method_boxes : list (string * bool))
    (errors_only : bool) (clear_disabled : bool) (status : string).

(** [[{ label: 'All ...', value: '' }, ...options]]. *)
Definition select_options (all_label : string) (hosts : list jsval) : list (string * jsval) :=
  (all_label, JString "") :: ((fun h => (react_text h, h)) <$> hosts).

Definition render_filter_panel (filters : FilterOptions) (availableMethods : list jsval)
    (availableSources availableDestinations : list jsval) (isVisible : bool)
    : filter_panel_view :=
  let active := truthy (hasActiveFilters filters) in
  if negb isVisible then Collapsed ("Filters " +:+ (if active then "(Active)" else ""))
  else Expanded (searchTerm filters)
         (sourceFilter filters) (select_options "All sources" availableSources)
         (destinationFilter filters) (select_options "All destinations" availableDestinations)
         (callidFilter filters)
         ((fun m => (react_text m, bool_decide (m ∈ methodFilter filters))) <$> availableMethods)
         (showOnlyErrors filters) (negb active)
         (if active then "Filters Active" else "No Filters Applied").

(** [FilterPanelProps], lines 29-37.  The two callbacks are the updates
    they ask of the parent, of type [E]. *)
Record FilterPanelProps (E : Type) : Type := mkFilterPanelProps {
  fp_filters : FilterOptions;
  fp_onFiltersChange : FilterOptions -> E;
  fp_availableMethods : list jsval;
  fp_availableSources : list jsval;
  fp_availableDestinations : list jsval;
  fp_isVisible : bool;
  fp_onToggleVisibility : E
}.
Arguments mkFilterPanelProps {E}.
Arguments fp_filters {E}. Arguments fp_onFiltersChange {E}. Arguments fp_availableMethods {E}.
Arguments fp_availableSources {E}. Arguments fp_availableDestinations {E}.
Arguments fp_isVisible {E}. Arguments fp_onToggleVisibility {E}.

(** The component of lines 94-105: it destructures its props and
    renders. *)
Definition FilterPanel {E} (p : FilterPanelProps E) : filter_panel_view :=
  render_filter_panel (fp_filters p) (fp_availableMethods p) (fp_availableSources p)
    (fp_availableDestinations p) (fp_isVisible p).

(** ** What one action on the open panel does *)

Inductive ui_event : Type :=
| SearchInput (value : string)
| SourceSelect (option_value : option jsval)
| DestinationSelect (option_value : option jsval)
| CallidInput (value : string)
| MethodCheckboxClick (method : jsval)
| ErrorsOnlyClick
| ClearClick.

(** The filter state passed to [onFiltersChange], or [None] when the
    action calls no handler: there is no check box for a method outside
    [availableMethods], and the clear button is disabled when no filter
    is active.  A click flips a check box, so [event.currentTarget.checked]
    is the negation of its [value]. *)
Definition ui_handler (availableMethods : list jsval) (filters : FilterOptions) (e : ui_event)
    : option FilterOptions :=
  match e with
  | SearchInput v => Some (handleSearchChange filters v)
  | SourceSelect o => Some (handleSourceChange filters (select_value o))
  | DestinationSelect o => Some (handleDestinationChange filters (select_value o))
  | CallidInput v => Some (handleCallidChange filters v)
  | MethodCheckboxClick m =>
      if decide (m ∈ availableMethods)
      then Some (handleMethodToggle filters m (negb (bool_decide (m ∈ methodFilter filters))))
      else None
  | ErrorsOnlyClick => Some (handleErrorsOnlyToggle filters (negb (showOnlyErrors filters)))
  | ClearClick => if truthy (hasActiveFilters filters) then Some handleClearFilters else None
  end.

(** The filter state after the action. *)
Definition ui_step (availableMethods : list jsval) (filters : FilterOptions) (e : ui_event)
    : FilterOptions :=
  default filters (ui_handler availableMethods filters e).

(** The filter states the panel can reach from the initial state. *)
Inductive ui_reachable : FilterOptions -> Prop :=
| ui_reachable_init : ui_reachable initial_filters
| ui_reachable_step available f e :
    ui_reachable f -> ui_reachable (ui_step available f e).

(** What holds of every reachable filter state: no method twice, and a
    source or destination filter that is empty or truthy. *)
Definition select_filled (v : jsval) : Prop := v = JString "" \/ truthy v = true.

Definition ui_inv (filters : FilterOptions) : Prop :=
  NoDup (methodFilter filters) /\ select_filled (sourceFilter filters) /\
  select_filled (destinationFilter filters).

(** ** Lemmas *)

Lemma hasActiveFilters_false (filters : FilterOptions) :
  truthy (hasActiveFilters filters) = false <->
  searchTerm filters = "" /\ methodFilter filters = [] /\
  truthy (sourceFilter filters) = false /\ truthy (destinationFilter filters) = false /\
  callidFilter filters = "" /\ showOnlyErrors filters = false.
Proof.
  destruct filters as [st mf sf df cf soe]. unfold hasActiveFilters.
  rewrite !truthy_js_or. cbn. rewrite !orb_false_iff, !negb_false_iff, !String.eqb_eq.
  destruct mf; cbn; naive_solver.
Qed.

(** With no active filter the callback keeps every item. *)
Lemma keep_item_inactive (filters : FilterOptions) (item : jsobj) :
  truthy (hasActiveFilters filters) = false -> keep_item filters item = Ok true.
Proof.
  rewrite hasActiveFilters_false. destruct filters as [st mf sf df cf soe]; cbn.
  intros (-> & -> & Hs & Hd & -> & ->).
  unfold keep_item, search_rejects, method_rejects, source_rejects, destination_rejects,
    callid_rejects, errors_reject; cbn. by rewrite Hs, Hd.
Qed.

(** With no active filter the memo is the identity. *)
Lemma filteredData_inactive (filters : FilterOptions) (items : list jsobj) :
  truthy (hasActiveFilters filters) = false -> filteredData filters items = Ok items.
Proof.
  intros Hf. unfold filteredData. rewrite (js_filter_ok _ (fun _ => true)).
  - f_equal. by apply filter_Forall_id, Forall_true.
  - intros item _. by apply keep_item_inactive.
Qed.

Lemma select_value_filled (o : option jsval) : select_filled (select_value o).
Proof.
  unfold select_filled. destruct o as [v|]; [|by left]. cbn. unfold js_or.
  destruct (truthy v) eqn:E; [by right|by left].
Qed.

Lemma NoDup_toggled_methods (methods : list jsval) (m : jsval) :
  NoDup methods ->
  NoDup (toggled_methods methods m (negb (bool_decide (m ∈ methods)))).
Proof.
  intros Hnd. unfold toggled_methods. case_bool_decide as Hm; cbn.
  - by apply NoDup_filter.
  - apply NoDup_app. split_and!; [done| |apply NoDup_singleton]. set_solver.
Qed.

Lemma elem_of_toggled_methods (methods : list jsval) (m x : jsval) (checked : bool) :
  x ∈ toggled_methods methods m checked <->
  if checked then x ∈ methods \/ x = m else x ∈ methods /\ x <> m.
Proof.
  unfold toggled_methods. destruct checked.
  - set_solver.
  - rewrite list_elem_of_filter, negb_true_iff. unfold js_strict_eq.
    rewrite bool_decide_eq_false. naive_solver.
Qed.

(** Every action keeps the invariant. *)
Lemma ui_step_inv (available : list jsval) (filters : FilterOptions) (e : ui_event) :
  ui_inv filters -> ui_inv (ui_step available filters e).
Proof.
  intros (Hnd & Hs & Hd). unfold ui_step, ui_handler.
  destruct e; cbn; [| | | |case_match| |case_match]; unfold ui_inv; cbn;
    split_and!; auto using select_value_filled, NoDup_toggled_methods, NoDup_nil_2;
    by left.
Qed.

(** Two clicks on one check box give back the same members. *)
Lemma elem_of_toggle_twice (methods : list jsval) (m x : jsval) :
  let once := toggled_methods methods m (negb (bool_decide (m ∈ methods))) in
  x ∈ toggled_methods once m (negb (bool_decide (m ∈ once))) <-> x ∈ methods.
Proof.
  cbv zeta. destruct (decide (m ∈ methods)) as [H0|H0].
  - rewrite (bool_decide_eq_true_2 _ H0).
    assert (m ∉ toggled_methods methods m (negb true)) as H1
      by (rewrite elem_of_toggled_methods; naive_solver).
    rewrite (bool_decide_eq_false_2 _ H1), elem_of_toggled_methods; cbn -[toggled_methods].
    rewrite elem_of_toggled_methods; cbn.
    destruct (decide (x = m)); naive_solver.
  - rewrite (bool_decide_eq_false_2 _ H0).
    assert (m ∈ toggled_methods methods m (negb false)) as H1
      by (rewrite elem_of_toggled_methods; naive_solver).
    rewrite (bool_decide_eq_true_2 _ H1), elem_of_toggled_methods; cbn -[toggled_methods].
    rewrite elem_of_toggled_methods; cbn.
    destruct (decide (x = m)); naive_solver.
Qed.

(** The callback depends on the method list only through its members. *)
Lemma keep_item_methods_ext (f1 f2 : FilterOptions) (item : jsobj) :
  searchTerm f1 = searchTerm f2 -> sourceFilter f1 = sourceFilter f2 ->
  destinationFilter f1 = destinationFilter f2 -> callidFilter f1 = callidFilter f2 ->
  showOnlyErrors f1 = showOnlyErrors f2 ->
  (forall x, x ∈ methodFilter f1 <-> x ∈ methodFilter f2) ->
  keep_item f1 item = keep_item f2 item.
Proof.
  intros Hs Hsrc Hd Hc He Hm.
  assert (method_rejects f1 item = method_rejects f2 item) as Hmr.
  { unfold method_rejects.
    assert (bool_decide (item !!! "method" ∈ methodFilter f1)
            = bool_decide (item !!! "method" ∈ methodFilter f2)) as ->
      by (apply bool_decide_ext, Hm).
    destruct (methodFilter f1) as [|a l1], (methodFilter f2) as [|b l2]; try done;
      exfalso; [specialize (Hm b)|specialize (Hm a)]; set_solver. }
  unfold keep_item. rewrite Hmr.
  unfold search_rejects, source_rejects, destination_rejects, callid_rejects, errors_reject.
  by rewrite Hs, Hsrc, Hd, Hc, He.
Qed.

(** ** Theorems *)

(** C26. The "Filters Active" indicator is off exactly on the cleared filter
    state, for the states whose source and destination filters are
    empty or truthy, which are all the reachable ones. *)
Theorem hasActiveFilters_spec (filters : FilterOptions) :
  select_filled (sourceFilter filters) -> select_filled (destinationFilter filters) ->
  truthy (hasActiveFilters filters) = false <-> filters = handleClearFilters.
Proof.
  intros Hs Hd. rewrite hasActiveFilters_false. split; [|by intros ->].
  destruct filters as [st mf sf df cf soe]; cbn in *.
  intros (-> & -> & Hs' & Hd' & -> & ->).
  destruct Hs as [->|Hs]; [|congruence]. destruct Hd as [->|Hd]; [done|congruence].
Qed.

(** C10. Every filter state reachable through the panel has a method list
    without duplicates (a check box adds its method only when it is
    unchecked, that is absent), and source and destination filters that
    are empty or truthy. *)
Theorem ui_reachable_inv (filters : FilterOptions) :
  ui_reachable filters -> ui_inv filters.
Proof.
  induction 1 as [|available f e _ IH]; [|by apply ui_step_inv].
  split_and!; [constructor|by left|by left].
Qed.

(** C28. A click on the check box of an available method checks it when
    it is unchecked and unchecks it when it is checked, and leaves the
    other methods as they are; a click on a method that is not offered
    does nothing.  Clicking the same check box twice therefore leaves
    the filtered messages unchanged (the list may come back
    reordered). *)
Theorem method_double_click_same_result (available : list jsval) (filters : FilterOptions)
    (m : jsval) (items : list jsobj) :
  (forall x, x ∈ methodFilter (ui_step available filters (MethodCheckboxClick m)) <->
     if decide (m ∈ available /\ x = m) then x ∉ methodFilter filters
     else x ∈ methodFilter filters) /\
  filteredData (ui_step available (ui_step available filters (MethodCheckboxClick m))
                        (MethodCheckboxClick m)) items
  = filteredData filters items.
Proof.
  split.
  - intros x. unfold ui_step, ui_handler. destruct (decide (m ∈ available)); cbn.
    + rewrite elem_of_toggled_methods.
      case_bool_decide; cbn; case_decide; naive_solver.
    + rewrite decide_False by naive_solver. done.
  - apply js_filter_ext. intros item _. unfold ui_step, ui_handler. cbn.
    destruct (decide (m ∈ available)); cbn; [|done].
    apply keep_item_methods_ext; try done. intros x. apply elem_of_toggle_twice.
Qed.

(** C27. "Clear All Filters" always leads to the identity filter: when no
    filter is active the button is disabled, but then no guard rejects
    anything already. *)
Theorem clear_click_identity (available : list jsval) (filters : FilterOptions)
    (items : list jsobj) :
  filteredData (ui_step available filters ClearClick) items = Ok items.
Proof.
  apply filteredData_inactive. unfold ui_step, ui_handler.
  destruct (truthy (hasActiveFilters filters)) eqn:E; [done|exact E].
Qed.

(** ** Concrete instances *)

Definition invite_clicked : FilterOptions :=
  ui_step [JString "INVITE"; JString "BYE"] initial_filters (MethodCheckboxClick (JString "INVITE")).

Lemma hasActiveFilters_spec_witness :
  select_filled (sourceFilter invite_clicked) /\ select_filled (destinationFilter invite_clicked) /\
  (truthy (hasActiveFilters invite_clicked) = false <-> invite_clicked = handleClearFilters).
Proof.
  assert (select_filled (sourceFilter invite_clicked)) as Hs by (left; reflexivity).
  assert (select_filled (destinationFilter invite_clicked)) as Hd by (left; reflexivity).
  split_and!; [exact Hs|exact Hd|exact (hasActiveFilters_spec invite_clicked Hs Hd)].
Defined.

Lemma ui_reachable_inv_witness :
  ui_reachable invite_clicked /\ ui_inv invite_clicked.
Proof.
  split; [apply ui_reachable_step, ui_reachable_init|].
  exact (ui_reachable_inv _ (ui_reachable_step _ _ _ ui_reachable_init)).
Defined.

End FilterPanelModel.
