(* ===== verification/FlowItem.v ===== *)
(** * One row of the diagram

    FlowItem.tsx renders one enriched message.  It has the index label,
    the source and destination labels, an arrow whose direction compares
    the two positions ([getArrowDirection], lines 173-180), and the
    method badge coloured by [getMethodColor] (lines 137-154).  Without
    the simplified layout it also shows the time stamp and the Call-ID.
    A click calls [onItemClick(item.hash, event, item)] (lines 167-171).

    The colour table and the fallback colour come from the theme, and
    [toLocaleTimeString] from the browser's locale.  Both are variables
    of the section.

    The theorems show three things.  The arrow of a message with both
    hosts points from the source's header column to the destination's,
    which gives scenario 1 of the design document.  The colour does not
    depend on the case of the method.  A truthy method that is not a
    string makes [method?.toUpperCase()] throw a [TypeError], and so
    does the render of the row. *)

From S2P Require Import Prelude JsValue JsString Normalize Hosts Enrich Facets.
From Stdlib Require Import Ascii.
Import RowNormalizer EndpointPositions MessageEnricher FacetExtractor.

Module FlowItemModel.

(** ** [String.prototype.toUpperCase] on Latin-1

    The result is a list of UTF-16 code units, because three Latin-1
    letters have capitals outside Latin-1: the sharp s (223) becomes
    "SS", the micro sign (181) becomes U+039C and y-diaeresis (255)
    becomes U+0178.  The other small letters are a-z (97-122) and
    224-254 except the division sign 247; each is raised to its code
    minus 32. *)
Definition is_lower_code (n : N) : bool :=
  (((97 <=? n) && (n <=? 122)) || ((224 <=? n) && (n <=? 254) && negb (n =? 247)))%N.

Definition char_to_upper (c : ascii) : list N :=
  let n := N_of_ascii c in
  if is_lower_code n then [(n - 32)%N]
  else if (n =? 223)%N then [83%N; 83%N]
  else if (n =? 181)%N then [924%N]
  else if (n =? 255)%N then [376%N]
  else [n].

Fixpoint js_to_upper (s : string) : list N :=
  match s with
  | EmptyString => []
  | String c s' => char_to_upper c ++ js_to_upper s'
  end.

(** The code units of a Latin-1 string. *)
Fixpoint string_codes (s : string) : list N :=
  match s with
  | EmptyString => []
  | String c s' => N_of_ascii c :: string_codes s'
  end.

(** ** The direction of the arrow (lines 173-180) *)

Inductive arrow : Type :=
| ArrowRight
| ArrowLeft
| ArrowBidirectional.

#[export] Instance arrow_eq_dec : EqDecision arrow.
Proof. solve_decision. Defined.

(** The props type both positions as [number]. *)
Definition getArrowDirection (sourcePosition destinationPosition : Z) : arrow :=
  if (sourcePosition <? destinationPosition)%Z then ArrowRight
  else if (destinationPosition <? sourcePosition)%Z then ArrowLeft
  else ArrowBidirectional.

(** The arrow of an item whose two positions are numbers; the enricher
    gives every processed message numeric positions
    ([processedData_position_bounds] of [Enrich]). *)
Definition item_arrow (item : jsobj) : option arrow :=
  match item !!! "sourcePosition", item !!! "destinationPosition" with
  | JNumber sp, JNumber dp => Some (getArrowDirection sp dp)
  | _, _ => None
  end.

Section Render.

(** The theme colours the row reads. *)
Record theme_colors : Type := mkThemeColors {
  success_main : string; error_main : string; warning_main : string;
  info_main : string; primary_main : string; secondary_main : string;
  success_border : string; warning_border : string; info_border : string;
  primary_border : string; secondary_border : string;
  text_primary : string; text_secondary : string
}.

Context (theme : theme_colors).
(** [Date.prototype.toLocaleTimeString] of [new Date(timestamp)]; it
    returns "Invalid Date" rather than throwing on a bad date. *)
Context (toLocaleTimeString : jsval -> string).

(** The object literal [methodColors] of lines 138-151. *)
Definition methodColors : list (string * string) :=
  [("INVITE", success_main theme); ("BYE", error_main theme);
   ("CANCEL", warning_main theme); ("ACK", info_main theme);
   ("REGISTER", primary_main theme); ("OPTIONS", secondary_main theme);
   ("PRACK", success_border theme); ("UPDATE", warning_border theme);
   ("REFER", info_border theme); ("SUBSCRIBE", primary_border theme);
   ("NOTIFY", secondary_border theme); ("MESSAGE", text_primary theme)].

(** [methodColors[key]]: the own property whose name has the code units
    [key].  No property of [Object.prototype] has a name without a small
    letter, and the key is upper case or "undefined", so the prototype
    never answers. *)
Fixpoint color_lookup (table : list (string * string)) (key : list N) : jsval :=
  match table with
  | [] => JUndefined
  | (k, c) :: t => if decide (string_codes k = key) then JString c else color_lookup t key
  end.

(** [method?.toUpperCase()] short-circuits on [null] and [undefined]
    (the key is then "undefined").  On a number or a boolean the method
    [toUpperCase] does not exist and the call throws. *)
Definition method_key (method : jsval) : res (list N) :=
  match method with
  | JUndefined | JNull => Ok (string_codes "undefined")
  | JString s => Ok (js_to_upper s)
  | JBool _ | JNumber _ => Throw (TypeError "method?.toUpperCase is not a function")
  end.

(** [getMethodColor], lines 137-154. *)
Definition getMethodColor (method : jsval) : res string :=
  key <- method_key method ;;
  Ok (js_to_string (color_lookup methodColors key ||? JString (text_secondary theme))).

(** [formatTimestamp], lines 182-196: both branches of [isAbsolute]
    call [toLocaleTimeString]. *)
Definition formatTimestamp (timestamp : jsval) : string :=
  if truthy timestamp then toLocaleTimeString timestamp else "".

(** The rendered children of the details column: a [cond && <div/>]
    renders the element when [cond] is truthy and otherwise the falsy
    value itself, of which only the number 0 shows (as "0"). *)
Inductive detail : Type :=
| DText (text : string)
| DMethod (label : string) (color : string)
| DTimestamp (text : string)
| DCallid (text : string).

Definition falsy_child (v : jsval) : list detail :=
  match v with
  | JNumber 0 => [DText "0"]
  | _ => []
  end.

Record flow_item_view : Type := mkFlowItemView {
  testid : string;
  index_label : string;
  source_label : string;
  arrow_class : option arrow;
  details : list detail;
  destination_label : string
}.

(** The render of lines 198-258; [getMethodColor(item.method || '')] is
    evaluated first and may throw. *)
Definition render_flow_item (item : jsobj) (index : nat) (isSimplify : bool)
    : res flow_item_view :=
  color <- getMethodColor (item !!! "method" ||? JString "") ;;
  let method_part :=
    if truthy (item !!! "method")
    then [DMethod (react_text (item !!! "method")) color]
    else falsy_child (item !!! "method") in
  let timestamp_part :=
    if isSimplify then []
    else if truthy (item !!! "timestamp")
    then [DTimestamp (formatTimestamp (item !!! "timestamp"))]
    else falsy_child (item !!! "timestamp") in
  let callid_part :=
    if isSimplify then []
    else if truthy (item !!! "callid")
    then [DCallid ("Call-ID: " +:+ react_text (item !!! "callid"))]
    else falsy_child (item !!! "callid") in
  Ok {| testid := "flow-item-" +:+ js_to_string (item !!! "hash");
        index_label := "#" +:+ pretty (index + 1);
        source_label := react_text (item !!! "source");
        arrow_class := item_arrow item;
        details := method_part ++ timestamp_part ++ callid_part;
        destination_label := react_text (item !!! "destination") |}.

End Render.

(** [handleClick], lines 167-171: the callback is optional. *)
Definition handleClick {A} (onItemClick : option (jsval -> jsobj -> A)) (item : jsobj)
    : option A :=
  match onItemClick with
  | Some f => Some (f (item !!! "hash") item)
  | None => None
  end.

(** [FlowItemProps], lines 6-25: the message, its index, the optional
    flags and the optional click callback, whose result is [A]. *)
Record FlowItemProps (A : Type) : Type := mkFlowItemProps {
  fi_item : jsobj;
  fi_index : nat;
  fi_isSimplify : option bool;
  fi_isGroupByAlias : option bool;
  fi_isAbsolute : option bool;
  fi_onItemClick : option (jsval -> jsobj -> A)
}.
Arguments mkFlowItemProps {A}.
Arguments fi_item {A}. Arguments fi_index {A}. Arguments fi_isSimplify {A}.
Arguments fi_isGroupByAlias {A}. Arguments fi_isAbsolute {A}. Arguments fi_onItemClick {A}.

(** The component with the defaults of lines 156-163: [isSimplify =
    false]; [isGroupByAlias = false] and [isAbsolute = true] are read by
    no rendered output ([formatTimestamp] gives the same string on both
    branches of [isAbsolute]). *)
Definition FlowItem {A} (theme : theme_colors) (toLocaleTimeString : jsval -> string)
    (p : FlowItemProps A) : res flow_item_view :=
  render_flow_item theme toLocaleTimeString (fi_item p) (fi_index p) (default false (fi_isSimplify p)).

(** [onClick={handleClick}] of the row. *)
Definition FlowItem_onClick {A} (p : FlowItemProps A) : option A :=
  handleClick (fi_onItemClick p) (fi_item p).

(** ** Lemmas *)

Lemma char_to_upper_lower (c : ascii) : char_to_upper (char_to_lower c) = char_to_upper c.
Proof. destruct c as [[] [] [] [] [] [] [] []]; reflexivity. Qed.

Lemma js_to_upper_lower (s : string) : js_to_upper (js_to_lower s) = js_to_upper s.
Proof. induction s as [|c s IH]; [done|]. cbn. by rewrite char_to_upper_lower, IH. Qed.

(** Every header host is truthy. *)
Lemma sortedHosts_truthy (messages : list (option jsobj)) (v : jsval) :
  v ∈ sortedHosts messages -> truthy v = true.
Proof.
  rewrite sortedHosts_perm, elem_of_uniqueHosts. by intros (msg & _ & [[? ->]|[? ->]]).
Qed.

(** The positions of a message are the header columns of its hosts. *)
Lemma item_arrow_header (s : series) ss now (o : jsobj) (i j : nat) :
  o ∈ processedData (mkPanelData (s :: ss)) now ->
  sortedHosts (normalize_rows s) !! i = Some (o !!! "source") ->
  sortedHosts (normalize_rows s) !! j = Some (o !!! "destination") ->
  item_arrow o = Some (getArrowDirection (Z.of_nat i) (Z.of_nat j)).
Proof.
  intros Ho Hi Hj.
  destruct (processedData_endpoint s ss now o "source" "sourcePosition") as (p & Hp & Hph);
    [done|by repeat constructor|by eapply sortedHosts_truthy, list_elem_of_lookup_2|].
  destruct (processedData_endpoint s ss now o "destination" "destinationPosition")
    as (q & Hq & Hqh); [done|by repeat constructor|by eapply sortedHosts_truthy, list_elem_of_lookup_2|].
  pose proof (NoDup_lookup _ _ _ _ (NoDup_sortedHosts _) Hph Hi) as ->.
  pose proof (NoDup_lookup _ _ _ _ (NoDup_sortedHosts _) Hqh Hj) as ->.
  unfold item_arrow. by rewrite Hp, Hq.
Qed.

(** Only the colour of the method can make a row throw. *)
Lemma render_flow_item_is_ok (theme : theme_colors) (toLocaleTimeString : jsval -> string)
    (item : jsobj) (index : nat) (isSimplify : bool) :
  is_ok (render_flow_item theme toLocaleTimeString item index isSimplify)
  = is_ok (method_key (item !!! "method" ||? JString "")).
Proof.
  unfold render_flow_item, getMethodColor. by destruct (method_key _).
Qed.

(** The colour of [m || ''] is computed exactly when [m] is falsy or
    a string. *)
Lemma method_key_or_ok (m : jsval) :
  is_ok (method_key (m ||? JString "")) = negb (truthy m && negb (is_jstring m)).
Proof.
  unfold js_or. destruct m as [| |[]|n|m]; cbn; try done;
    [destruct (Z.eqb n 0)|destruct (String.eqb m "")]; done.
Qed.

(** The only exception of a row is the one of [toUpperCase]. *)
Lemma render_flow_item_Throw (theme : theme_colors) (toLocaleTimeString : jsval -> string)
    (item : jsobj) (index : nat) (isSimplify : bool) (e : js_error) :
  render_flow_item theme toLocaleTimeString item index isSimplify = Throw e ->
  e = TypeError "method?.toUpperCase is not a function".
Proof.
  unfold render_flow_item, getMethodColor.
  destruct (method_key _) eqn:Ek; cbn; [done|]. intros [= <-].
  unfold method_key in Ek. repeat case_match; congruence.
Qed.

(** ** Theorems *)

(** C9. The arrow of a message whose two hosts are header columns [i] and
    [j] points right when [i < j], left when [j < i], and is the
    two-way marker exactly when the source is the destination. *)
Theorem arrow_follows_header (s : series) ss now (o : jsobj) (i j : nat) :
  let header := extractedHosts (processedData (mkPanelData (s :: ss)) now) in
  o ∈ processedData (mkPanelData (s :: ss)) now ->
  header !! i = Some (o !!! "source") -> header !! j = Some (o !!! "destination") ->
  (item_arrow o = Some ArrowRight <-> i < j) /\
  (item_arrow o = Some ArrowLeft <-> j < i) /\
  (item_arrow o = Some ArrowBidirectional <-> o !!! "source" = o !!! "destination").
Proof.
  cbv zeta. rewrite !extractedHosts_eq_sortedHosts. intros Ho Hi Hj.
  rewrite (item_arrow_header s ss now o i j) by done. unfold getArrowDirection.
  assert (o !!! "source" = o !!! "destination" <-> i = j) as ->.
  { split; [intros Heq; rewrite Heq in Hi; exact (NoDup_lookup _ _ _ _ (NoDup_sortedHosts _) Hi Hj)|].
    intros ->. congruence. }
  destruct (Z.ltb_spec (Z.of_nat i) (Z.of_nat j)), (Z.ltb_spec (Z.of_nat j) (Z.of_nat i));
    split_and!; split; intros; simplify_eq; try done; lia.
Qed.

(** Scenario 1 of the design document: message 0 (A to B) has a right
    arrow and message 1 (B to A) a left arrow, whatever the clock. *)
Example scenario1_arrows (now : clock) :
  item_arrow <$> processedData scenario1 now = [Some ArrowRight; Some ArrowLeft].
Proof. vm_compute. reflexivity. Qed.

(** The colour of a method does not depend on its case: lowering it
    first gives the same colour. *)
Theorem getMethodColor_case_insensitive (theme : theme_colors) (s : string) :
  getMethodColor theme (JString (js_to_lower s)) = getMethodColor theme (JString s).
Proof. unfold getMethodColor. cbn. by rewrite js_to_upper_lower. Qed.

(** C29. A row throws exactly when its method is truthy and not a string
    (a number such as 200, or [true]): [getMethodColor(item.method ||
    '')] calls [toUpperCase] on it. *)
Theorem render_flow_item_throws (theme : theme_colors) (toLocaleTimeString : jsval -> string)
    (item : jsobj) (index : nat) (isSimplify : bool) :
  is_ok (render_flow_item theme toLocaleTimeString item index isSimplify) = false <->
  truthy (item !!! "method") = true /\ is_jstring (item !!! "method") = false.
Proof.
  rewrite render_flow_item_is_ok, method_key_or_ok.
  destruct (truthy _), (is_jstring _); naive_solver.
Qed.

(** ** Concrete instances *)

Lemma arrow_follows_header_witness :
  let o := scenario1_message0 sample_clock in
  let header := extractedHosts (processedData scenario1 sample_clock) in
  (o ∈ processedData scenario1 sample_clock /\ header !! 0 = Some (o !!! "source") /\
   header !! 1 = Some (o !!! "destination")) /\
  (item_arrow o = Some ArrowRight <-> 0 < 1).
Proof.
  cbv zeta.
  assert (scenario1_message0 sample_clock ∈ processedData scenario1 sample_clock) as H1 by (vm_compute; constructor).
  assert (extractedHosts (processedData scenario1 sample_clock) !! 0
          = Some (scenario1_message0 sample_clock !!! "source")) as H2 by (vm_compute; reflexivity).
  assert (extractedHosts (processedData scenario1 sample_clock) !! 1
          = Some (scenario1_message0 sample_clock !!! "destination")) as H3 by (vm_compute; reflexivity).
  split; [split_and!; assumption|].
  exact (proj1 (arrow_follows_header scenario1_series [] sample_clock _ 0 1 H1 H2 H3)).
Defined.

End FlowItemModel.
