(* ===== verification/Styles.v ===== *)
(** * The style sheets of the components

    Every component builds its class names with [getStyles], an object
    of [css] tagged templates of @emotion/css whose text interpolates
    colours of the Grafana theme ([useStyles2(getStyles)]).  This file
    holds the five [getStyles] as records of the style texts, one module
    per component; [css] (the class name emotion registers for a text)
    is a variable.  [flow_item_classes] is the [className] of every
    element a row of FlowItem.tsx renders, with emotion's [cx].

    The theorem shows that the nested rule of [simplified] (FlowItem.tsx,
    lines 126-133), which means to shrink the text of a simplified row,
    selects the class of [css`font-size`], which no element of the row
    has: the rule never applies.  It holds whenever [css] gives distinct
    texts distinct class names, which emotion's hash of the text does up
    to collisions. *)

From S2P Require Import Prelude JsValue Enrich FlowItem.
Import MessageEnricher FlowItemModel.

(** The part of [GrafanaTheme2] the styles read; [borderRadius] is the
    value of [theme.shape.borderRadius()]. *)
Record grafana_theme : Type := mkGrafanaTheme {
  colors_background_primary : string;
  colors_background_secondary : string;
  colors_border_medium : string;
  colors_border_weak : string;
  colors_primary_main : string;
  colors_text_primary : string;
  colors_text_secondary : string;
  shadows_z1 : string;
  shape_borderRadius : string
}.

(** ** [getStyles] of FlowItem.tsx, lines 27-134 *)

Module FlowItemCss.

Section Emotion.

(** [css`...`] of @emotion/css: the class name it registers for a
    style text. *)
Context (css : string -> string).

Record FlowItem_styles : Type := mkFlowItemStyles {
  flowItem : string;
  messageIndex : string;
  flowLine : string;
  flowArrow : string;
  flowArrowRight : string;
  flowArrowLeft : string;
  flowArrowBidirectional : string;
  sourceLabel : string;
  destinationLabel : string;
  messageDetails : string;
  methodLabel : string;
  timestampLabel : string;
  callidLabel : string;
  simplified : string
}.

Definition getStyles_FlowItem (theme : grafana_theme) : FlowItem_styles := {|
  flowItem := "
    position: relative;
    display: flex;
    align-items: center;
    min-height: 50px;
    padding: 8px 16px;
    border-bottom: 1px solid " +:+ (colors_border_weak theme) +:+ ";
    cursor: pointer;
    transition: all 0.2s ease;
    
    &:hover {
      background-color: " +:+ (colors_background_secondary theme) +:+ ";
      border-left: 3px solid " +:+ (colors_primary_main theme) +:+ ";
    }
  ";
  messageIndex := "
    min-width: 40px;
    font-size: 0.8rem;
    color: " +:+ (colors_text_secondary theme) +:+ ";
    margin-right: 12px;
  ";
  flowLine := "
    flex: 1;
    position: relative;
    height: 2px;
    background: " +:+ (colors_border_medium theme) +:+ ";
    margin: 0 8px;
    border-radius: 1px;
  ";
  flowArrow := "
    position: absolute;
    top: 50%;
    transform: translateY(-50%);
    width: 0;
    height: 0;
    border-style: solid;
  ";
  flowArrowRight := "
    right: -6px;
    border-left: 6px solid " +:+ (colors_primary_main theme) +:+ ";
    border-top: 4px solid transparent;
    border-bottom: 4px solid transparent;
  ";
  flowArrowLeft := "
    left: -6px;
    border-right: 6px solid " +:+ (colors_primary_main theme) +:+ ";
    border-top: 4px solid transparent;
    border-bottom: 4px solid transparent;
  ";
  flowArrowBidirectional := "
    left: 50%;
    transform: translateX(-50%) translateY(-50%);
    width: 8px;
    height: 8px;
    background: " +:+ (colors_primary_main theme) +:+ ";
    border-radius: 50%;
  ";
  sourceLabel := "
    min-width: 120px;
    text-align: right;
    padding-right: 8px;
    font-size: 0.9rem;
    color: " +:+ (colors_text_primary theme) +:+ ";
    font-weight: 500;
  ";
  destinationLabel := "
    min-width: 120px;
    text-align: left;
    padding-left: 8px;
    font-size: 0.9rem;
    color: " +:+ (colors_text_primary theme) +:+ ";
    font-weight: 500;
  ";
  messageDetails := "
    display: flex;
    flex-direction: column;
    align-items: center;
    min-width: 100px;
    gap: 2px;
  ";
  methodLabel := "
    font-size: 0.8rem;
    font-weight: bold;
    color: " +:+ (colors_text_primary theme) +:+ ";
    background: " +:+ (colors_background_secondary theme) +:+ ";
    padding: 2px 6px;
    border-radius: 3px;
    border: 1px solid " +:+ (colors_border_weak theme) +:+ ";
  ";
  timestampLabel := "
    font-size: 0.7rem;
    color: " +:+ (colors_text_secondary theme) +:+ ";
  ";
  callidLabel := "
    font-size: 0.7rem;
    color: " +:+ (colors_text_secondary theme) +:+ ";
    font-style: italic;
  ";
  simplified := "
    min-height: 35px;
    padding: 4px 12px;
    
    ." +:+ (css "font-size") +:+ " {
      font-size: 0.8rem;
    }
  " |}.


(** ** The classes of a row (lines 198-258) *)

(** [cx] of @emotion/css applied to emotion classes, given by the style
    texts they registered: one class is kept as it is, two or more are
    merged into the class of their styles, each ended by [;]. *)
Definition cx (styles : list string) : string :=
  match styles with
  | [s] => css s
  | _ => css (String.concat "" ((fun s => s +:+ ";") <$> styles))
  end.

(** [{ [styles.flowArrowRight]: arrowDirection === 'right', ... }]: the
    key of the one direction that holds. *)
Definition arrow_style (st : FlowItem_styles) (a : arrow) : string :=
  match a with
  | ArrowRight => flowArrowRight st
  | ArrowLeft => flowArrowLeft st
  | ArrowBidirectional => flowArrowBidirectional st
  end.

(** The [className] of every element of the row, in document order.  The
    enricher gives every message numeric positions, so [item_arrow] has
    a direction for them. *)
Definition flow_item_classes (theme : grafana_theme) (item : jsobj) (isSimplify : bool)
    : list string :=
  let st := getStyles_FlowItem theme in
  [cx (flowItem st :: (if isSimplify then [simplified st] else []));
   css (messageIndex st); css (sourceLabel st); css (flowLine st);
   cx (flowArrow st :: match item_arrow item with Some a => [arrow_style st a] | None => [] end);
   css (messageDetails st)] ++
  (if truthy (item !!! "method") then [css (methodLabel st)] else []) ++
  (if negb isSimplify && truthy (item !!! "timestamp") then [css (timestampLabel st)] else []) ++
  (if negb isSimplify && truthy (item !!! "callid") then [css (callidLabel st)] else []) ++
  [css (destinationLabel st)].

End Emotion.

End FlowItemCss.

(** ** [getStyles] of FilterPanel.tsx, lines 39-93 *)

Module FilterPanelCss.

Record FilterPanel_styles : Type := mkFilterPanelStyles {
  filterPanel : string;
  filterHeader : string;
  filterTitle : string;
  filterGrid : string;
  filterActions : string;
  methodCheckboxGroup : string;
  methodCheckbox : string;
  collapsedPanel : string
}.

Definition getStyles_FilterPanel (theme : grafana_theme) : FilterPanel_styles := {|
  filterPanel := "
    background: " +:+ (colors_background_primary theme) +:+ ";
    border: 1px solid " +:+ (colors_border_weak theme) +:+ ";
    border-radius: " +:+ (shape_borderRadius theme) +:+ ";
    padding: 16px;
    margin-bottom: 16px;
    box-shadow: " +:+ (shadows_z1 theme) +:+ ";
  ";
  filterHeader := "
    display: flex;
    justify-content: space-between;
    align-items: center;
    margin-bottom: 16px;
    padding-bottom: 8px;
    border-bottom: 1px solid " +:+ (colors_border_weak theme) +:+ ";
  ";
  filterTitle := "
    font-size: 1.1rem;
    font-weight: 600;
    color: " +:+ (colors_text_primary theme) +:+ ";
    margin: 0;
  ";
  filterGrid := "
    display: grid;
    grid-template-columns: repeat(auto-fit, minmax(250px, 1fr));
    gap: 16px;
    margin-bottom: 16px;
  ";
  filterActions := "
    display: flex;
    justify-content: flex-end;
    gap: 8px;
    padding-top: 16px;
    border-top: 1px solid " +:+ (colors_border_weak theme) +:+ ";
  ";
  methodCheckboxGroup := "
    display: flex;
    flex-wrap: wrap;
    gap: 8px;
    margin-top: 8px;
  ";
  methodCheckbox := "
    margin-right: 12px;
    margin-bottom: 4px;
  ";
  collapsedPanel := "
    padding: 8px 16px;
    cursor: pointer;
    
    &:hover {
      background: " +:+ (colors_background_secondary theme) +:+ ";
    }
  " |}.

End FilterPanelCss.

(** ** [getStyles] of FlowVisualization.tsx, lines 23-103 *)

Module FlowVisualizationCss.

Record FlowVisualization_styles : Type := mkFlowVisualizationStyles {
  wrapper : string;
  container : string;
  header : string;
  headerTitle : string;
  content : string;
  hostContainer : string;
  host : string;
  flowContainer : string;
  emptyState : string;
  exportActions : string;
  statsInfo : string
}.

Definition getStyles_FlowVisualization (theme : grafana_theme) : FlowVisualization_styles := {|
  wrapper := "
    position: relative;
    height: 100%;
    width: 100%;
    overflow: hidden;
  ";
  container := "
    height: 100%;
    display: flex;
    flex-direction: column;
    background: " +:+ (colors_background_primary theme) +:+ ";
  ";
  header := "
    padding: 8px 16px;
    border-bottom: 1px solid " +:+ (colors_border_weak theme) +:+ ";
    background: " +:+ (colors_background_secondary theme) +:+ ";
    display: flex;
    justify-content: space-between;
    align-items: center;
  ";
  headerTitle := "
    margin: 0;
    font-size: 1.1rem;
    font-weight: 600;
    color: " +:+ (colors_text_primary theme) +:+ ";
  ";
  content := "
    flex: 1;
    overflow-y: auto;
    display: flex;
    flex-direction: column;
  ";
  hostContainer := "
    display: flex;
    justify-content: space-between;
    margin: 16px 20px 20px 20px;
    padding: 0 60px; /* Account for message index and spacing */
    position: sticky;
    top: 0;
    background: " +:+ (colors_background_primary theme) +:+ ";
    z-index: 10;
    border-bottom: 2px solid " +:+ (colors_border_medium theme) +:+ ";
    padding-bottom: 8px;
  ";
  host := "
    padding: 8px 16px;
    background: " +:+ (colors_background_secondary theme) +:+ ";
    border: 1px solid " +:+ (colors_border_medium theme) +:+ ";
    border-radius: 4px;
    font-weight: 600;
    color: " +:+ (colors_text_primary theme) +:+ ";
    box-shadow: " +:+ (shadows_z1 theme) +:+ ";
    min-width: 120px;
    text-align: center;
  ";
  flowContainer := "
    flex: 1;
    min-height: 400px;
    padding: 0 8px;
  ";
  emptyState := "
    display: flex;
    flex-direction: column;
    align-items: center;
    justify-content: center;
    height: 200px;
    color: " +:+ (colors_text_secondary theme) +:+ ";
    font-size: 1.1rem;
  ";
  exportActions := "
    display: flex;
    gap: 8px;
  ";
  statsInfo := "
    font-size: 0.9rem;
    color: " +:+ (colors_text_secondary theme) +:+ ";
  " |}.

End FlowVisualizationCss.

(** ** [getStyles] of DetailItem.tsx, lines 5-17 *)

Module DetailItemCss.

Record DetailItem_styles : Type := mkDetailItemStyles {
  label : string;
  pre : string
}.

Definition getStyles_DetailItem : DetailItem_styles := {|
  label := "
      background-color: rgba(128, 128, 128, 0.1);
      padding: 3px;
    ";
  pre := "
      white-space: pre-wrap;
      padding-right: 35px;
    " |}.

End DetailItemCss.

(** ** [getStyles] of TemplateEditor.tsx, lines 8-15 *)

Module TemplateEditorCss.

Record TemplateEditor_styles : Type := mkTemplateEditorStyles {
  wrapper : string
}.

Definition getStyles_TemplateEditor (theme : grafana_theme) : TemplateEditor_styles := {|
  wrapper := "
        height: 250px;
        border: 1px solid " +:+ (colors_border_weak theme) +:+ ";
        border-radius: 4px;
        padding: 8px;
    " |}.

End TemplateEditorCss.

Import FlowItemCss.

(** ** Lemmas *)

(** The text begins with a line feed, as every template of [getStyles]
    does. *)
Definition starts_nl (t : string) : bool :=
  match t with
  | String c _ => Ascii.eqb c (Ascii.ascii_of_nat 10)
  | EmptyString => false
  end.

Lemma starts_nl_app (a b : string) : starts_nl a = true -> starts_nl (a +:+ b) = true.
Proof. by destruct a. Qed.

Section Classes.

Context (css : string -> string).

(** A class registered for a text that begins with a line feed. *)
Definition nl_class (c : string) : Prop := exists t, c = css t /\ starts_nl t = true.

Lemma nl_class_css (t : string) : starts_nl t = true -> nl_class (css t).
Proof. intros H. by exists t. Qed.

Lemma nl_class_cx (s : string) (ss : list string) :
  Forall (fun t => starts_nl t = true) (s :: ss) -> nl_class (cx css (s :: ss)).
Proof.
  intros [Hs _]%Forall_cons. destruct ss as [|s' ss]; cbn; [by apply nl_class_css|].
  apply nl_class_css. by apply starts_nl_app, starts_nl_app.
Qed.

Lemma FlowItem_styles_nl (theme : grafana_theme) :
  let st := getStyles_FlowItem css theme in
  Forall (fun t => starts_nl t = true)
    [flowItem st; messageIndex st; flowLine st; flowArrow st; flowArrowRight st;
     flowArrowLeft st; flowArrowBidirectional st; sourceLabel st; destinationLabel st;
     messageDetails st; methodLabel st; timestampLabel st; callidLabel st; simplified st].
Proof. repeat constructor. Qed.

(** Every element of a row has a class registered for a style text of
    [getStyles]. *)
Lemma flow_item_classes_nl (theme : grafana_theme) (item : jsobj) (isSimplify : bool) :
  Forall nl_class (flow_item_classes css theme item isSimplify).
Proof.
  pose proof (FlowItem_styles_nl theme) as Hst. cbv zeta in Hst.
  rewrite !Forall_cons in Hst.
  destruct Hst as (H1 & H2 & H3 & H4 & H5 & H6 & H7 & H8 & H9 & H10 & H11 & H12 & H13 & H14 & _).
  unfold flow_item_classes. cbv zeta.
  repeat apply Forall_app_2; repeat apply Forall_cons_2; try apply Forall_nil_2;
    repeat case_match; repeat apply Forall_cons_2; try apply Forall_nil_2;
    try (apply nl_class_cx; repeat constructor; by cbn);
    by apply nl_class_css.
Qed.

End Classes.

(** ** Theorems *)

(** C16. The nested rule of [simplified] selects the class [css`font-size`],
    and no element of a row has that class, simplified or not: the
    [font-size: 0.8rem] the rule means for simplified rows applies to
    nothing. *)
Theorem simplified_rule_never_applies (css : string -> string) (Hcss : Inj (=) (=) css)
    (theme : grafana_theme) (item : jsobj) (isSimplify : bool) :
  (exists pre post, simplified (getStyles_FlowItem css theme) = pre +:+ "." +:+ css "font-size" +:+ post) /\
  css "font-size" ∉ flow_item_classes css theme item isSimplify.
Proof.
  split; [exists "
    min-height: 35px;
    padding: 4px 12px;
    
    ", " {
      font-size: 0.8rem;
    }
  "; reflexivity|]. intros Hin.
  pose proof (flow_item_classes_nl css theme item isSimplify) as H.
  rewrite Forall_forall in H. destruct (H _ Hin) as (t & Ht%Hcss & Hnl). by subst t.
Qed.

(** ** Concrete instances *)

Definition sample_grafana_theme : grafana_theme :=
  mkGrafanaTheme "#ffffff" "#f4f5f5" "#c7d0d9" "#e4e7e7" "#3d71d9" "#24292e" "#5a6171"
                 "0px 1px 2px rgba(24, 26, 27, 0.2)" "2px".

Lemma simplified_rule_never_applies_witness :
  Inj (=) (=) (fun t : string => "css-" +:+ t) /\
  "css-font-size" ∉ flow_item_classes (fun t => "css-" +:+ t) sample_grafana_theme
                                      (scenario1_message0 sample_clock) true.
Proof.
  assert (Inj (=) (=) (fun t : string => "css-" +:+ t)) as H by (intros x y Hxy; by simplify_eq/=).
  split; [exact H|].
  exact (proj2 (simplified_rule_never_applies _ H sample_grafana_theme (scenario1_message0 sample_clock) true)).
Defined.
