(* ===== verification/Panel.v ===== *)
(** * The panel component

    FlowVisualization.tsx, the React component [FlowVisualization].  Its
    state is four [useState] hooks: [flowData], [hosts], [showFilters]
    and [filters] (lines 112-123).  Three memos derive [processedData]
    from the [data] prop, the facets from [processedData], and
    [filteredData] from both.  An effect (lines 225-228) copies
    [filteredData] and [extractedHosts] into [flowData] and [hosts].
    The handlers dispatch [CustomEvent]s on [window] (lines 231-245).

    [panel_state] is the state together with the cached
    [processedData].  A state update re-renders the component, then the
    effect runs, then it renders again; [commit] is that sequence.  A
    render can throw (the Call-ID filter, or the method colour of a row),
    and the component is then gone: the [Crashed] status.  [panel_step]
    is what one event does: new data from the host, an input of the
    filter panel, the "Show/Hide Filters" toggle, a click on a row, and
    an export button.  The events dispatched on [window] are kept in
    order in [dispatched].

    The theorems show the following.  Every reachable mounted state is
    settled: [flowData] is the filtered list and [hosts] the header of
    the cached messages.  Export and click events carry the current
    filtered list and a message of it.  The dispatched events are never
    changed afterwards.  Filter inputs never change the messages or the
    facets.  At most two clicks always lead to the list of every
    message.  The panel never crashes on well-typed data, and its first
    render crashes exactly when a message has a truthy method that is
    not a string, always with the [TypeError] of [toUpperCase]. *)

From S2P Require Import Prelude JsValue JsString Normalize Hosts Enrich Filter Facets.
From S2P Require Import FilterPanel FlowItem.
Import RowNormalizer EndpointPositions MessageEnricher FilterEvaluator FacetExtractor
  FilterPanelModel FlowItemModel.

Module FlowPanel.

(** ** State *)

Record panel_state : Type := mkPanelState {
  data : panel_data;
  processed : list jsobj;
  filters : FilterOptions;
  showFilters : bool;
  flowData : list jsobj;
  hosts : list jsval
}.

(** ** Events dispatched on [window] *)

Inductive event_detail : Type :=
| ClickDetail (hash : jsval) (item : jsobj)
| ExportDetail (data : list jsobj).

Record custom_event : Type := mkCustomEvent {
  event_type : string;
  detail : event_detail
}.

(** [handleMessageClick], lines 231-237. *)
Definition handleMessageClick (hash : jsval) (item : jsobj) : custom_event :=
  mkCustomEvent "flow-item-click" (ClickDetail hash item).

(** [handleExport], lines 240-245: the payload is the [flowData] state. *)
Definition handleExport (flowData : list jsobj) (format : string) : custom_event :=
  mkCustomEvent ("export-flow-as-" +:+ format) (ExportDetail flowData).

Inductive export_button : Type :=
| ExportPNG
| ExportTXT
| ExportPCAP.

(** The argument of the three buttons, lines 264-272. *)
Definition export_format (b : export_button) : string :=
  match b with
  | ExportPNG => "png"
  | ExportTXT => "txt"
  | ExportPCAP => "pcap"
  end.

(** The updates the filter panel asks of the component. *)
Inductive panel_update : Type :=
| SetFilters (f : FilterOptions)
| ToggleVisibility.

(** The props of [<FilterPanel .../>], lines 281-289:
    [onFiltersChange={setFilters}], both host lists the header, and
    [onToggleVisibility={toggleFilters}]. *)
Definition filter_panel_props (s : panel_state) : FilterPanelProps panel_update :=
  mkFilterPanelProps (filters s) SetFilters (availableMethods (processed s))
    (extractedHosts (processed s)) (extractedHosts (processed s)) (showFilters s) ToggleVisibility.

Section Render.

Context (theme : theme_colors) (toLocaleTimeString : jsval -> string) (isSimplify : bool).

(** ** The render, lines 251-330 *)

(** [flowData.map((item, index) => <FlowItem .../>)]: the rows render in
    order and the first exception escapes. *)
Fixpoint render_rows (items : list jsobj) (index : nat) : res (list flow_item_view) :=
  match items with
  | [] => Ok []
  | item :: rest =>
      v <- FlowItem theme toLocaleTimeString
             (mkFlowItemProps item index (Some isSimplify) None None (Some handleMessageClick)) ;;
      vs <- render_rows rest (S index) ;;
      Ok (v :: vs)
  end.

Inductive flow_body : Type :=
| EmptyState (reason : string)
| Rows (rows : list flow_item_view).

Record panel_view : Type := mkPanelView {
  shown_count : nat;
  total_count : nat;
  toggle_label : string;
  filter_panel : filter_panel_view;
  host_headers : list string;
  body : flow_body
}.

(** One render: the memos in their order, then the element tree.  The
    header counts read the memos, the list reads the [flowData] state
    and the host header the [hosts] state. *)
Definition render_panel (s : panel_state) : res panel_view :=
  filtered <- filteredData (filters s) (processed s) ;;
  b <- (if decide (length (flowData s) = 0)
        then Ok (EmptyState (if decide (length (processed s) = 0)
                             then "No data received from query"
                             else "All messages filtered out"))
        else rows <- render_rows (flowData s) 0 ;; Ok (Rows rows)) ;;
  Ok {| shown_count := length filtered;
        total_count := length (processed s);
        toggle_label := (if showFilters s then "Hide" else "Show") +:+ " Filters";
        filter_panel := FilterPanel (filter_panel_props s);
        host_headers := if decide (0 < length (hosts s)) then react_text <$> hosts s else [];
        body := b |}.

(** The effect of lines 225-228. *)
Definition run_effect (s : panel_state) (filtered : list jsobj) : panel_state :=
  {| data := data s; processed := processed s; filters := filters s;
     showFilters := showFilters s; flowData := filtered;
     hosts := extractedHosts (processed s) |}.

(** A state update whose memos change: render, run the effect, render
    again. *)
Definition commit (s : panel_state) : res panel_state :=
  _ <- render_panel s ;;
  filtered <- filteredData (filters s) (processed s) ;;
  let s' := run_effect s filtered in
  _ <- render_panel s' ;;
  Ok s'.

Inductive panel_status : Type :=
| Mounted (s : panel_state)
| Crashed (e : js_error).

Record world : Type := mkWorld {
  status : panel_status;
  dispatched : list custom_event
}.

Definition to_status (r : res panel_state) : panel_status :=
  match r with
  | Ok s => Mounted s
  | Throw e => Crashed e
  end.

(** The first render of the component with the [data] prop [d], the
    memo reading the clock at [now]. *)
Definition mount (d : panel_data) (now : clock) : world :=
  mkWorld (to_status (commit (mkPanelState d (processedData d now) initial_filters false [] [])))
          [].

(** ** Events *)

Inductive panel_event : Type :=
| DataArrives (d : panel_data) (now : clock)
| FilterInput (e : ui_event)
| ToggleFilters
| ClickRow (index : nat)
| ExportClick (b : export_button).

(** The two selects offer "All ..." (the value '') and the hosts. *)
Definition select_offered (header : list jsval) (e : ui_event) : bool :=
  match e with
  | SourceSelect (Some v) | DestinationSelect (Some v) =>
      bool_decide (v ∈ JString "" :: header)
  | _ => true
  end.

Definition with_data (s : panel_state) (d : panel_data) (now : clock) : panel_state :=
  {| data := d; processed := processedData d now; filters := filters s;
     showFilters := showFilters s; flowData := flowData s; hosts := hosts s |}.

Definition with_filters (s : panel_state) (f : FilterOptions) : panel_state :=
  {| data := data s; processed := processed s; filters := f;
     showFilters := showFilters s; flowData := flowData s; hosts := hosts s |}.

(** [toggleFilters], lines 247-249. *)
Definition toggleFilters (s : panel_state) : panel_state :=
  {| data := data s; processed := processed s; filters := filters s;
     showFilters := negb (showFilters s); flowData := flowData s; hosts := hosts s |}.

(** One event.  A crashed panel receives none.  Filter inputs exist
    only while the panel is open.  The toggle changes no memo, so the
    effect does not run; a click or an export changes no state. *)
Definition panel_step (w : world) (ev : panel_event) : world :=
  match status w with
  | Crashed _ => w
  | Mounted s =>
      match ev with
      | DataArrives d now => mkWorld (to_status (commit (with_data s d now))) (dispatched w)
      | FilterInput e =>
          if showFilters s && select_offered (extractedHosts (processed s)) e then
            match ui_handler (availableMethods (processed s)) (filters s) e with
            | Some f => mkWorld (to_status (commit (with_filters s f))) (dispatched w)
            | None => w
            end
          else w
      | ToggleFilters => mkWorld (Mounted (toggleFilters s)) (dispatched w)
      | ClickRow i =>
          match flowData s !! i with
          | Some item =>
              match handleClick (Some handleMessageClick) item with
              | Some ev => mkWorld (Mounted s) (dispatched w ++ [ev])
              | None => w
              end
          | None => w
          end
      | ExportClick b =>
          mkWorld (Mounted s) (dispatched w ++ [handleExport (flowData s) (export_format b)])
      end
  end.

Definition run (w : world) (evs : list panel_event) : world := foldl panel_step w evs.

Inductive panel_reachable : world -> Prop :=
| panel_reachable_mount d now : panel_reachable (mount d now)
| panel_reachable_step w ev : panel_reachable w -> panel_reachable (panel_step w ev).

(** ** The settled states *)

(** After every commit: the cache is the [processedData] memo of the
    [data] prop at some clock value, the list is the filtered list, the
    header is the facet of the cache, the filter state has the
    invariant of the panel, and the state renders. *)
Definition settled (s : panel_state) : Prop :=
  (exists now, processed s = processedData (data s) now) /\
  filteredData (filters s) (processed s) = Ok (flowData s) /\
  hosts s = extractedHosts (processed s) /\
  ui_inv (filters s) /\
  is_ok (render_panel s) = true.

(** The messages whose row renders and whose Call-ID the filter can
    read: a method that is falsy or a string, and a Call-ID that is
    not a number or a boolean. *)
Definition well_typed_item (item : jsobj) : bool :=
  (negb (truthy (item !!! "method")) || is_jstring (item !!! "method")) &&
  match item !!! "callid" with JBool _ | JNumber _ => false | _ => true end.

Definition well_typed (items : list jsobj) : Prop :=
  Forall (fun item => well_typed_item item = true) items.

(** ** Lemmas *)

Lemma well_typed_forallb (items : list jsobj) :
  forallb well_typed_item items = true -> well_typed items.
Proof. unfold well_typed. rewrite Forall_forall, forallb_forall. intros H x Hx. by apply H, list_elem_of_In. Qed.

Lemma to_status_Mounted (r : res panel_state) (s : panel_state) :
  to_status r = Mounted s <-> r = Ok s.
Proof. destruct r; cbn; split; congruence. Qed.

Lemma commit_Ok (s s' : panel_state) :
  commit s = Ok s' ->
  exists filtered, filteredData (filters s) (processed s) = Ok filtered /\
    s' = run_effect s filtered /\ is_ok (render_panel s') = true.
Proof.
  unfold commit. destruct (render_panel s); cbn; [|done].
  destruct (filteredData (filters s) (processed s)) as [filtered|]; cbn; [|done].
  destruct (render_panel (run_effect s filtered)) eqn:E; cbn; [|done].
  intros [= <-]. exists filtered. by rewrite E.
Qed.

Lemma commit_settled (s s' : panel_state) :
  commit s = Ok s' ->
  (exists now, processed s = processedData (data s) now) -> ui_inv (filters s) ->
  settled s'.
Proof.
  intros (filtered & Hf & -> & Hr)%commit_Ok Hp Hinv. by split_and!.
Qed.

(** A render returns when the filter returns and the rows render. *)
Lemma render_panel_is_ok (s : panel_state) :
  is_ok (render_panel s) =
  is_ok (filteredData (filters s) (processed s)) &&
  (bool_decide (flowData s = []) || is_ok (render_rows (flowData s) 0)).
Proof.
  unfold render_panel. destruct (filteredData (filters s) (processed s)); cbn [res_bind]; [|done].
  case_decide as Hl.
  - apply nil_length_inv in Hl. by rewrite Hl.
  - rewrite bool_decide_false by (intros Hn; apply Hl; by rewrite Hn).
    by destruct (render_rows _ _).
Qed.

Lemma render_panel_toggle (s : panel_state) :
  is_ok (render_panel (toggleFilters s)) = is_ok (render_panel s).
Proof. by rewrite !render_panel_is_ok. Qed.

Lemma ui_handler_inv (available : list jsval) (f f' : FilterOptions) (e : ui_event) :
  ui_handler available f e = Some f' -> ui_inv f -> ui_inv f'.
Proof.
  intros He Hinv. pose proof (ui_step_inv available f e Hinv) as H.
  unfold ui_step in H. by rewrite He in H.
Qed.

(** Every mounted state that is reachable is settled. *)
Lemma reachable_settled (w : world) (s : panel_state) :
  panel_reachable w -> status w = Mounted s -> settled s.
Proof.
  intros Hw. revert s. induction Hw as [d now|w ev Hw IH]; intros s Hs.
  - apply to_status_Mounted in Hs. apply (commit_settled _ _ Hs); [by exists now|].
    split_and!; [constructor|by left|by left].
  - unfold panel_step in Hs. destruct (status w) as [s0|e] eqn:Ew; [|congruence].
    destruct (IH s0 eq_refl) as (Hp & Hf & Hh & Hinv & Hr).
    destruct ev as [d now|e| |i|b]; cbn in Hs.
    + apply to_status_Mounted in Hs. apply (commit_settled _ _ Hs); [by exists now|done].
    + destruct (showFilters s0 && _); [|rewrite Ew in Hs; simplify_eq; by split_and!].
      destruct (ui_handler _ _ _) as [f|] eqn:Eh; [|rewrite Ew in Hs; simplify_eq; by split_and!].
      apply to_status_Mounted in Hs. apply (commit_settled _ _ Hs); [done|].
      by eapply ui_handler_inv.
    + injection Hs as <-. split_and!; try done. by rewrite render_panel_toggle.
    + repeat case_match; rewrite ?Ew in Hs; simplify_eq/=; by split_and!.
    + injection Hs as <-. by split_and!.
Qed.

(** A row of the list renders as [render_flow_item] with the panel's
    [isSimplify]. *)
Lemma FlowItem_row (item : jsobj) (index : nat) :
  FlowItem theme toLocaleTimeString
    (mkFlowItemProps item index (Some isSimplify) None None (Some handleMessageClick))
  = render_flow_item theme toLocaleTimeString item index isSimplify.
Proof. reflexivity. Qed.

Lemma length_render_rows (items : list jsobj) (index : nat) rows :
  render_rows items index = Ok rows -> length rows = length items.
Proof.
  revert index rows. induction items as [|item items IH]; intros index rows H; cbn in H.
  - by injection H as <-.
  - destruct (FlowItem _ _ _); cbn in H; [|done].
    destruct (render_rows items (S index)) eqn:E; cbn in H; [|done].
    injection H as <-. cbn. f_equal. by eapply IH.
Qed.

(** A well-typed message's row renders. *)
Lemma render_flow_item_ok (item : jsobj) (index : nat) :
  well_typed_item item = true ->
  exists v, render_flow_item theme toLocaleTimeString item index isSimplify = Ok v.
Proof.
  unfold well_typed_item. intros [Hm _]%andb_prop. apply is_ok_Ok.
  rewrite render_flow_item_is_ok. unfold js_or.
  destruct (item !!! "method") as [| |[]|n|m]; cbn in *; try done;
    [destruct (Z.eqb n 0)|destruct (String.eqb m "")]; done.
Qed.

Lemma render_rows_ok (items : list jsobj) (index : nat) :
  well_typed items -> exists rows, render_rows items index = Ok rows.
Proof.
  revert index. induction items as [|item items IH]; intros index Hw; [by eexists|].
  apply Forall_cons in Hw as [Hi Hw].
  destruct (render_flow_item_ok item index Hi) as [v Hv].
  destruct (IH (S index) Hw) as [rows Hrows]. cbn [render_rows].
  rewrite FlowItem_row, Hv, Hrows. by eexists.
Qed.

Lemma filteredData_well_typed (f : FilterOptions) (items : list jsobj) :
  well_typed items -> exists r, filteredData f items = Ok r.
Proof.
  intros Hw. apply js_filter_total. intros item Hi.
  eapply Forall_forall in Hi; [|exact Hw]. unfold well_typed_item in Hi.
  apply andb_prop in Hi as [_ Hc].
  assert (exists c, callid_rejects f item = Ok c) as [c Hc'].
  { unfold callid_rejects, optional_includes. destruct (truthy _); [|by eexists].
    destruct (item !!! "callid"); cbn in Hc; try done; by eexists. }
  unfold keep_item. rewrite Hc'. cbn [res_bind]. repeat case_match; by eexists.
Qed.

Lemma render_panel_well_typed (s : panel_state) :
  well_typed (processed s) -> well_typed (flowData s) -> exists v, render_panel s = Ok v.
Proof.
  intros Hp Hf. unfold render_panel.
  destruct (filteredData_well_typed (filters s) _ Hp) as [r ->]. cbn.
  case_decide; cbn; [by eexists|].
  destruct (render_rows_ok (flowData s) 0 Hf) as [rows ->]. by eexists.
Qed.

Lemma well_typed_sublist (l r : list jsobj) : r `sublist_of` l -> well_typed l -> well_typed r.
Proof.
  unfold well_typed. rewrite !Forall_forall. intros Hs Hl x Hx.
  apply Hl. by eapply elem_of_sublist.
Qed.

(** A commit of well-typed messages returns, and keeps its rows
    well-typed. *)
Lemma commit_well_typed (s : panel_state) :
  well_typed (processed s) -> well_typed (flowData s) ->
  exists s', commit s = Ok s' /\ well_typed (flowData s').
Proof.
  intros Hp Hf. unfold commit.
  destruct (render_panel_well_typed s Hp Hf) as [v ->]. cbn.
  destruct (filteredData_well_typed (filters s) _ Hp) as [r Hr]. rewrite Hr. cbn.
  assert (well_typed r) as Hwr by (eapply well_typed_sublist; [by eapply js_filter_sublist|done]).
  destruct (render_panel_well_typed (run_effect s r) Hp Hwr) as [v' ->]. cbn.
  by eexists.
Qed.

(** Whether the rows render: no message has a truthy method that is
    not a string. *)
Lemma render_rows_is_ok (items : list jsobj) (index : nat) :
  is_ok (render_rows items index)
  = forallb (fun o => negb (truthy (o !!! "method") && negb (is_jstring (o !!! "method")))) items.
Proof.
  revert index. induction items as [|item items IH]; intros index; [done|].
  cbn [render_rows forallb]. rewrite FlowItem_row.
  pose proof (render_flow_item_is_ok theme toLocaleTimeString item index isSimplify) as H.
  rewrite method_key_or_ok in H. rewrite <-H, <-(IH (S index)).
  destruct (render_flow_item _ _ _ _ _); cbn; [|done].
  by destruct (render_rows items (S index)).
Qed.

(** The rows throw only the exception of [toUpperCase]. *)
Lemma render_rows_Throw (items : list jsobj) (index : nat) (e : js_error) :
  render_rows items index = Throw e -> e = TypeError "method?.toUpperCase is not a function".
Proof.
  revert index. induction items as [|item items IH]; intros index; [done|].
  cbn [render_rows]. rewrite FlowItem_row.
  destruct (render_flow_item _ _ _ _ _) eqn:Ei; cbn; [|intros [= <-]; by eapply render_flow_item_Throw].
  destruct (render_rows items (S index)) eqn:Er; cbn; [done|]. intros [= <-]. by eapply IH.
Qed.

(** The first render with the cleared filter: the effect lists every
    message, and the second render renders all their rows. *)
Lemma commit_mount (d : panel_data) (p : list jsobj) :
  commit (mkPanelState d p initial_filters false [] [])
  = (_ <- render_rows p 0 ;; Ok (run_effect (mkPanelState d p initial_filters false [] []) p)).
Proof.
  assert (filteredData initial_filters p = Ok p) as Hf
    by (apply js_filter_true; intros item _; apply keep_item_initial).
  unfold commit, render_panel. cbn [flowData processed filters run_effect].
  rewrite Hf. cbn [res_bind]. case_decide as H0; [|by destruct H0]. cbn [res_bind].
  case_decide as Hl; cbn [res_bind].
  - apply nil_length_inv in Hl as ->. done.
  - by destruct (render_rows p 0).
Qed.

(** Every event only appends to the dispatched events. *)
Lemma panel_step_prefix (w : world) (ev : panel_event) :
  dispatched w `prefix_of` dispatched (panel_step w ev).
Proof.
  unfold panel_step. destruct (status w) as [s|]; [|done].
  destruct ev; cbn; repeat case_match; cbn; try done; by eexists.
Qed.

(** One event on a mounted state with well-typed messages and rows,
    whose new data are well-typed, leaves the panel mounted with
    well-typed messages and rows. *)
Lemma panel_step_well_typed (w : world) (s : panel_state) (ev : panel_event) :
  status w = Mounted s -> well_typed (processed s) -> well_typed (flowData s) ->
  match ev with DataArrives d now => well_typed (processedData d now) | _ => True end ->
  exists s', status (panel_step w ev) = Mounted s' /\
    well_typed (processed s') /\ well_typed (flowData s').
Proof.
  intros Hs Hp Hf Hev. unfold panel_step. rewrite Hs.
  destruct ev as [d now|e| |i|b]; cbn.
  - destruct (commit_well_typed (with_data s d now) Hev Hf) as (s' & Hc & Hf').
    exists s'. rewrite Hc. apply commit_Ok in Hc as (r & _ & -> & _). by split_and!.
  - destruct (_ && _); [|by exists s].
    destruct (ui_handler _ _ _) as [f|]; [|by exists s].
    destruct (commit_well_typed (with_filters s f) Hp Hf) as (s' & Hc & Hf').
    exists s'. rewrite Hc. apply commit_Ok in Hc as (r & _ & -> & _). by split_and!.
  - by exists (toggleFilters s).
  - repeat case_match; by exists s.
  - by exists s.
Qed.

(** On an open, settled panel with well-typed messages, "Clear All
    Filters" leads to the list of all messages. *)
Lemma clear_click_lists_all (w : world) (s : panel_state) :
  status w = Mounted s -> settled s -> showFilters s = true -> well_typed (processed s) ->
  exists s', status (panel_step w (FilterInput ClearClick)) = Mounted s' /\
    processed s' = processed s /\ flowData s' = processed s.
Proof.
  intros Hs (_ & Hf & _) Hopen Hp. unfold panel_step. rewrite Hs, Hopen. cbn.
  destruct (truthy (hasActiveFilters (filters s))) eqn:Ea.
  - assert (well_typed (flowData s)) as Hwf
      by (eapply well_typed_sublist; [by eapply js_filter_sublist|done]).
    destruct (commit_well_typed (with_filters s handleClearFilters) Hp Hwf) as (s' & Hc & _).
    rewrite Hc. exists s'. split; [done|].
    apply commit_Ok in Hc as (filtered & Hfil & -> & _).
    rewrite filteredData_inactive in Hfil by done. by injection Hfil as <-.
  - exists s. rewrite filteredData_inactive in Hf by done. by injection Hf as <-.
Qed.

(** ** Theorems *)

(** C2. What a reachable panel shows is consistent: it renders, the count
    in the title is the number of rows, the empty state appears exactly
    when there is no row, and the host header is the facet of the
    unfiltered messages. *)
Theorem panel_view_consistent (w : world) (s : panel_state) :
  panel_reachable w -> status w = Mounted s ->
  exists v, render_panel s = Ok v /\
    shown_count v = length (flowData s) /\ total_count v = length (processed s) /\
    match body v with
    | EmptyState _ => flowData s = []
    | Rows rows => flowData s <> [] /\ length rows = length (flowData s)
    end /\
    host_headers v = react_text <$> extractedHosts (processed s).
Proof.
  intros Hw Hs. destruct (reachable_settled w s Hw Hs) as (_ & Hf & Hh & _ & Hr).
  destruct (render_panel s) as [v|] eqn:Ev; [|done]. exists v. split; [done|].
  unfold render_panel in Ev. rewrite Hf in Ev. cbn in Ev.
  case_decide as Hl; cbn in Ev.
  - injection Ev as <-. cbn. rewrite <-Hh. split_and!; [done|done|by apply nil_length_inv|].
    destruct (decide (0 < length (hosts s))) as [|Hn]; [done|].
    destruct (hosts s); [done|cbn in Hn; lia].
  - destruct (render_rows (flowData s) 0) as [rows|] eqn:Er; cbn in Ev; [|done].
    injection Ev as <-. cbn. rewrite <-Hh. split_and!; [done|done| | |].
    + intros Hn. apply Hl. by rewrite Hn.
    + by eapply length_render_rows.
    + destruct (decide (0 < length (hosts s))) as [|Hn]; [done|].
    destruct (hosts s); [done|cbn in Hn; lia].
Qed.

(** C5. An export event carries exactly the filtered list of the current
    state, as a value: section 4.6 of the design document asks for a
    snapshot. *)
Theorem export_payload_is_filtered (w : world) (s : panel_state) (b : export_button) :
  panel_reachable w -> status w = Mounted s ->
  exists p, panel_step w (ExportClick b) =
    mkWorld (Mounted s) (dispatched w ++
      [mkCustomEvent ("export-flow-as-" +:+ export_format b) (ExportDetail p)]) /\
    filteredData (filters s) (processed s) = Ok p.
Proof.
  intros Hw Hs. destruct (reachable_settled w s Hw Hs) as (_ & Hf & _).
  exists (flowData s). unfold panel_step. by rewrite Hs.
Qed.

(** C6. A click on a row dispatches the row's hash and message, and that
    message is one of the unfiltered messages which the current filter
    keeps. *)
Theorem click_event_item (w : world) (s : panel_state) (i : nat) (ev : custom_event) :
  panel_reachable w -> status w = Mounted s ->
  dispatched (panel_step w (ClickRow i)) = dispatched w ++ [ev] ->
  exists item, ev = handleMessageClick (item !!! "hash") item /\
    item ∈ processed s /\ keep_item (filters s) item = Ok true.
Proof.
  intros Hw Hs Hd. destruct (reachable_settled w s Hw Hs) as (_ & Hf & _).
  unfold panel_step in Hd. rewrite Hs in Hd. cbn in Hd.
  destruct (flowData s !! i) as [item|] eqn:Ei; cbn in Hd.
  - apply app_inv_head, (inj (fun x => [x])) in Hd as <-. exists item.
    apply list_elem_of_lookup_2 in Ei. split_and!; [done| |by eapply js_filter_elem].
    eapply elem_of_sublist; [exact Ei|]. by eapply js_filter_sublist.
  - apply (f_equal length) in Hd. rewrite length_app in Hd. cbn in Hd. lia.
Qed.

(** The dispatched events are only ever appended to: a consumer never
    sees an event change after it was dispatched. *)
Theorem dispatched_prefix (w : world) (evs : list panel_event) :
  dispatched w `prefix_of` dispatched (run w evs).
Proof.
  unfold run. revert w. induction evs as [|ev evs IH]; intros w; [done|].
  cbn. etransitivity; [apply panel_step_prefix|apply IH].
Qed.

(** C23. Section 4.5 of the design document: a filter input never changes
    the messages, so the host header and the facets stay as they were. *)
Theorem filter_input_keeps_facets (w : world) (s s' : panel_state) (e : ui_event) :
  panel_reachable w -> status w = Mounted s ->
  status (panel_step w (FilterInput e)) = Mounted s' ->
  processed s' = processed s /\ hosts s' = hosts s /\
  availableMethods (processed s') = availableMethods (processed s).
Proof.
  intros Hw Hs Hs'. destruct (reachable_settled w s Hw Hs) as (_ & _ & Hh & _).
  unfold panel_step in Hs'. rewrite Hs in Hs'. cbn in Hs'.
  destruct (_ && _); [|rewrite Hs in Hs'; by simplify_eq].
  destruct (ui_handler _ _ _) as [f|]; [|rewrite Hs in Hs'; by simplify_eq].
  apply to_status_Mounted, commit_Ok in Hs' as (r & _ & -> & _). by cbn.
Qed.

(** C24. Liveness of the "show everything" goal: from every reachable state
    whose messages are well typed, at most two clicks ("Show Filters"
    when the panel is closed, then "Clear All Filters") reach a mounted
    state that lists every message. *)
Theorem show_all_reachable (w : world) (s : panel_state) :
  panel_reachable w -> status w = Mounted s -> well_typed (processed s) ->
  exists s', status (run w ((if showFilters s then [] else [ToggleFilters]) ++
                             [FilterInput ClearClick])) = Mounted s' /\
    processed s' = processed s /\ flowData s' = processed s.
Proof.
  intros Hw Hs Hp. unfold run. destruct (showFilters s) eqn:Eo; cbn.
  - by apply clear_click_lists_all; [|eapply reachable_settled|..].
  - assert (status (panel_step w ToggleFilters) = Mounted (toggleFilters s)) as Ht
      by (unfold panel_step; by rewrite Hs).
    apply (clear_click_lists_all _ (toggleFilters s) Ht); [|by cbn; rewrite Eo|done].
    eapply reachable_settled; [by apply panel_reachable_step|exact Ht].
Qed.

(** C7. The panel never crashes when every data set it receives has
    well-typed messages: string methods (or none) and Call-IDs that are
    not numbers or booleans. *)
Theorem panel_never_crashes (d : panel_data) (now : clock) (evs : list panel_event) :
  well_typed (processedData d now) ->
  Forall (fun ev => match ev with
                    | DataArrives d' now' => well_typed (processedData d' now')
                    | _ => True end) evs ->
  exists s, status (run (mount d now) evs) = Mounted s.
Proof.
  intros Hd Hevs.
  destruct (commit_well_typed (mkPanelState d (processedData d now) initial_filters false [] [])
              Hd (Forall_nil_2 _)) as (s0 & Hc & Hf0).
  assert (status (mount d now) = Mounted s0) as Hs0 by (unfold mount; by rewrite Hc).
  assert (well_typed (processed s0)) as Hp0
    by (apply commit_Ok in Hc as (r & _ & -> & _); exact Hd).
  clear Hc.
  unfold run. revert Hs0. generalize (mount d now) as w. intros w Hw.
  revert s0 w Hw Hf0 Hp0 Hevs.
  induction evs as [|ev evs IH]; intros s0 w Hw Hf0 Hp0 Hevs; [by exists s0|].
  apply Forall_cons in Hevs as [Hev Hevs]. cbn.
  destruct (panel_step_well_typed w s0 ev Hw Hp0 Hf0 Hev) as (s1 & Hs1 & Hp1 & Hf1).
  exact (IH s1 _ Hs1 Hf1 Hp1 Hevs).
Qed.

(** C8. The first render crashes exactly when a message has a truthy
    method that is not a string (a number such as 200, or [true]):
    [FlowItem] calls [toUpperCase] on it for the colour of its row, and
    the exception unmounts the panel, against section 7 of the design
    document ("no fatal errors").  No other exception can end the first
    render. *)
Theorem numeric_method_crashes (d : panel_data) (now : clock) :
  (status (mount d now) = Crashed (TypeError "method?.toUpperCase is not a function") <->
   exists o, o ∈ processedData d now /\
     truthy (o !!! "method") = true /\ is_jstring (o !!! "method") = false) /\
  (forall e, status (mount d now) = Crashed e ->
     e = TypeError "method?.toUpperCase is not a function").
Proof.
  unfold mount. rewrite commit_mount. generalize (processedData d now) as p. intros p.
  pose proof (render_rows_is_ok p 0) as Hok.
  destruct (render_rows p 0) as [rows|e] eqn:E; cbn [res_bind to_status status].
  - split; [|done]. split; [done|]. intros (o & Ho & Ht & Hs).
    symmetry in Hok. cbn in Hok. eapply forallb_forall in Hok; [|by apply list_elem_of_In].
    by rewrite Ht, Hs in Hok.
  - apply render_rows_Throw in E as ->. split; [|naive_solver]. split; [|done]. intros _.
    symmetry in Hok. cbn in Hok. apply forallb_false_elem_of in Hok as (o & Ho & Hb).
    exists o. split; [done|].
    destruct (truthy _), (is_jstring _); naive_solver.
Qed.

(** Scenario 5 of the design document: an empty data set ([series: []])
    gives no message, no host, no method and the empty state, and no
    error. *)
Example empty_dataset_view (now : clock) :
  exists s v, status (mount (mkPanelData []) now) = Mounted s /\ render_panel s = Ok v /\
    body v = EmptyState "No data received from query" /\ host_headers v = [] /\
    total_count v = 0 /\ availableMethods (processed s) = [].
Proof.
  unfold mount. assert (processedData (mkPanelData []) now = []) as -> by reflexivity.
  cbn. do 2 eexists. split_and!; reflexivity.
Qed.

End Render.

(** ** Concrete instances *)

Definition sample_theme : theme_colors :=
  mkThemeColors "#1a7f37" "#d1242f" "#bf8700" "#0969da" "#3274d9" "#6e7781"
                "#2da44e" "#d4a72c" "#54aeff" "#8c959f" "#afb8c1" "#1f2328" "#656d76".

Definition sample_time (timestamp : jsval) : string := "12:00:00".

Definition state_of (w : world) : panel_state :=
  match status w with
  | Mounted s => s
  | Crashed _ => mkPanelState (mkPanelData []) [] initial_filters false [] []
  end.

Definition step1 := panel_step sample_theme sample_time false.

Definition scenario1_world : world := mount sample_theme sample_time false scenario1 sample_clock.

Definition invite_click : panel_event := FilterInput (MethodCheckboxClick (JString "INVITE")).

Definition opened_world : world := step1 scenario1_world ToggleFilters.

Lemma scenario1_reachable : panel_reachable sample_theme sample_time false scenario1_world.
Proof. apply panel_reachable_mount. Defined.

Lemma opened_reachable : panel_reachable sample_theme sample_time false opened_world.
Proof. apply panel_reachable_step, scenario1_reachable. Defined.

Lemma panel_view_consistent_witness :
  panel_reachable sample_theme sample_time false scenario1_world /\
  status scenario1_world = Mounted (state_of scenario1_world) /\
  exists v, render_panel sample_theme sample_time false (state_of scenario1_world) = Ok v /\
    shown_count v = 2 /\ total_count v = 2.
Proof.
  assert (status scenario1_world = Mounted (state_of scenario1_world)) as Hs
    by (vm_compute; reflexivity).
  split_and!; [exact scenario1_reachable|exact Hs|].
  destruct (panel_view_consistent _ _ _ _ _ scenario1_reachable Hs) as (v & Hv & Hc & Ht & _).
  exists v. split_and!; [exact Hv|rewrite Hc; vm_compute; reflexivity
                         |rewrite Ht; vm_compute; reflexivity].
Defined.

Lemma export_payload_is_filtered_witness :
  panel_reachable sample_theme sample_time false scenario1_world /\
  status scenario1_world = Mounted (state_of scenario1_world) /\
  exists p, step1 scenario1_world (ExportClick ExportTXT) =
    mkWorld (Mounted (state_of scenario1_world))
      [mkCustomEvent "export-flow-as-txt" (ExportDetail p)] /\
    filteredData (filters (state_of scenario1_world)) (processed (state_of scenario1_world)) = Ok p.
Proof.
  assert (status scenario1_world = Mounted (state_of scenario1_world)) as Hs
    by (vm_compute; reflexivity).
  split_and!; [exact scenario1_reachable|exact Hs|].
  exact (export_payload_is_filtered _ _ _ _ _ ExportTXT scenario1_reachable Hs).
Defined.

Lemma click_event_item_witness :
  let ev := handleMessageClick (scenario1_message0 sample_clock !!! "hash") (scenario1_message0 sample_clock) in
  panel_reachable sample_theme sample_time false scenario1_world /\
  status scenario1_world = Mounted (state_of scenario1_world) /\
  dispatched (step1 scenario1_world (ClickRow 0)) = dispatched scenario1_world ++ [ev] /\
  exists item, ev = handleMessageClick (item !!! "hash") item /\
    item ∈ processed (state_of scenario1_world) /\
    keep_item (filters (state_of scenario1_world)) item = Ok true.
Proof.
  cbv zeta.
  assert (status scenario1_world = Mounted (state_of scenario1_world)) as Hs
    by (vm_compute; reflexivity).
  assert (dispatched (step1 scenario1_world (ClickRow 0)) = dispatched scenario1_world ++
          [handleMessageClick (scenario1_message0 sample_clock !!! "hash") (scenario1_message0 sample_clock)])
    as Hd by (vm_compute; reflexivity).
  split_and!; [exact scenario1_reachable|exact Hs|exact Hd|].
  exact (click_event_item _ _ _ _ _ 0 _ scenario1_reachable Hs Hd).
Defined.

Lemma filter_input_keeps_facets_witness :
  panel_reachable sample_theme sample_time false opened_world /\
  status opened_world = Mounted (state_of opened_world) /\
  status (step1 opened_world invite_click) = Mounted (state_of (step1 opened_world invite_click)) /\
  processed (state_of (step1 opened_world invite_click)) = processed (state_of opened_world).
Proof.
  assert (status opened_world = Mounted (state_of opened_world)) as Hs
    by (vm_compute; reflexivity).
  assert (status (step1 opened_world invite_click)
          = Mounted (state_of (step1 opened_world invite_click))) as Hs'
    by (vm_compute; reflexivity).
  split_and!; [exact opened_reachable|exact Hs|exact Hs'|].
  exact (proj1 (filter_input_keeps_facets _ _ _ _ _ _ _ opened_reachable Hs Hs')).
Defined.

(** Scenario 1 with the filters opened and INVITE checked: a filter is
    active, and "Clear All Filters" is enabled. *)
Definition invite_world : world := step1 opened_world invite_click.

Lemma invite_reachable : panel_reachable sample_theme sample_time false invite_world.
Proof. apply panel_reachable_step, opened_reachable. Defined.

Lemma show_all_reachable_witness :
  panel_reachable sample_theme sample_time false invite_world /\
  status invite_world = Mounted (state_of invite_world) /\
  well_typed (processed (state_of invite_world)) /\
  showFilters (state_of invite_world) = true /\
  truthy (hasActiveFilters (filters (state_of invite_world))) = true /\
  length (flowData (state_of invite_world)) < length (processed (state_of invite_world)) /\
  exists s', status (run sample_theme sample_time false invite_world
                       ((if showFilters (state_of invite_world) then [] else [ToggleFilters]) ++
                        [FilterInput ClearClick])) = Mounted s' /\
    processed s' = processed (state_of invite_world) /\
    flowData s' = processed (state_of invite_world).
Proof.
  assert (status invite_world = Mounted (state_of invite_world)) as Hs
    by (vm_compute; reflexivity).
  assert (well_typed (processed (state_of invite_world))) as Hp
    by (apply well_typed_forallb; vm_compute; reflexivity).
  assert (showFilters (state_of invite_world) = true) as Ho by (vm_compute; reflexivity).
  assert (truthy (hasActiveFilters (filters (state_of invite_world))) = true) as Ha
    by (vm_compute; reflexivity).
  assert (length (flowData (state_of invite_world)) < length (processed (state_of invite_world)))
    as Hl by (vm_compute; lia).
  split_and!; [exact invite_reachable|exact Hs|exact Hp|exact Ho|exact Ha|exact Hl|].
  exact (show_all_reachable _ _ _ _ _ invite_reachable Hs Hp).
Defined.

(** Scenario 1 with the method column read as numbers where they are
    numeric: [method = [INVITE, 200]]. *)
Definition numeric_method_data : panel_data :=
  mkPanelData [mkSeries [mkField "source" [JString "A"; JString "B"];
                         mkField "destination" [JString "B"; JString "A"];
                         mkField "method" [JString "INVITE"; JNumber 200]]].

Lemma numeric_method_crashes_witness :
  (exists o, o ∈ processedData numeric_method_data sample_clock /\
     truthy (o !!! "method") = true /\ is_jstring (o !!! "method") = false) /\
  status (mount sample_theme sample_time false numeric_method_data sample_clock)
  = Crashed (TypeError "method?.toUpperCase is not a function").
Proof.
  assert (exists o, o ∈ processedData numeric_method_data sample_clock /\
     truthy (o !!! "method") = true /\ is_jstring (o !!! "method") = false) as H.
  { exists (default ∅ (processedData numeric_method_data sample_clock !! 1)).
    split_and!; [|vm_compute; reflexivity|vm_compute; reflexivity].
    apply (list_elem_of_lookup_2 _ 1). vm_compute. reflexivity. }
  split; [exact H|].
  exact (proj2 (proj1 (numeric_method_crashes sample_theme sample_time false
                         numeric_method_data sample_clock)) H).
Defined.

Lemma panel_never_crashes_witness :
  let evs := [ToggleFilters; invite_click; ExportClick ExportTXT; DataArrives scenario1 (fun i => 1800 + i)] in
  well_typed (processedData scenario1 sample_clock) /\
  Forall (fun ev => match ev with
                    | DataArrives d' now' => well_typed (processedData d' now')
                    | _ => True end) evs /\
  exists s, status (run sample_theme sample_time false (mount sample_theme sample_time false
                                                            scenario1 sample_clock) evs) = Mounted s.
Proof.
  cbv zeta.
  assert (well_typed (processedData scenario1 sample_clock)) as H1
    by (apply well_typed_forallb; vm_compute; reflexivity).
  assert (Forall (fun ev => match ev with
                    | DataArrives d' now' => well_typed (processedData d' now')
                    | _ => True end)
            [ToggleFilters; invite_click; ExportClick ExportTXT; DataArrives scenario1 (fun i => 1800 + i)]) as H2.
  { repeat constructor. }
  split_and!; [exact H1|exact H2|].
  exact (panel_never_crashes _ _ _ _ _ _ H1 H2).
Defined.

End FlowPanel.
