(* ===== verification/ReactLoop.v ===== *)
(** * The render and effect loop of the panel

    [commit] of [Panel] renders the component, runs the effect of
    FlowVisualization.tsx (lines 225-228) and renders once more.  This
    file derives that sequence from the way React schedules them.  A
    memo is recomputed, and an effect runs, only when one of its
    dependencies is a different object ([Object.is]); a [setState]
    schedules a new render only when the new value is a different
    object from the current one.

    The identities are kept explicitly.  [data_id] is the identity of
    the [data] prop and [filters_id] that of the [filters] state.  The
    memo [processedData] (deps [[data]], line 165) and with it
    [extractedHosts] (deps [[processedData]], line 182) change identity
    with [data]; [filteredData] (deps [[processedData, filters]], line
    222) changes with either.  [react_loop] renders, runs the effect when
    [[filteredData, extractedHosts]] changed identity since its last run,
    and renders again when the effect's [setFlowData] or [setHosts]
    changed the identity of a state.  Its fuel counts renders.

    The theorems show that the loop always stops after at most two
    renders, and that when the dependencies of the effect changed (new
    data, or a new filter object) it computes exactly [commit]: the
    sequence every theorem of [Panel] is stated over. *)

From S2P Require Import Prelude JsValue Normalize Enrich Filter Facets.
From S2P Require Import FilterPanel FlowItem Panel.
Import RowNormalizer MessageEnricher FilterEvaluator FacetExtractor FilterPanelModel
  FlowItemModel FlowPanel.

Module ReactLoop.

Definition res_map {A B} (f : A -> B) (m : res A) : res B :=
  match m with
  | Ok a => Ok (f a)
  | Throw e => Throw e
  end.

(** The state of the component with the identities React compares. *)
Record fiber : Type := mkFiber {
  fstate : panel_state;
  data_id : nat;
  filters_id : nat;
  (** [[filteredData, extractedHosts]] at the last run of the effect. *)
  effect_deps : option ((nat * nat) * nat);
  (** The [filteredData] the [flowData] state was last set to; [None] for
      the initial [[]]. *)
  flowData_id : option (nat * nat);
  (** The [extractedHosts] the [hosts] state was last set to. *)
  hosts_id : option nat
}.

(** The identities of the two memos the effect depends on. *)
Definition filteredData_id (fb : fiber) : nat * nat := (data_id fb, filters_id fb).

Definition extractedHosts_id (fb : fiber) : nat := data_id fb.

Definition deps_id (fb : fiber) : (nat * nat) * nat := (filteredData_id fb, extractedHosts_id fb).

(** The fiber after the effect ran on the current memos, with state [s]. *)
Definition after_effect (fb : fiber) (s : panel_state) : fiber :=
  mkFiber s (data_id fb) (filters_id fb)
          (Some (deps_id fb)) (Some (filteredData_id fb)) (Some (extractedHosts_id fb)).

(** The effect: [setFlowData(filteredData); setHosts(extractedHosts)].
    The boolean tells whether a state changed identity, which schedules
    a render. *)
Definition effect_pass (fb : fiber) (filtered : list jsobj) : fiber * bool :=
  (after_effect fb (run_effect (fstate fb) filtered),
   negb (bool_decide (flowData_id fb = Some (filteredData_id fb))) ||
   negb (bool_decide (hosts_id fb = Some (extractedHosts_id fb)))).

Section Loop.

Context (theme : theme_colors) (toLocaleTimeString : jsval -> string) (isSimplify : bool).

(** One pass: render; run the effect if its dependencies changed.  The
    boolean tells whether the effect scheduled another render.  A render
    that throws unmounts the component. *)
Definition react_pass (fb : fiber) : res (fiber * bool) :=
  _ <- render_panel theme toLocaleTimeString isSimplify (fstate fb) ;;
  if bool_decide (effect_deps fb = Some (deps_id fb)) then Ok (fb, false)
  else filtered <- filteredData (filters (fstate fb)) (processed (fstate fb)) ;;
       Ok (effect_pass fb filtered).

(** The passes, as long as one schedules another; the fuel counts
    renders. *)
Fixpoint react_loop (fuel : nat) (fb : fiber) : option (res fiber) :=
  match fuel with
  | 0 => None
  | S fuel' =>
      match react_pass fb with
      | Throw e => Some (Throw e)
      | Ok (fb', true) => react_loop fuel' fb'
      | Ok (fb', false) => Some (Ok fb')
      end
  end.

(** The two states hold the values the effect last set. *)
Definition fiber_ok (fb : fiber) : Prop :=
  flowData_id fb = fst <$> effect_deps fb /\ hosts_id fb = snd <$> effect_deps fb.

(** ** Lemmas *)

(** A pass whose effect dependencies are up to date only renders: the
    case of [ToggleFilters] in [panel_step], where no memo changes. *)
Lemma react_pass_settled (fb : fiber) :
  effect_deps fb = Some (deps_id fb) ->
  react_pass fb = res_map (fun _ => (fb, false))
                    (render_panel theme toLocaleTimeString isSimplify (fstate fb)).
Proof.
  intros Hd. unfold react_pass. destruct (render_panel _ _ _ _); cbn [res_bind]; [|done].
  by rewrite bool_decide_true.
Qed.

(** After the effect its dependencies are up to date, so the next pass
    only renders. *)
Lemma react_pass_after_effect (fb : fiber) (filtered : list jsobj) :
  react_pass (effect_pass fb filtered).1
  = res_map (fun _ => ((effect_pass fb filtered).1, false))
      (render_panel theme toLocaleTimeString isSimplify (run_effect (fstate fb) filtered)).
Proof. by apply react_pass_settled. Qed.

(** A pass that schedules another ran the effect, and the next pass
    only renders. *)
Lemma react_pass_rerender (fb fb' : fiber) :
  react_pass fb = Ok (fb', true) ->
  exists filtered, fb' = (effect_pass fb filtered).1 /\
    react_pass fb' = res_map (fun _ => (fb', false))
      (render_panel theme toLocaleTimeString isSimplify (run_effect (fstate fb) filtered)).
Proof.
  unfold react_pass at 1. destruct (render_panel _ _ _ _); cbn [res_bind]; [|done].
  case_bool_decide; [done|]. destruct (filteredData _ _) as [filtered|]; cbn [res_bind]; [|done].
  pose proof (react_pass_after_effect fb filtered) as Hnext.
  destruct (effect_pass fb filtered) as [fb'' b] eqn:Ep. intros [= <- ->].
  exists filtered. by rewrite Ep.
Qed.

(** A changed dependency of the effect means a changed state. *)
Lemma effect_pass_rerender (fb : fiber) (filtered : list jsobj) :
  fiber_ok fb -> effect_deps fb <> Some (deps_id fb) -> (effect_pass fb filtered).2 = true.
Proof.
  intros [Hf Hh] Hd. cbn. rewrite Hf, Hh.
  destruct (effect_deps fb) as [[f h]|]; cbn; [|done].
  unfold deps_id in Hd. destruct (decide (f = filteredData_id fb)) as [->|Hne].
  - rewrite bool_decide_true by done. cbn.
    rewrite bool_decide_false by congruence. done.
  - rewrite bool_decide_false by congruence. done.
Qed.

(** When the dependencies of the effect changed, the loop ends on the
    state of [commit], with the effect's dependencies up to date. *)
Lemma react_loop_effect (fuel : nat) (fb : fiber) :
  fiber_ok fb -> effect_deps fb <> Some (deps_id fb) -> 2 <= fuel ->
  react_loop fuel fb
  = Some (res_map (after_effect fb) (commit theme toLocaleTimeString isSimplify (fstate fb))).
Proof.
  intros Hok Hd Hf. destruct fuel as [|[|fuel]]; [lia|lia|]. cbn [react_loop]. unfold commit.
  unfold react_pass at 1. destruct (render_panel _ _ _ (fstate fb)); cbn [res_bind]; [|done].
  rewrite bool_decide_false by done.
  destruct (filteredData _ _) as [filtered|]; cbn [res_bind]; [|done].
  pose proof (effect_pass_rerender fb filtered Hok Hd) as Hr.
  destruct (effect_pass fb filtered) as [fb' rr] eqn:E. cbn in Hr. subst rr.
  replace fb' with (effect_pass fb filtered).1 by by rewrite E.
  rewrite react_pass_after_effect.
  by destruct (render_panel _ _ _ (run_effect (fstate fb) filtered)).
Qed.

(** The fiber after the effect is consistent and settled. *)
Lemma after_effect_settled (fb : fiber) (s : panel_state) :
  fiber_ok (after_effect fb s) /\ effect_deps (after_effect fb s) = Some (deps_id (after_effect fb s)).
Proof. done. Qed.

(** ** Theorems *)

(** C18. The loop stops after at most two renders: with two passes of fuel it
    returns, and more fuel does not change the result. *)
Theorem react_loop_terminates (fuel : nat) (fb : fiber) :
  2 <= fuel -> react_loop fuel fb = react_loop 2 fb /\ react_loop 2 fb <> None.
Proof.
  intros Hf. destruct fuel as [|[|fuel]]; [lia|lia|]. cbn [react_loop].
  destruct (react_pass fb) as [[fb' []]|e] eqn:E; [|by split|by split].
  destruct (react_pass_rerender _ _ E) as (filtered & _ & ->).
  by destruct (render_panel _ _ _ _).
Qed.

(** C14. When the dependencies of the effect changed, the loop computes
    [commit]: render, run the effect with the filtered list, render
    again, and an exception of either render or of the filter is the
    result. *)
Theorem react_loop_commit (fuel : nat) (fb : fiber) :
  fiber_ok fb -> effect_deps fb <> Some (deps_id fb) -> 2 <= fuel ->
  res_map fstate <$> react_loop fuel fb = Some (commit theme toLocaleTimeString isSimplify (fstate fb)).
Proof.
  intros Hok Hd Hf. rewrite (react_loop_effect fuel fb Hok Hd Hf). cbn.
  by destruct (commit _ _ _ _).
Qed.

End Loop.

(** The fiber of a first render: the state of [mount], no effect run yet
    and the states at their initial values. *)
Definition mount_fiber (d : panel_data) (now : clock) : fiber :=
  mkFiber (mkPanelState d (processedData d now) initial_filters false [] []) 0 0 None None None.

(** ** Concrete instances *)

Lemma react_loop_terminates_witness :
  2 <= 3 /\
  react_loop sample_theme sample_time false 3 (mount_fiber scenario1 sample_clock)
  = react_loop sample_theme sample_time false 2 (mount_fiber scenario1 sample_clock) /\
  react_loop sample_theme sample_time false 2 (mount_fiber scenario1 sample_clock) <> None.
Proof.
  assert (2 <= 3) as H by lia. split; [exact H|].
  exact (react_loop_terminates sample_theme sample_time false 3 _ H).
Defined.

Lemma react_loop_commit_witness :
  fiber_ok (mount_fiber scenario1 sample_clock) /\
  effect_deps (mount_fiber scenario1 sample_clock) <> Some (deps_id (mount_fiber scenario1 sample_clock)) /\
  res_map fstate <$> react_loop sample_theme sample_time false 2 (mount_fiber scenario1 sample_clock)
  = Some (commit sample_theme sample_time false (fstate (mount_fiber scenario1 sample_clock))).
Proof.
  assert (fiber_ok (mount_fiber scenario1 sample_clock)) as H1 by (split; reflexivity).
  assert (effect_deps (mount_fiber scenario1 sample_clock) <> Some (deps_id (mount_fiber scenario1 sample_clock)))
    as H2 by discriminate.
  assert (2 <= 2) as H3 by lia.
  split_and!; [exact H1|exact H2|].
  exact (react_loop_commit sample_theme sample_time false 2 _ H1 H2 H3).
Defined.

End ReactLoop.
