(* ===== verification/ReactPanel.v ===== *)
(** * The panel as React runs it

    [panel_step] of [Panel] is the abstract semantics of one event: a
    state update is followed by [commit], the toggle by nothing but a
    render that cannot fail, a click and an export by no render at all.
    This file runs the same events the way React does, on the [fiber] of
    [ReactLoop]: every [setState] and every new [data] prop triggers the
    render/effect loop, and the identities decide whether the memos and
    the effect run again.  New data is a new [data] object (the host
    passes a new [PanelData]); a filter handler builds a new [filters]
    object ([{...filters, ...}]); the toggle changes neither, and the
    click and export handlers set no state.  React stops a component
    whose updates nest more than [nested_update_limit] times ("Maximum
    update depth exceeded"); that is the fuel of the loop here.

    The theorem is a simulation: for every data set and every sequence of
    events, the React run and the abstract run are related at every step.
    Both are mounted with the same state, the fiber has its effect up to
    date, both crashed with the same exception, and both dispatched the
    same events; the update depth is never exceeded.  Every theorem of
    [Panel] therefore speaks of what React executes. *)

From S2P Require Import Prelude JsValue Normalize Enrich Filter Facets.
From S2P Require Import FilterPanel FlowItem Panel ReactLoop.
Import RowNormalizer MessageEnricher FilterEvaluator FacetExtractor FilterPanelModel
  FlowItemModel FlowPanel ReactLoop.

Module ReactPanel.

(** React's limit on nested updates ([NESTED_UPDATE_LIMIT]). *)
Definition nested_update_limit : nat := 50.

Inductive fiber_status : Type :=
| FMounted (fb : fiber)
| FCrashed (e : js_error)
| FUpdateDepthExceeded.

Record fiber_world : Type := mkFiberWorld {
  fstatus : fiber_status;
  fdispatched : list custom_event
}.

(** A state update: the new state, and whether the [data] prop and the
    [filters] state are new objects. *)
Definition update (fb : fiber) (s : panel_state) (new_data new_filters : bool) : fiber :=
  mkFiber s (if new_data then S (data_id fb) else data_id fb)
          (if new_filters then S (filters_id fb) else filters_id fb)
          (effect_deps fb) (flowData_id fb) (hosts_id fb).

Section Step.

Context (theme : theme_colors) (toLocaleTimeString : jsval -> string) (isSimplify : bool).

(** The render/effect loop after an update. *)
Definition loop_status (fb : fiber) : fiber_status :=
  match react_loop theme toLocaleTimeString isSimplify nested_update_limit fb with
  | Some (Ok fb') => FMounted fb'
  | Some (Throw e) => FCrashed e
  | None => FUpdateDepthExceeded
  end.

Definition react_mount (d : panel_data) (now : clock) : fiber_world :=
  mkFiberWorld (loop_status (mount_fiber d now)) [].

(** One event as React runs it. *)
Definition fiber_step (fw : fiber_world) (ev : panel_event) : fiber_world :=
  match fstatus fw with
  | FMounted fb =>
      let s := fstate fb in
      match ev with
      | DataArrives d now =>
          mkFiberWorld (loop_status (update fb (with_data s d now) true false)) (fdispatched fw)
      | FilterInput e =>
          if showFilters s && select_offered (extractedHosts (processed s)) e then
            match ui_handler (availableMethods (processed s)) (filters s) e with
            | Some f =>
                mkFiberWorld (loop_status (update fb (with_filters s f) false true))
                             (fdispatched fw)
            | None => fw
            end
          else fw
      | ToggleFilters =>
          mkFiberWorld (loop_status (update fb (toggleFilters s) false false)) (fdispatched fw)
      | ClickRow i =>
          match flowData s !! i with
          | Some item =>
              match handleClick (Some handleMessageClick) item with
              | Some e => mkFiberWorld (FMounted fb) (fdispatched fw ++ [e])
              | None => fw
              end
          | None => fw
          end
      | ExportClick b =>
          mkFiberWorld (FMounted fb) (fdispatched fw ++ [handleExport (flowData s) (export_format b)])
      end
  | _ => fw
  end.

(** ** The simulation relation *)

Definition status_rel (fs : fiber_status) (ps : panel_status) : Prop :=
  match fs, ps with
  | FMounted fb, Mounted s => fstate fb = s /\ fiber_ok fb /\ effect_deps fb = Some (deps_id fb)
  | FCrashed e, Crashed e' => e = e'
  | _, _ => False
  end.

Definition fiber_rel (fw : fiber_world) (w : world) : Prop :=
  fdispatched fw = dispatched w /\ status_rel (fstatus fw) (status w).

(** ** Lemmas *)

Lemma update_ok (fb : fiber) (s : panel_state) (nd nf : bool) :
  fiber_ok fb -> fiber_ok (update fb s nd nf).
Proof. done. Qed.

(** A new [data] or [filters] object changes the dependencies of the
    effect. *)
Lemma update_new_deps (fb : fiber) (s : panel_state) (nd nf : bool) :
  effect_deps fb = Some (deps_id fb) -> nd || nf = true ->
  effect_deps (update fb s nd nf) <> Some (deps_id (update fb s nd nf)).
Proof.
  intros Hd Hn. cbn. rewrite Hd. unfold deps_id, filteredData_id, extractedHosts_id. cbn.
  destruct nd, nf; cbn in *; [| | |done]; intros [=]; lia.
Qed.

(** An update whose effect dependencies changed commits. *)
Lemma loop_status_commit (fb : fiber) :
  fiber_ok fb -> effect_deps fb <> Some (deps_id fb) ->
  status_rel (loop_status fb) (to_status (commit theme toLocaleTimeString isSimplify (fstate fb))).
Proof.
  intros Hok Hd. unfold loop_status.
  rewrite (react_loop_effect _ _ _ _ fb Hok Hd) by (unfold nested_update_limit; lia).
  destruct (commit _ _ _ _); cbn; [|done]. split; [done|apply after_effect_settled].
Qed.

(** An update that changes no dependency only renders. *)
Lemma loop_status_render (fb : fiber) :
  effect_deps fb = Some (deps_id fb) ->
  loop_status fb = match render_panel theme toLocaleTimeString isSimplify (fstate fb) with
                   | Ok _ => FMounted fb
                   | Throw e => FCrashed e
                   end.
Proof.
  intros Hd. unfold loop_status, nested_update_limit. cbn [react_loop].
  rewrite react_pass_settled by done. by destruct (render_panel _ _ _ _).
Qed.

Lemma panel_reachable_run (w : world) (evs : list panel_event) :
  panel_reachable theme toLocaleTimeString isSimplify w ->
  panel_reachable theme toLocaleTimeString isSimplify (run theme toLocaleTimeString isSimplify w evs).
Proof.
  revert w. induction evs as [|ev evs IH]; intros w Hw; [done|].
  apply IH. by apply panel_reachable_step.
Qed.

(** One event keeps the React run and the abstract run related. *)
Lemma fiber_step_rel (fw : fiber_world) (w : world) (ev : panel_event) :
  panel_reachable theme toLocaleTimeString isSimplify w -> fiber_rel fw w ->
  fiber_rel (fiber_step fw ev) (panel_step theme toLocaleTimeString isSimplify w ev).
Proof.
  intros Hw Hrel. pose proof Hrel as [Hdisp Hst]. unfold fiber_step, panel_step.
  destruct (fstatus fw) as [fb|e|] eqn:Ef, (status w) as [s|e'] eqn:Ew; cbn in Hst; try done.
  - destruct Hst as (<- & Hok & Hd). destruct ev as [d now|e| |i|b]; cbn.
    + split; [done|]. apply loop_status_commit; [by apply update_ok|by apply update_new_deps].
    + destruct (_ && _); [|exact Hrel].
      destruct (ui_handler _ _ _) as [f|]; [|exact Hrel].
      split; [done|]. apply loop_status_commit; [by apply update_ok|by apply update_new_deps].
    + split; [done|]. rewrite loop_status_render by done. cbn.
      destruct (reachable_settled _ _ _ _ _ Hw Ew) as (_ & _ & _ & _ & Hr).
      rewrite <-(render_panel_toggle _ _ _ (fstate fb)) in Hr.
      destruct (render_panel _ _ _ _); [|done]. done.
    + destruct (flowData (fstate fb) !! i) as [item|]; [|exact Hrel].
      cbn. split; [by rewrite Hdisp|]. done.
    + split; [by rewrite Hdisp|]. done.
Qed.

Lemma react_mount_rel (d : panel_data) (now : clock) :
  fiber_rel (react_mount d now) (mount theme toLocaleTimeString isSimplify d now).
Proof. split; [done|]. apply loop_status_commit; [by split|discriminate]. Qed.

(** ** Theorems *)

(** C13. The abstract runs of [Panel] are what React executes: from the
    first render of any data set, after any sequence of events, the
    React run and the run of [panel_step] are both mounted with the same
    state (the fiber's effect up to date) or both crashed with the same
    exception, have dispatched the same window events, and React never
    reaches its update depth limit. *)
Theorem react_run_simulates_panel (d : panel_data) (now : clock) (evs : list panel_event) :
  fiber_rel (foldl fiber_step (react_mount d now) evs)
            (run theme toLocaleTimeString isSimplify (mount theme toLocaleTimeString isSimplify d now) evs).
Proof.
  unfold run. pose proof (react_mount_rel d now) as Hrel.
  pose proof (panel_reachable_mount theme toLocaleTimeString isSimplify d now) as Hw.
  revert Hrel Hw. generalize (react_mount d now) (mount theme toLocaleTimeString isSimplify d now).
  induction evs as [|ev evs IH]; intros fw w Hrel Hw; [done|]. cbn.
  apply IH; [by apply fiber_step_rel|by apply panel_reachable_step].
Qed.

End Step.

(** ** Concrete instances *)

(** Scenario 1 with the filters opened and INVITE checked: React ends
    with the one INVITE row, one new filters object and the data object
    of the first render. *)
Example react_run_scenario1 :
  match fstatus (foldl (fiber_step sample_theme sample_time false)
                       (react_mount sample_theme sample_time false scenario1 sample_clock)
                       [ToggleFilters; invite_click]) with
  | FMounted fb => length (flowData (fstate fb)) = 1 /\ filters_id fb = 1 /\ data_id fb = 0
  | _ => False
  end.
Proof. vm_compute. split_and!; reflexivity. Qed.

End ReactPanel.
