(* ===== verification/Types.v ===== *)
(** * The declared types: types.ts and the props interfaces

    types.ts declares the options of the panel, [FlowOptions], whose
    fields are an [OptionValue] ([string | string[]]), the sort choice
    and two flags.  The components declare the types of their props:
    [FlowItemProps] (FlowItem.tsx, lines 6-25) types the message a row
    receives, and [FilterOptions] (FilterPanel.tsx, lines 16-27) the
    filter state.  TypeScript does not check the values of the data
    frame, which are [any], against these types at run time.

    [ts_type] is the part of the type language the interfaces use and
    [has_type] its run-time membership, after the [data_type] judgement
    of the JSON data models.  An interface is a list of property
    declarations and [conforms] checks an object against it; an index
    signature [[key: string]: any] admits every other property.

    The theorems show what the pipeline guarantees of the declared
    types.  When every column of the frame holds values of the type its
    name has in [FlowItemProps], every message [processedData] hands to
    a row conforms to the interface exactly when it has a string source
    and a string destination: the enricher always writes numeric
    positions and a string hash, and only the two required endpoints can
    be missing.  The filter state stays within [FilterOptions] as long
    as the hosts and methods of the data are strings. *)

From S2P Require Import Prelude JsValue Normalize Hosts Enrich Facets Filter.
From S2P Require Import FilterPanel FlowItem Panel.
Import RowNormalizer EndpointPositions MessageEnricher FacetExtractor FilterEvaluator
  FilterPanelModel FlowItemModel FlowPanel.

Module TsTypes.

(** ** types.ts *)

(** [type OptionValue = string | string[]]. *)
Inductive OptionValue : Type :=
| OptString (s : string)
| OptStrings (l : list string).

(** [sortoption: "none" | "time_old" | "time_new"]. *)
Inductive sortoption_t : Type :=
| SortNone
| SortTimeOld
| SortTimeNew.

(** [interface FlowOptions]; the optional [isSimplify?] is an option. *)
Record FlowOptions : Type := mkFlowOptions {
  title : OptionValue;
  aboveArrow : OptionValue;
  belowArrow : OptionValue;
  details : OptionValue;
  sourceLabel : OptionValue;
  destinationLabel : OptionValue;
  source : OptionValue;
  destination : OptionValue;
  sortoption : sortoption_t;
  colorGenerator : OptionValue;
  showbody : bool;
  isSimplify : option bool
}.

(** [isSimplify={options.isSimplify}] reaches [FlowItem], whose
    parameter defaults to [false] (FlowItem.tsx, line 159). *)
Definition flow_isSimplify (o : FlowOptions) : bool := default false (isSimplify o).

(** ** Run-time membership of the declared types *)

Inductive ts_type : Type :=
| TString
| TNumber
| TBool
| TAny.

Definition has_type (v : jsval) (t : ts_type) : bool :=
  match t, v with
  | TString, JString _ | TNumber, JNumber _ | TBool, JBool _ | TAny, _ => true
  | _, _ => false
  end.

(** A property declaration [name?: type]. *)
Record prop_decl : Type := mkPropDecl {
  prop_name : string;
  prop_optional : bool;
  prop_type : ts_type
}.

(** A value of a property: one of its type, or [undefined] when the
    property is optional. *)
Definition value_fits (d : prop_decl) (v : jsval) : bool :=
  has_type v (prop_type d) || (prop_optional d && bool_decide (v = JUndefined)).

Definition decl_ok (o : jsobj) (d : prop_decl) : bool :=
  match o !! prop_name d with
  | None => prop_optional d
  | Some v => value_fits d v
  end.

Definition conforms (decls : list prop_decl) (o : jsobj) : bool := forallb (decl_ok o) decls.

(** [FlowItemProps['item']], FlowItem.tsx lines 7-19; the index
    signature admits the other properties. *)
Definition FlowItemProps_item : list prop_decl :=
  [mkPropDecl "hash" false TString; mkPropDecl "source" false TString;
   mkPropDecl "destination" false TString; mkPropDecl "sourcePosition" false TNumber;
   mkPropDecl "destinationPosition" false TNumber; mkPropDecl "timestamp" true TString;
   mkPropDecl "method" true TString; mkPropDecl "callid" true TString;
   mkPropDecl "labels" true TAny; mkPropDecl "messageID" false TNumber].

(** The declaration of a property name, [None] for the index signature. *)
Definition decl_of (decls : list prop_decl) (k : string) : option prop_decl :=
  List.find (fun d => String.eqb (prop_name d) k) decls.

(** [FilterOptions], FilterPanel.tsx lines 16-27: the two selects and
    the method list hold strings.  The other fields are strings and a
    boolean in the record itself. *)
Definition filters_conform (f : FilterOptions) : bool :=
  forallb (fun v => has_type v TString) (methodFilter f) &&
  has_type (sourceFilter f) TString && has_type (destinationFilter f) TString.

(** ** Typed frames *)

(** A column fits the declaration of its key, if the key has one. *)
Definition column_fits (key : string) (v : jsval) : bool :=
  match decl_of FlowItemProps_item key with
  | Some d => value_fits d v
  | None => true
  end.

Fixpoint fields_typed (fs : list field) (index : nat) : bool :=
  match fs with
  | [] => true
  | f :: fs' => forallb (column_fits (field_key f index)) (values f) && fields_typed fs' (S index)
  end.

(** The frame a panel receives is typed when its first series is. *)
Definition data_typed (d : panel_data) : bool :=
  match series_list d with
  | [] => true
  | s :: _ => fields_typed (fields s) 0
  end.

(** ** Lemmas *)

Lemma has_type_string (v : jsval) : has_type v TString = is_jstring v.
Proof. by destruct v. Qed.

(** A required string property is present exactly when it is a string. *)
Lemma decl_ok_required_string (o : jsobj) (k : string) :
  decl_ok o (mkPropDecl k false TString) = is_jstring (o !!! k).
Proof. unfold decl_ok, value_fits. cbn. rewrite lookup_total_alt. by destruct (o !! k) as [[]|]. Qed.

(** A cell of a row comes from the new row or from a field. *)
Lemma row_ref_go_lookup (fs : list field) (index i : nat) (o : jsobj) (k : string) (v : jsval) :
  row_ref_go fs index i o !! k = Some v ->
  o !! k = Some v \/
  exists j f, fs !! j = Some f /\ field_key f (index + j) = k /\ values f !! i = Some v.
Proof.
  revert index o. induction fs as [|f fs IH]; intros index o H; cbn in H; [by left|].
  apply IH in H as [H|(j & f' & Hj & Hk & Hv)].
  - destruct (values f !! i) as [w|] eqn:E; [|by left].
    apply lookup_insert_Some in H as [[<- <-]|[_ H]]; [|by left].
    right. exists 0, f. rewrite Nat.add_0_r. done.
  - right. exists (S j), f'. rewrite <-Hk. split_and!; [done|f_equal; lia|done].
Qed.

Lemma fields_typed_lookup (fs : list field) (index j i : nat) (f : field) (v : jsval) :
  fields_typed fs index = true -> fs !! j = Some f -> values f !! i = Some v ->
  column_fits (field_key f (index + j)) v = true.
Proof.
  revert index j. induction fs as [|f' fs IH]; intros index j Hfs Hj Hv; [done|].
  cbn in Hfs. apply andb_prop in Hfs as [Hf Hfs]. destruct j as [|j]; cbn in Hj.
  - injection Hj as ->. rewrite Nat.add_0_r. eapply forallb_forall; [exact Hf|].
    by eapply list_elem_of_In, list_elem_of_lookup_2.
  - replace (index + S j) with (S index + j) by lia. by eapply IH.
Qed.

(** Every cell of a row of a typed frame fits the declaration of its
    key; the row index is the one cell of its own. *)
Lemma row_ref_fits (fs : list field) (i : nat) (k : string) (v : jsval) :
  fields_typed fs 0 = true -> row_ref fs i !! k = Some v ->
  (k = "messageID" /\ v = JNumber (Z.of_nat i)) \/ column_fits k v = true.
Proof.
  intros Hfs H. apply row_ref_go_lookup in H as [H|(j & f & Hj & <- & Hv)].
  - left. unfold new_row in H. apply lookup_singleton_Some in H as [<- <-]. done.
  - right. by eapply fields_typed_lookup.
Qed.

(** An optional declared property of a row of a typed frame is absent
    or fits. *)
Lemma decl_ok_row (fs : list field) (i : nat) (d : prop_decl) :
  fields_typed fs 0 = true -> decl_of FlowItemProps_item (prop_name d) = Some d ->
  prop_optional d = true -> decl_ok (row_ref fs i) d = true.
Proof.
  intros Hfs Hd Ho. unfold decl_ok. destruct (row_ref fs i !! prop_name d) as [v|] eqn:E; [|done].
  apply (row_ref_fits _ _ _ _ Hfs) in E as [[Hk _]|H].
  - rewrite Hk in Hd. cbn in Hd. injection Hd as <-. done.
  - unfold column_fits in H. by rewrite Hd in H.
Qed.

Lemma decl_ok_enrich_row (positions : gmap jsval nat) (now : nat) (msg : jsobj) (d : prop_decl) :
  prop_name d <> "sourcePosition" -> prop_name d <> "destinationPosition" ->
  prop_name d <> "hash" ->
  decl_ok (enrich_row positions now msg) d = decl_ok msg d.
Proof. intros. unfold decl_ok. by rewrite lookup_enrich_row_other. Qed.

(** The enricher writes a string hash when the row's own hash, if any,
    is a string. *)
Lemma enrich_row_hash_string (positions : gmap jsval nat) (now : nat) (msg : jsobj) :
  (forall v, msg !! "hash" = Some v -> is_jstring v = true) ->
  is_jstring (enrich_row positions now msg !!! "hash") = true.
Proof.
  intros Hh. rewrite enrich_row_hash, lookup_total_alt. unfold js_or.
  destruct (msg !! "hash") as [v|] eqn:E; cbn; [|done].
  specialize (Hh v eq_refl). by destruct v, (truthy _).
Qed.

Lemma decl_ok_positions (positions : gmap jsval nat) (now : nat) (msg : jsobj) :
  decl_ok (enrich_row positions now msg) (mkPropDecl "sourcePosition" false TNumber) = true /\
  decl_ok (enrich_row positions now msg) (mkPropDecl "destinationPosition" false TNumber) = true.
Proof.
  unfold decl_ok, enrich_row. cbn [prop_name]. rewrite !position_or_0_spec. by simplify_map_eq.
Qed.

Lemma row_ref_go_is_Some (fs : list field) (index i : nat) (o : jsobj) (k : string) :
  is_Some (o !! k) -> is_Some (row_ref_go fs index i o !! k).
Proof.
  revert index o. induction fs as [|f fs IH]; intros index o Ho; cbn; [done|].
  apply IH. destruct (values f !! i); [|done].
  destruct (decide (field_key f index = k)) as [->|Hne]; [by rewrite lookup_insert_eq|].
  by rewrite lookup_insert_ne.
Qed.

(** The row index of a typed frame is a number. *)
Lemma decl_ok_messageID (fs : list field) (i : nat) :
  fields_typed fs 0 = true -> decl_ok (row_ref fs i) (mkPropDecl "messageID" false TNumber) = true.
Proof.
  intros Hfs. unfold decl_ok. cbn [prop_name].
  destruct (row_ref_go_is_Some fs 0 i (new_row i) "messageID") as [v Hv]; [by eexists|].
  unfold row_ref. rewrite Hv. apply (row_ref_fits _ _ _ _ Hfs) in Hv as [[_ ->]|H]; [done|].
  exact H.
Qed.

(** A truthy cell of a row of a typed frame under a key declared
    [string] is a string. *)
Lemma row_string_cell (fs : list field) (i : nat) (k : string) (d : prop_decl) :
  fields_typed fs 0 = true -> decl_of FlowItemProps_item k = Some d -> prop_type d = TString ->
  truthy (row_ref fs i !!! k) = true -> is_jstring (row_ref fs i !!! k) = true.
Proof.
  intros Hfs Hd Ht. rewrite lookup_total_alt.
  destruct (row_ref fs i !! k) as [v|] eqn:E; cbn; [|done].
  apply (row_ref_fits _ _ _ _ Hfs) in E as [[-> _]|H].
  - cbn in Hd. injection Hd as <-. discriminate Ht.
  - unfold column_fits, value_fits in H. rewrite Hd, Ht in H. destruct v; cbn in *; intros; try done; by rewrite bool_decide_false, andb_false_r in H.
Qed.

(** The hosts and methods of a typed frame are strings. *)
Lemma facets_typed (d : panel_data) (now : clock) :
  data_typed d = true ->
  Forall (fun v => is_jstring v = true) (extractedHosts (processedData d now)) /\
  Forall (fun v => is_jstring v = true) (availableMethods (processedData d now)).
Proof.
  unfold data_typed. destruct d as [[|s ss]]; intros Hd; cbn [series_list] in Hd; [done|].
  split; apply Forall_forall; intros v Hv.
  - rewrite extractedHosts_eq_sortedHosts in Hv. unfold sortedHosts in Hv.
    apply elem_of_js_sort_default, elem_of_uniqueHosts in Hv as (msg & Hm & Hh).
    rewrite normalize_rows_eq in Hm. apply list_elem_of_fmap in Hm as (i & [= ->] & _).
    destruct Hh as [[Ht ->]|[Ht ->]]; by eapply row_string_cell.
  - unfold availableMethods, facet_sets in Hv. rewrite elem_of_js_sort_default in Hv.
    apply elem_of_methods_go in Hv as [[]%elem_of_nil|(item & Hi & Ht & ->)].
    apply elem_of_processedData in Hi as (i & _ & ->).
    rewrite lookup_total_alt, lookup_enrich_row_other, <-lookup_total_alt in * by done.
    by eapply row_string_cell.
Qed.

Lemma forallb_string (l : list jsval) :
  forallb (fun v => has_type v TString) l = true <-> Forall (fun v => is_jstring v = true) l.
Proof.
  rewrite forallb_forall, Forall_forall.
  split; intros H x Hx; cbv beta in *; [rewrite <-has_type_string|rewrite has_type_string];
    apply H; by apply list_elem_of_In.
Qed.

(** A select offers the empty value and the hosts of the header. *)
Lemma select_value_string (header : list jsval) (o : option jsval) :
  Forall (fun v => is_jstring v = true) header ->
  (forall v, o = Some v -> v ∈ JString "" :: header) ->
  has_type (select_value o) TString = true.
Proof.
  intros Hh Ho. destruct o as [v|]; [|done]. cbn [select_value]. unfold js_or.
  destruct (truthy v); [|done]. rewrite has_type_string.
  specialize (Ho v eq_refl). apply elem_of_cons in Ho as [->|Ho]; [done|].
  rewrite Forall_forall in Hh. by apply Hh.
Qed.

(** An action on the panel keeps the filter state within
    [FilterOptions] when the methods and the hosts it offers are
    strings. *)
Lemma ui_handler_conform (available header : list jsval) (f f' : FilterOptions) (e : ui_event) :
  Forall (fun v => is_jstring v = true) available ->
  Forall (fun v => is_jstring v = true) header ->
  select_offered header e = true -> ui_handler available f e = Some f' ->
  filters_conform f = true -> filters_conform f' = true.
Proof.
  intros Ha Hh Ho He. unfold filters_conform.
  rewrite !andb_true_iff, !forallb_string. intros [[Hm Hs] Hd].
  destruct e as [v|o|o|v|m| |]; cbn in He; try case_match; simplify_eq; cbn;
    split_and!; try done.
  - eapply select_value_string; [exact Hh|]. intros v ->. cbn in Ho.
    by apply bool_decide_eq_true in Ho.
  - eapply select_value_string; [exact Hh|]. intros v ->. cbn in Ho.
    by apply bool_decide_eq_true in Ho.
  - unfold toggled_methods. case_match.
    + apply Forall_app; split; [done|]. apply Forall_singleton. rewrite Forall_forall in Ha. by apply Ha.
    + rewrite Forall_forall in *. intros x Hx. apply list_elem_of_filter in Hx as [_ Hx]. by apply Hm.
Qed.

Section Panel.

Context (theme : theme_colors) (toLocaleTimeString : jsval -> string) (isSimplify : bool).

(** New data come from a typed frame. *)
Definition event_typed (ev : panel_event) : bool :=
  match ev with
  | DataArrives d _ => data_typed d
  | _ => true
  end.

(** The worlds reached from typed frames. *)
Inductive typed_reachable : world -> Prop :=
| typed_reachable_mount d now :
    data_typed d = true -> typed_reachable (mount theme toLocaleTimeString isSimplify d now)
| typed_reachable_step w ev :
    typed_reachable w -> event_typed ev = true ->
    typed_reachable (panel_step theme toLocaleTimeString isSimplify w ev).

Definition typed_state (s : panel_state) : Prop :=
  data_typed (data s) = true /\ (exists now, processed s = processedData (data s) now) /\
  filters_conform (filters s) = true.

Lemma commit_typed (s s' : panel_state) :
  commit theme toLocaleTimeString isSimplify s = Ok s' -> typed_state s -> typed_state s'.
Proof. intros (r & _ & -> & _)%commit_Ok H. exact H. Qed.

End Panel.

(** ** Theorems *)

(** C15. The messages of a typed frame conform to [FlowItemProps] exactly when
    their two required endpoints are strings: the positions, the hash
    and the row index always have their declared types, and the
    optional properties keep the types of their columns. *)
Theorem processedData_conforms (s : series) (ss : list series) (now : clock) (o : jsobj) :
  fields_typed (fields s) 0 = true -> o ∈ processedData (mkPanelData (s :: ss)) now ->
  conforms FlowItemProps_item o = is_jstring (o !!! "source") && is_jstring (o !!! "destination").
Proof.
  intros Hfs (i & _ & ->)%elem_of_processedData.
  set (positions := hostPositions (normalize_rows s)).
  unfold conforms, FlowItemProps_item. cbn [forallb].
  rewrite !decl_ok_required_string, enrich_row_hash_string.
  2:{ intros v Hv. apply (row_ref_fits _ _ _ _ Hfs) in Hv as [[? _]|Hv]; [done|].
      unfold column_fits, value_fits in Hv. cbn in Hv. rewrite orb_false_r in Hv.
      by rewrite <-has_type_string. }
  destruct (decl_ok_positions positions (now i) (row_ref (fields s) i)) as [-> ->].
  rewrite !decl_ok_enrich_row by done.
  rewrite decl_ok_messageID by done.
  rewrite !decl_ok_row by done.
  by rewrite !andb_true_r, andb_true_l.
Qed.

(** C17. The filter state of every panel reached from typed frames stays
    within [FilterOptions]: the method list and the two selects hold
    strings, because the panel offers only the methods and hosts of the
    current messages. *)
Theorem typed_reachable_filters (theme : theme_colors) (toLocaleTimeString : jsval -> string)
    (isSimplify : bool) (w : world) (s : panel_state) :
  typed_reachable theme toLocaleTimeString isSimplify w -> status w = Mounted s ->
  filters_conform (filters s) = true /\ data_typed (data s) = true.
Proof.
  intros Hw Hs. enough (typed_state s) as (Hd & _ & Hc) by done.
  revert s Hs. induction Hw as [d now Hd|w ev Hw IH Hev]; intros s Hs.
  - apply to_status_Mounted in Hs. eapply commit_typed; [exact Hs|].
    split_and!; [done|by exists now|done].
  - unfold panel_step in Hs. destruct (status w) as [s0|e] eqn:Ew; [|congruence].
    destruct (IH s0 eq_refl) as (Hd & [now Hp] & Hc).
    destruct ev as [d now'|e| |i|b]; cbn in Hs.
    + apply to_status_Mounted in Hs. eapply commit_typed; [exact Hs|].
      split_and!; [exact Hev|by exists now'|exact Hc].
    + destruct (showFilters s0 && _) eqn:Eo;
        [|rewrite Ew in Hs; simplify_eq; split_and!; by eauto].
      destruct (ui_handler _ _ _) as [f|] eqn:Eh;
        [|rewrite Ew in Hs; simplify_eq; split_and!; by eauto].
      apply to_status_Mounted in Hs. eapply commit_typed; [exact Hs|].
      split_and!; [done|by exists now|]. cbn.
      apply andb_prop in Eo as [_ Eo]. rewrite Hp in Eo, Eh.
      destruct (facets_typed (data s0) now Hd) as [Hh Hm].
      exact (ui_handler_conform _ _ _ _ _ Hm Hh Eo Eh Hc).
    + injection Hs as <-. split_and!; by eauto.
    + repeat case_match; rewrite ?Ew in Hs; simplify_eq/=; split_and!; by eauto.
    + injection Hs as <-. split_and!; by eauto.
Qed.

(** ** Concrete instances *)

(** A typed frame whose source column is shorter than the others: row 1
    has no source. *)
Definition partial_series : series :=
  mkSeries [mkField "source" [JString "A"];
            mkField "destination" [JString "B"; JString "A"];
            mkField "method" [JString "INVITE"; JString "200"]].

Definition partial_message : jsobj :=
  default ∅ (processedData (mkPanelData [partial_series]) sample_clock !! 1).

Lemma processedData_conforms_witness :
  fields_typed (fields partial_series) 0 = true /\
  partial_message ∈ processedData (mkPanelData [partial_series]) sample_clock /\
  conforms FlowItemProps_item partial_message = false.
Proof.
  assert (fields_typed (fields partial_series) 0 = true) as H1 by (vm_compute; reflexivity).
  assert (partial_message ∈ processedData (mkPanelData [partial_series]) sample_clock) as H2.
  { apply (list_elem_of_lookup_2 _ 1). vm_compute. reflexivity. }
  split_and!; [exact H1|exact H2|].
  rewrite (processedData_conforms _ _ _ _ H1 H2). vm_compute. reflexivity.
Defined.

Definition invite_world : world := step1 opened_world invite_click.

Lemma typed_reachable_filters_witness :
  typed_reachable sample_theme sample_time false invite_world /\
  status invite_world = Mounted (state_of invite_world) /\
  methodFilter (filters (state_of invite_world)) = [JString "INVITE"] /\
  filters_conform (filters (state_of invite_world)) = true.
Proof.
  assert (typed_reachable sample_theme sample_time false invite_world) as Hr.
  { unfold invite_world, opened_world, step1, scenario1_world.
    apply typed_reachable_step; [|reflexivity].
    apply typed_reachable_step; [|reflexivity].
    apply typed_reachable_mount. vm_compute. reflexivity. }
  assert (status invite_world = Mounted (state_of invite_world)) as Hs
    by (vm_compute; reflexivity).
  split_and!; [exact Hr|exact Hs|vm_compute; reflexivity|].
  exact (proj1 (typed_reachable_filters _ _ _ _ _ Hr Hs)).
Defined.

End TsTypes.
