(* ===== verification/TemplateEditor.v ===== *)
(** * The template editor

    TemplateEditor.tsx is an option editor of the plug-in.  It holds
    one state, [isOpen], and renders a [Collapse] that shows a preview
    [FlowVisualization] while it is open.  The preview gets mock panel
    props whose data has no series (lines 22-55).  The props object is
    built anew on every render of the editor, so each re-render hands
    the preview a fresh, empty [data] prop.  The mock options
    ([mock_options], a [FlowOptions] of types.ts) leave [isSimplify]
    undefined, so the rows use their default [false].

    [editor_step] is one event: the collapse toggle (which mounts a new
    preview or unmounts it), a re-render of the editor by its parent,
    or an event inside the preview.  The theorem shows that whatever
    happens, an open preview is mounted and shows the empty state "No
    data received from query": scenario 5 of the design document. *)

From S2P Require Import Prelude JsValue Normalize Enrich Filter Facets.
From S2P Require Import FilterPanel FlowItem Panel Types.
Import RowNormalizer MessageEnricher FilterEvaluator FacetExtractor FilterPanelModel
  FlowItemModel FlowPanel.

Module TemplatePreview.

Section Editor.

Context (theme : theme_colors) (toLocaleTimeString : jsval -> string).

(** [data: { series: [], ... }]. *)
Definition mock_data : panel_data := mkPanelData [].

(** [options: { title: '', ..., sortoption: 'none', colorGenerator: '',
    showbody: false } as FlowOptions]: no [isSimplify]. *)
Definition mock_options : TsTypes.FlowOptions :=
  {| TsTypes.title := TsTypes.OptString ""; TsTypes.aboveArrow := TsTypes.OptString "";
     TsTypes.belowArrow := TsTypes.OptString ""; TsTypes.details := TsTypes.OptString "";
     TsTypes.sourceLabel := TsTypes.OptString ""; TsTypes.destinationLabel := TsTypes.OptString "";
     TsTypes.source := TsTypes.OptString ""; TsTypes.destination := TsTypes.OptString "";
     TsTypes.sortoption := TsTypes.SortNone; TsTypes.colorGenerator := TsTypes.OptString "";
     TsTypes.showbody := false; TsTypes.isSimplify := None |}.

(** The [isSimplify] the preview's rows receive. *)
Definition preview_isSimplify : bool := TsTypes.flow_isSimplify mock_options.

(** The state hook [isOpen] and the mounted preview, present exactly
    while the collapse is open. *)
Record editor_state : Type := mkEditorState {
  isOpen : bool;
  preview : option world
}.

Definition initial_editor : editor_state := mkEditorState false None.

Inductive editor_event : Type :=
| CollapseToggle (now : clock)
| EditorRerender (now : clock)
| PreviewEvent (ev : panel_event).

Definition preview_step (w : world) (ev : panel_event) : world :=
  panel_step theme toLocaleTimeString preview_isSimplify w ev.

(** [onToggle={() => setIsOpen(!isOpen)}]: opening mounts a new
    preview, closing unmounts it.  A re-render passes a new [data]
    object, so the preview's [processedData] memo runs again. *)
Definition editor_step (st : editor_state) (e : editor_event) : editor_state :=
  match e with
  | CollapseToggle now =>
      if isOpen st then mkEditorState false None
      else mkEditorState true (Some (mount theme toLocaleTimeString preview_isSimplify mock_data now))
  | EditorRerender now =>
      mkEditorState (isOpen st) (fmap (fun w => preview_step w (DataArrives mock_data now))
                                      (preview st))
  | PreviewEvent ev => mkEditorState (isOpen st) (fmap (fun w => preview_step w ev) (preview st))
  end.

Definition editor_run (evs : list editor_event) : editor_state :=
  foldl editor_step initial_editor evs.

(** ** Lemmas *)

(** A preview state without messages and rows. *)
Definition empty_preview (w : world) : Prop :=
  exists s, status w = Mounted s /\ processed s = [] /\ flowData s = [].

Lemma render_panel_empty (s : panel_state) :
  processed s = [] -> flowData s = [] ->
  exists v, render_panel theme toLocaleTimeString preview_isSimplify s = Ok v /\
    body v = EmptyState "No data received from query".
Proof.
  intros Hp Hf. unfold render_panel. rewrite Hp, Hf. cbn. by eexists.
Qed.

Lemma commit_empty (s : panel_state) :
  processed s = [] -> flowData s = [] ->
  commit theme toLocaleTimeString preview_isSimplify s = Ok (run_effect s []).
Proof.
  intros Hp Hf. unfold commit.
  destruct (render_panel_empty s Hp Hf) as [v [-> _]]. cbn [res_bind].
  rewrite Hp. cbn [filteredData js_filter res_bind].
  destruct (render_panel_empty (run_effect s []) Hp eq_refl) as [v' [-> _]]. done.
Qed.

Lemma mount_empty (now : clock) :
  empty_preview (mount theme toLocaleTimeString preview_isSimplify mock_data now).
Proof.
  unfold mount. rewrite commit_empty by done. by eexists.
Qed.

(** Every event keeps the preview empty: its data never has a row. *)
Lemma preview_step_empty (w : world) (ev : panel_event) :
  empty_preview w ->
  (forall d now, ev = DataArrives d now -> d = mock_data) ->
  empty_preview (preview_step w ev).
Proof.
  intros (s & Hs & Hp & Hf) Hev. unfold preview_step, panel_step. rewrite Hs.
  destruct ev as [d now|e| |i|b]; cbn.
  - rewrite (Hev d now eq_refl). rewrite commit_empty by done. by eexists.
  - destruct (_ && _); [|by exists s].
    destruct (ui_handler _ _ _) as [f|]; [|by exists s].
    rewrite commit_empty by done. by eexists.
  - by exists (toggleFilters s).
  - rewrite Hf. by exists s.
  - by exists s.
Qed.

Lemma editor_step_empty (st : editor_state) (e : editor_event) :
  (forall w, preview st = Some w -> empty_preview w) ->
  (match e with PreviewEvent (DataArrives _ _) => False | _ => True end) ->
  forall w, preview (editor_step st e) = Some w -> empty_preview w.
Proof.
  intros Hst He w. destruct e as [now|now|ev]; cbn.
  - destruct (isOpen st); [done|]. intros [= <-]. apply mount_empty.
  - destruct (preview st) as [w0|]; [|done]. intros [= <-].
    by apply preview_step_empty; [apply Hst|intros ? ? [= -> _]].
  - destruct (preview st) as [w0|]; [|done]. intros [= <-].
    apply preview_step_empty; [by apply Hst|]. by intros d now ->.
Qed.

(** ** Theorems *)

(** C34. The preview of the editor, whenever it is open, is mounted and
    shows the empty state "No data received from query", whatever the
    user does inside it.  The events inside the preview are those of
    the user: new data comes only from re-renders of the editor. *)
Theorem preview_shows_empty_state (evs : list editor_event) (w : world) :
  Forall (fun e => match e with PreviewEvent (DataArrives _ _) => False | _ => True end) evs ->
  preview (editor_run evs) = Some w ->
  exists s v, status w = Mounted s /\
    render_panel theme toLocaleTimeString preview_isSimplify s = Ok v /\
    body v = EmptyState "No data received from query".
Proof.
  intros Hevs. unfold editor_run.
  assert (forall w, preview initial_editor = Some w -> empty_preview w) as H0 by done.
  revert H0. generalize initial_editor as st.
  induction evs as [|e evs IH]; intros st Hst Hw.
  - destruct (Hst w Hw) as (s & Hs & Hp & Hf).
    destruct (render_panel_empty s Hp Hf) as (v & Hv & Hb). by exists s, v.
  - apply Forall_cons in Hevs as [He Hevs]. cbn in Hw.
    eapply IH; [done| |exact Hw]. by apply editor_step_empty.
Qed.

End Editor.

(** ** Concrete instances *)

Lemma preview_shows_empty_state_witness :
  let evs := [CollapseToggle sample_clock; PreviewEvent ToggleFilters;
              PreviewEvent (FilterInput (SearchInput "INV")); EditorRerender (fun i => 1800 + i);
              PreviewEvent (ExportClick ExportPNG)] in
  Forall (fun e => match e with PreviewEvent (DataArrives _ _) => False | _ => True end) evs /\
  preview (editor_run sample_theme sample_time evs)
    = Some (default (mount sample_theme sample_time preview_isSimplify mock_data sample_clock)
                    (preview (editor_run sample_theme sample_time evs))) /\
  exists s v, status (default (mount sample_theme sample_time preview_isSimplify mock_data sample_clock)
                              (preview (editor_run sample_theme sample_time evs))) = Mounted s /\
    render_panel sample_theme sample_time preview_isSimplify s = Ok v /\
    body v = EmptyState "No data received from query".
Proof.
  cbv zeta.
  assert (Forall (fun e => match e with PreviewEvent (DataArrives _ _) => False | _ => True end)
            [CollapseToggle sample_clock; PreviewEvent ToggleFilters;
             PreviewEvent (FilterInput (SearchInput "INV")); EditorRerender (fun i => 1800 + i);
             PreviewEvent (ExportClick ExportPNG)]) as H1 by repeat constructor.
  match goal with |- _ /\ ?P /\ _ => assert P as H2 by (vm_compute; reflexivity) end.
  split_and!; [exact H1|exact H2|].
  exact (preview_shows_empty_state sample_theme sample_time _ _ H1 H2).
Defined.

End TemplatePreview.
