(* ===== verification/DetailItem.v ===== *)
(** * One detail line of a message

    DetailItem.tsx renders one [[key, value]] entry of a message.  The
    value is first tested as a date: when [new Date(value).getTime()]
    is positive, the value is replaced by the string
    [`${new Date(value).toISOString()} | ${value}`] (lines 27-30).  The
    result is then tested as JSON ([JSON.parse], lines 31-33) and as
    multi-line text (line 34).  A truthy value is shown either in a
    block (JSON viewer or [<pre>]) under the full key, or in a grid row
    whose key label is cut to 12 characters and "..." when it is longer
    than 15 (lines 63-78).

    [Date.parse] of a string and [JSON.parse] are implementation
    library calls; they are variables of the section ([date_parse]
    returns the time value or [None] for NaN, [json_typeof] the
    [typeof] of the parsed value or [None] for a SyntaxError).  The
    conversions of the other values to a date are written out.

    The theorems show three things.  The render throws a [TypeError]
    exactly on [false] and on the numbers that are not a valid positive
    time: [value?.includes] does not exist on them.  Every positive
    number, a response code such as 200 included, is shown as a 1970
    date.  The grid label never has more than 15 characters. *)

From S2P Require Import Prelude JsValue JsString JsDate.
Import JsDate.

Module DetailItemModel.

(** ** Labels (lines 65-66) *)

(** [key.length > 15 ? key.slice(0, 12) + '...' : key]. *)
Definition grid_label (key : string) : string :=
  if 15 <? String.length key then String.substring 0 12 key +:+ "..." else key.

(** The tooltip: [key.length > 15 ? `${key}: ${tooltip}` : tooltip]; an
    absent tooltip prints as "undefined" in the template. *)
Definition grid_tooltip (key : string) (tooltip : option string) : option string :=
  if 15 <? String.length key
  then Some (key +:+ ": " +:+ default "undefined" tooltip)
  else tooltip.

Section Render.

Context (date_parse : string -> option Z) (json_typeof : string -> option string).

(** [new Date(value).getTime()]: a string is parsed, every other value
    is converted to a number; the result goes through TimeClip. *)
Definition date_time (value : jsval) : option Z :=
  match value with
  | JUndefined => None
  | JNull => time_clip 0
  | JBool b => time_clip (if b then 1 else 0)
  | JNumber n => time_clip n
  | JString s => date_parse s ≫= time_clip
  end.

(** Lines 27-30: a positive time value replaces [value] by the ISO
    string and the original value. *)
Definition timestamp_value (value : jsval) : jsval :=
  match date_time value with
  | Some t => if (0 <? t)%Z then JString (toISOString t +:+ " | " +:+ js_to_string value)
              else value
  | None => value
  end.

(** Lines 31-33: [typeof JSON.parse(value) === 'object'], [false] when
    it throws. *)
Definition is_json (value : jsval) : bool :=
  match json_typeof (js_to_string value) with
  | Some "object" => true
  | _ => false
  end.

(** The string ['\n']. *)
Definition newline : string := String (Ascii.ascii_of_nat 10) EmptyString.

(** Line 34: [!!value?.includes('\n') || value?.length > 50].  The
    method [includes] does not exist on numbers and booleans. *)
Definition is_multi_line (value : jsval) : res bool :=
  match value with
  | JUndefined | JNull => Ok false
  | JString s => Ok (js_includes s newline || (50 <? String.length s))
  | JBool _ | JNumber _ => Throw (TypeError "value?.includes is not a function")
  end.

Inductive detail_body : Type :=
| JsonBody (data : string) (viewer_theme : string)
| PreBody (text : string).

Inductive detail_view : Type :=
| NoDetail
| BlockDetail (label : string) (tooltip : option string) (b : detail_body) (copy : string)
| GridDetail (label : string) (tooltip : option string) (text : string) (copy : string).

(** The component, lines 23-82. *)
Definition DetailItem (key : string) (value : jsval) (theme : string) (tooltip : option string)
    : res detail_view :=
  let value := timestamp_value value in
  let isJSON := is_json value in
  isMultiLine <- is_multi_line value ;;
  if negb (truthy value) then Ok NoDetail
  else if isJSON || isMultiLine then
    Ok (BlockDetail key tooltip
          (if isJSON
           then JsonBody (react_text value) (if String.eqb theme "Dark" then "dark" else "light")
           else PreBody (react_text value))
          (react_text value))
  else Ok (GridDetail (grid_label key) (grid_tooltip key tooltip) (react_text value)
                      (react_text value)).

(** [interface Props], lines 18-22: [item] is an entry [[key, value]]
    of the message. *)
Record DetailItemProps : Type := mkDetailItemProps {
  di_item : string * jsval;
  di_theme : string;
  di_tooltip : option string
}.

(** [({ item, theme, tooltip }: Props) => { let [key, value] = item; ...}],
    lines 23-24. *)
Definition DetailItem_props (p : DetailItemProps) : res detail_view :=
  let '(key, value) := di_item p in DetailItem key value (di_theme p) (di_tooltip p).

(** The text of the value the line shows. *)
Definition shown_value (v : detail_view) : option string :=
  match v with
  | NoDetail => None
  | BlockDetail _ _ _ copy | GridDetail _ _ _ copy => Some copy
  end.

(** ** Lemmas *)

Lemma DetailItem_is_ok (key : string) (value : jsval) (theme : string) (tooltip : option string) :
  is_ok (DetailItem key value theme tooltip) = is_ok (is_multi_line (timestamp_value value)).
Proof.
  unfold DetailItem. destruct (is_multi_line _); cbn; [|done].
  by repeat case_match.
Qed.

Lemma truthy_app_sep (a b : string) : truthy (JString (a +:+ " | " +:+ b)) = true.
Proof. by destruct a. Qed.

(** ** Theorems *)

(** C21. A detail line throws a [TypeError] exactly when its value is
    [false] or a number that is not a valid positive time value: those
    values stay non-strings, and [value?.includes] does not exist on
    them. *)
Theorem DetailItem_throws (key : string) (value : jsval) (theme : string)
    (tooltip : option string) :
  is_ok (DetailItem key value theme tooltip) = false <->
  value = JBool false \/ exists n, value = JNumber n /\ ~ (0 < n <= 8640000000000000)%Z.
Proof.
  rewrite DetailItem_is_ok. unfold timestamp_value, date_time, time_clip.
  destruct value as [| |[]|n|str]; cbn.
  - naive_solver.
  - naive_solver.
  - naive_solver.
  - naive_solver.
  - destruct (Z.abs n <=? 8640000000000000)%Z eqn:E1; [destruct (0 <? n)%Z eqn:E2|]; cbn.
    + split; [done|]. intros [?|(m & [= <-] & Hm)]; [done|].
      apply Z.leb_le in E1. apply Z.ltb_lt in E2. lia.
    + split; [|done]. intros _. right. exists n. split; [done|]. apply Z.ltb_ge in E2. lia.
    + split; [|done]. intros _. right. exists n. split; [done|]. apply Z.leb_gt in E1. lia.
  - destruct (date_parse str ≫= _) as [t|]; cbn; [destruct (0 <? t)%Z|]; cbn; naive_solver.
Qed.

(** C22. Every positive number that is a valid time value is shown as a date
    followed by the number: a response code 200 shows as
    "1970-01-01T00:00:00.200Z | 200". *)
Theorem number_shown_as_date (key : string) (n : Z) (theme : string) (tooltip : option string) :
  (0 < n <= 8640000000000000)%Z ->
  exists v, DetailItem key (JNumber n) theme tooltip = Ok v /\
    shown_value v = Some (toISOString n +:+ " | " +:+ js_to_string (JNumber n)).
Proof.
  intros Hn. unfold DetailItem, timestamp_value, date_time, time_clip.
  rewrite (proj2 (Z.leb_le _ _)) by lia. rewrite (proj2 (Z.ltb_lt _ _)) by lia.
  cbn iota beta. rewrite truthy_app_sep. cbn. by case_match; eexists.
Qed.

End Render.

Lemma length_substring_0 (n : nat) (s : string) :
  n <= String.length s -> String.length (String.substring 0 n s) = n.
Proof.
  revert s. induction n as [|n IH]; intros s Hn; [by destruct s|].
  destruct s as [|c s]; cbn in *; [lia|]. f_equal. apply IH. lia.
Qed.

(** The key label of a grid line has at most 15 characters, and it is
    the key itself when the key is that short. *)
Theorem grid_label_bound (key : string) :
  String.length (grid_label key) <= 15 /\
  (String.length key <= 15 -> grid_label key = key).
Proof.
  unfold grid_label. destruct (Nat.ltb_spec 15 (String.length key)) as [Hl|Hl].
  - split; [|lia]. rewrite string_length_app, length_substring_0 by lia. done.
  - done.
Qed.

(** ** Concrete instances *)

Lemma number_shown_as_date_witness :
  (0 < 200 <= 8640000000000000)%Z /\
  toISOString 200 +:+ " | " +:+ js_to_string (JNumber 200) = "1970-01-01T00:00:00.200Z | 200" /\
  exists v, DetailItem (fun _ => None) (fun _ => None) "response_code" (JNumber 200) "Dark" None
              = Ok v /\
    shown_value v = Some (toISOString 200 +:+ " | " +:+ js_to_string (JNumber 200)).
Proof.
  assert ((0 < 200 <= 8640000000000000)%Z) as H by lia.
  split; [exact H|split; [vm_compute; reflexivity|]].
  exact (number_shown_as_date (fun _ => None) (fun _ => None) "response_code" 200 "Dark" None H).
Defined.

End DetailItemModel.
